(** * RAG Document Q&A backend: a shallow embedding of [backend/server.py]

    The development follows the layout of the server: Python string helpers,
    exceptions and the handler monad, the SQLite tables, token verification,
    the per-user session registry, text extraction, the three RAG chains and
    finally the request handlers [logout], [upload_document] and
    [ask_question].  The vocabulary of the statements and the sample data
    follow, and then the theorems.

    Modelling conventions.
    - A Python [str] is a [string]; one [ascii] stands for one character, so
      [String.length] is Python's [len] and prefixes are slices.  Texts are
      thereby restricted to the code points below 256; literals of the source
      that contain other characters are written by their UTF-8 bytes (their
      length is never taken).
    - External collaborators (clock, PDF reader, web loader, text splitter,
      vector index, language model, database faults) are the fields of an
      environment record [Env]; a call that may raise returns a [reply].
    - A handler is a function from the world (database, session registry, log)
      to a new world and an outcome; a raised exception keeps the world as it
      was at the raise, which is what Python does to mutated objects. *)

From Stdlib Require Import String Ascii List ZArith Lia Bool.
From Stdlib Require Import DecimalString.
From stdpp Require Import gmap.
Import ListNotations.

Local Open Scope string_scope.
Local Open Scope Z_scope.

(* ===================================================================== *)
(** ** Python strings *)
(* ===================================================================== *)

Module Py.

(** [str.isspace] on one character, for the code points below 256:
    TAB..CR, FS..US, SPACE, NEL and NBSP. *)
Definition isspace (c : ascii) : bool :=
  let n := nat_of_ascii c in
  ((9 <=? n) && (n <=? 13) || (28 <=? n) && (n <=? 32)
   || (n =? 133) || (n =? 160))%nat.

Fixpoint lstrip (s : string) : string :=
  match s with
  | EmptyString => EmptyString
  | String c s' => if isspace c then lstrip s' else s
  end.

Fixpoint rstrip (s : string) : string :=
  match s with
  | EmptyString => EmptyString
  | String c s' =>
      match rstrip s' with
      | EmptyString => if isspace c then EmptyString else String c EmptyString
      | r => String c r
      end
  end.

(** [s.strip()] *)
Definition strip (s : string) : string := rstrip (lstrip s).

(** [s.split(sep)] for a one-character separator: never the empty list. *)
Fixpoint split (sep : ascii) (s : string) : list string :=
  match s with
  | EmptyString => [EmptyString]
  | String c s' =>
      if Ascii.eqb c sep then EmptyString :: split sep s'
      else match split sep s' with
           | h :: t => String c h :: t
           | [] => [String c EmptyString]
           end
  end.

(** [s.split()]: the maximal runs of non-whitespace characters. *)
Fixpoint split_whitespace (s : string) : list string :=
  match s with
  | EmptyString => []
  | String c s' =>
      if isspace c then split_whitespace s'
      else match s' with
           | EmptyString => [String c EmptyString]
           | String c' _ =>
               if isspace c' then String c EmptyString :: split_whitespace s'
               else match split_whitespace s' with
                    | w :: ws => String c w :: ws
                    | [] => [String c EmptyString]
                    end
           end
  end.

(** [s[:n]] *)
Fixpoint slice_to (n : nat) (s : string) : string :=
  match n, s with
  | S n', String c s' => String c (slice_to n' s')
  | _, _ => EmptyString
  end.

(** [sep.join(parts)] *)
Fixpoint join (sep : string) (parts : list string) : string :=
  match parts with
  | [] => EmptyString
  | [p] => p
  | p :: rest => p ++ sep ++ join sep rest
  end.

(** [s.lower()] on the ASCII letters, which is all [endswith] below needs. *)
Definition lower_char (c : ascii) : ascii :=
  let n := nat_of_ascii c in
  if ((65 <=? n) && (n <=? 90))%nat then ascii_of_nat (n + 32) else c.

Fixpoint lower (s : string) : string :=
  match s with
  | EmptyString => EmptyString
  | String c s' => String (lower_char c) (lower s')
  end.

(** [s.endswith(suffix)] *)
Definition endswith (s suffix : string) : bool :=
  let n := String.length s in
  let k := String.length suffix in
  ((k <=? n)%nat && String.eqb (substring (n - k) k s) suffix).

(** [len(s.encode())]: UTF-8 takes one byte below 128 and two below 256. *)
Fixpoint encoded_length (s : string) : nat :=
  match s with
  | EmptyString => 0
  | String c s' =>
      ((if (nat_of_ascii c <? 128)%nat then 1 else 2) + encoded_length s')%nat
  end.

(** Truthiness of an optional string: [None] and [""] are falsy. *)
Definition truthy (o : option string) : bool :=
  match o with
  | Some (String _ _) => true
  | _ => false
  end.

(** [bytes.decode('latin-1')]: total, byte [b] becomes the character [b]. *)
Definition decode_latin1 (bs : list Byte.byte) : string :=
  string_of_list_byte bs.

(** [str(n)] for an integer *)
Definition str_of_Z (z : Z) : string := NilZero.string_of_int (Z.to_int z).

End Py.

(* ===================================================================== *)
(** ** Exceptions, results and replies *)
(* ===================================================================== *)

(** [HTTPException(status_code, detail)] and every other [Exception], of
    which the handlers only ever read [str(e)]. *)
Inductive exn : Type :=
| HTTPException (status_code : Z) (detail : string)
| Exception (msg : string).

(** [str(e)]; Starlette prints an [HTTPException] as ["<status>: <detail>"]. *)
Definition str_exn (e : exn) : string :=
  match e with
  | HTTPException c d => Py.str_of_Z c ++ ": " ++ d
  | Exception m => m
  end.

Definition is_HTTPException (e : exn) : bool :=
  match e with HTTPException _ _ => true | Exception _ => false end.

(** How a computation ends. *)
Inductive result (A : Type) : Type :=
| Raise (e : exn)
| Return (a : A).
Arguments Raise {A} e.
Arguments Return {A} a.

(** What a call to a collaborator gives back: a value, or the message of the
    library exception it raised (never an [HTTPException], which only the
    server's own code constructs). *)
Inductive reply (A : Type) : Type :=
| Error (msg : string)
| Ok (a : A).
Arguments Error {A} msg.
Arguments Ok {A} a.

(* ===================================================================== *)
(** ** Documents, the vector index and the per-user RAG state *)
(* ===================================================================== *)

(** [langchain.schema.Document]: the text and a string-keyed metadata dict. *)
Record Document : Type := {
  page_content : string;
  metadata : list (string * string)
}.

(** [metadata.get(key, default)] *)
Fixpoint metadata_get (md : list (string * string)) (key default : string)
  : string :=
  match md with
  | [] => default
  | (k, v) :: rest => if String.eqb k key then v else metadata_get rest key default
  end.

(** A [Chroma] vector store is an opaque handle issued by the index service. *)
Inductive Chroma : Type := ChromaStore (handle : N).

(** [vectorstore.as_retriever(search_kwargs={"k": k})] *)
Record VectorStoreRetriever : Type := {
  retriever_vectorstore : Chroma;
  search_k : nat
}.

Definition as_retriever (vs : Chroma) (k : nat) : VectorStoreRetriever :=
  {| retriever_vectorstore := vs; search_k := k |}.

(** [ChatOpenAI(model_name=..., temperature=...)] *)
Record ChatOpenAI : Type := {
  model_name : string;
  temperature : Z
}.

(** [class UserSession] *)
Record UserSession : Type := {
  user_id : Z;
  vectorstore : option Chroma;
  retriever : option VectorStoreRetriever;
  llm : ChatOpenAI;
  documents : list Document;
  source_name : option string;
  source_type : option string;
  document_id : option Z
}.

(** [UserSession.__init__]; building the [ChatOpenAI] client is taken to
    succeed. *)
Definition new_UserSession (uid : Z) : UserSession :=
  {| user_id := uid;
     vectorstore := None;
     retriever := None;
     llm := {| model_name := "gpt-3.5-turbo"; temperature := 0 |};
     documents := [];
     source_name := None;
     source_type := None;
     document_id := None |}.

(** Attribute assignments [session.<field> = v]. *)
Definition set_vectorstore (v : option Chroma) (s : UserSession) : UserSession :=
  {| user_id := user_id s; vectorstore := v; retriever := retriever s;
     llm := llm s; documents := documents s; source_name := source_name s;
     source_type := source_type s; document_id := document_id s |}.

Definition set_retriever (v : option VectorStoreRetriever) (s : UserSession)
  : UserSession :=
  {| user_id := user_id s; vectorstore := vectorstore s; retriever := v;
     llm := llm s; documents := documents s; source_name := source_name s;
     source_type := source_type s; document_id := document_id s |}.

Definition set_documents (v : list Document) (s : UserSession) : UserSession :=
  {| user_id := user_id s; vectorstore := vectorstore s;
     retriever := retriever s; llm := llm s; documents := v;
     source_name := source_name s; source_type := source_type s;
     document_id := document_id s |}.

Definition set_source_name (v : option string) (s : UserSession) : UserSession :=
  {| user_id := user_id s; vectorstore := vectorstore s;
     retriever := retriever s; llm := llm s; documents := documents s;
     source_name := v; source_type := source_type s;
     document_id := document_id s |}.

Definition set_source_type (v : option string) (s : UserSession) : UserSession :=
  {| user_id := user_id s; vectorstore := vectorstore s;
     retriever := retriever s; llm := llm s; documents := documents s;
     source_name := source_name s; source_type := v;
     document_id := document_id s |}.

Definition set_document_id (v : option Z) (s : UserSession) : UserSession :=
  {| user_id := user_id s; vectorstore := vectorstore s;
     retriever := retriever s; llm := llm s; documents := documents s;
     source_name := source_name s; source_type := source_type s;
     document_id := v |}.

(** [UserSession.clear] *)
Definition clear (s : UserSession) : UserSession :=
  set_document_id None
    (set_source_type None
       (set_source_name None
          (set_documents [] (set_retriever None (set_vectorstore None s))))).

(* ===================================================================== *)
(** ** The SQLite tables of [init_database] *)
(* ===================================================================== *)

(** Columns filled by [DEFAULT CURRENT_TIMESTAMP] are read by no modelled
    handler and are left out. *)
Record users_row : Type := {
  users_id : Z;
  users_username : string;
  users_email : string;
  users_password_hash : string
}.

Record sessions_row : Type := {
  sessions_id : Z;
  sessions_user_id : Z;
  sessions_token : string;
  sessions_expires_at : Z
}.

Record documents_row : Type := {
  documents_id : Z;
  documents_user_id : Z;
  documents_filename : string;
  documents_file_size : Z;
  documents_chunks : Z;
  documents_word_count : Z;
  documents_source_type : string
}.

Record conversations_row : Type := {
  conversations_id : Z;
  conversations_user_id : Z;
  conversations_document_id : Z;
  conversations_question : string;
  conversations_answer : string;
  conversations_rag_type : string
}.

Record Database : Type := {
  tbl_users : list users_row;
  tbl_sessions : list sessions_row;
  tbl_documents : list documents_row;
  tbl_conversations : list conversations_row
}.

(** [INTEGER PRIMARY KEY AUTOINCREMENT] on a table no row is deleted from:
    one more than the largest id present. *)
Definition next_rowid (ids : list Z) : Z := 1 + fold_right Z.max 0 ids.

Definition with_sessions (rows : list sessions_row) (d : Database) : Database :=
  {| tbl_users := tbl_users d; tbl_sessions := rows;
     tbl_documents := tbl_documents d;
     tbl_conversations := tbl_conversations d |}.

Definition with_documents (rows : list documents_row) (d : Database) : Database :=
  {| tbl_users := tbl_users d; tbl_sessions := tbl_sessions d;
     tbl_documents := rows; tbl_conversations := tbl_conversations d |}.

Definition with_conversations (rows : list conversations_row) (d : Database)
  : Database :=
  {| tbl_users := tbl_users d; tbl_sessions := tbl_sessions d;
     tbl_documents := tbl_documents d; tbl_conversations := rows |}.

(* ===================================================================== *)
(** ** The environment: every external collaborator *)
(* ===================================================================== *)

(** The statements issued inside the handlers' [try] blocks, each of which
    may raise a [sqlite3] error.  Opening and closing a connection, and the
    statements of [verify_token] and [logout], which no handler guards, are
    taken to succeed. *)
Inductive sql_step : Type :=
| InsertDocuments
| CommitDocuments
| InsertConversations
| CommitConversations.

Record Env : Type := {
  (** [datetime.now()] *)
  now : Z;
  (** [PyPDF2.PdfReader(BytesIO(content)).pages], each page's
      [extract_text()] giving a text, [None], or raising *)
  pdf_pages : list Byte.byte -> reply (list (reply (option string)));
  (** [content.decode('utf-8')], [None] for [UnicodeDecodeError] *)
  decode_utf8 : list Byte.byte -> option string;
  (** [urlparse(url)]: the scheme and the netloc *)
  urlparse : string -> reply (string * string);
  (** [WebBaseLoader(url).load()] *)
  web_load : string -> reply (list Document);
  (** [RecursiveCharacterTextSplitter(chunk_size, chunk_overlap)
      .split_documents(docs)] *)
  split_documents : nat -> nat -> list Document -> reply (list Document);
  (** [Chroma.from_documents(documents=splits, embedding=OpenAIEmbeddings())] *)
  from_documents : list Document -> reply Chroma;
  (** the similarity search behind [retriever.get_relevant_documents] *)
  similarity_search : Chroma -> nat -> string -> reply (list Document);
  (** [llm.invoke(prompt)] followed by [StrOutputParser] *)
  llm_invoke : ChatOpenAI -> string -> reply string;
  (** the error, if any, a statement fails with *)
  sqlite_error : sql_step -> option string
}.

(** [retriever.get_relevant_documents(query)] *)
Definition get_relevant_documents (env : Env) (r : VectorStoreRetriever)
  (query : string) : reply (list Document) :=
  similarity_search env (retriever_vectorstore r) (search_k r) query.

(* ===================================================================== *)
(** ** The world and the handler monad *)
(* ===================================================================== *)

Inductive levelname : Type := INFO | WARNING | ERROR.

(** One constructor per [logger] call of the modelled functions, carrying
    the values its f-string interpolates. *)
Inductive LogMessage : Type :=
| Extracted_chars_from_PDF (n : nat)
| Failed_to_extract_text (filename : string) (e : exn)
| Fetching_content_from (url : string)
| Extracted_chars_from (n : nat) (title : string)
| Failed_to_fetch_URL (url : string) (e : exn)
| Generated_queries (queries : list string)
| Query_failed (e : exn)
| Hypothetical_doc (prefix : string)
| User_uploading_file (username filename : string)
| User_uploading_URL (username url : string)
| Processing_characters (n : nat) (source : string)
| Created_chunks (n : nat) (source : string)
| Document_processed
| Upload_failed (e : exn)
| User_asking (username question rag_type : string)
| Answer_generated
| Question_failed (e : exn).

Record World : Type := {
  db : Database;
  user_sessions : gmap Z UserSession;
  log : list (levelname * LogMessage)
}.

Definition with_db (d : Database) (w : World) : World :=
  {| db := d; user_sessions := user_sessions w; log := log w |}.

Definition with_user_sessions (m : gmap Z UserSession) (w : World) : World :=
  {| db := db w; user_sessions := m; log := log w |}.

Definition with_log (l : list (levelname * LogMessage)) (w : World) : World :=
  {| db := db w; user_sessions := user_sessions w; log := l |}.

(** A computation reads and writes the world and returns or raises. *)
Definition M (A : Type) : Type := World -> World * result A.

Definition ret {A} (a : A) : M A := fun w => (w, Return a).

Definition raise {A} (e : exn) : M A := fun w => (w, Raise e).

Definition bind {A B} (m : M A) (k : A -> M B) : M B :=
  fun w =>
    match m w with
    | (w', Return a) => k a w'
    | (w', Raise e) => (w', Raise e)
    end.

(** [try: m  except Exception as e: h e] *)
Definition try_except {A} (m : M A) (h : exn -> M A) : M A :=
  fun w =>
    match m w with
    | (w', Raise e) => h e w'
    | r => r
    end.

(** A call to a collaborator. *)
Definition call {A} (r : reply A) : M A :=
  fun w =>
    match r with
    | Error msg => (w, Raise (Exception msg))
    | Ok a => (w, Return a)
    end.

Definition logger (lvl : levelname) (msg : LogMessage) : M unit :=
  fun w => (with_log (log w ++ [(lvl, msg)])%list w, Return tt).

Notation "x <- m ;; k" := (bind m (fun x => k))
  (at level 20, m at level 99, k at level 200, only parsing).
Notation "' pat <- m ;; k" := (bind m (fun x => match x with pat => k end))
  (at level 20, pat pattern, m at level 99, k at level 200, only parsing).
Notation "m ;; k" := (bind m (fun _ => k))
  (at level 100, k at level 200, right associativity, only parsing).

(* ===================================================================== *)
(** ** Authentication *)
(* ===================================================================== *)

(** The dict [verify_token] returns. *)
Record UserInfo : Type := {
  info_user_id : Z;
  info_username : string;
  info_email : string
}.

(** [SELECT u.id, u.username, u.email, s.expires_at FROM sessions s
     JOIN users u ON s.user_id = u.id
     WHERE s.token = ? AND s.expires_at > ?] *)
Definition select_session_user (d : Database) (token : string) (t : Z)
  : list (Z * string * string * Z) :=
  flat_map
    (fun s =>
       flat_map
         (fun u =>
            if (sessions_user_id s =? users_id u)
               && String.eqb (sessions_token s) token
               && (t <? sessions_expires_at s)
            then [(users_id u, users_username u, users_email u,
                   sessions_expires_at s)]
            else [])
         (tbl_users d))
    (tbl_sessions d).

(** [verify_token]: the dependency every protected endpoint runs first. *)
Definition verify_token (env : Env) (token : option string) : M UserInfo :=
  if negb (Py.truthy token) then
    raise (HTTPException 401 "Token không được cung cấp")
  else
    fun w =>
      match select_session_user (db w) (default "" token) (now env) with
      | [] => raise (HTTPException 401 "Token không hợp lệ hoặc đã hết hạn") w
      | (uid, uname, mail, _) :: _ =>
          ret {| info_user_id := uid; info_username := uname;
                 info_email := mail |} w
      end.

(** [DELETE FROM sessions WHERE token = ?] followed by [commit] *)
Definition delete_sessions (token : option string) : M unit :=
  fun w =>
    let keep (s : sessions_row) :=
      match token with
      | Some t => negb (String.eqb (sessions_token s) t)
      | None => true
      end in
    (with_db (with_sessions (List.filter keep (tbl_sessions (db w))) (db w)) w,
     Return tt).

(** [POST /auth/logout] *)
Definition logout (env : Env) (token : option string) : M string :=
  verify_token env token ;;
  delete_sessions token ;;
  ret "Đăng xuất thành công".

(* ===================================================================== *)
(** ** The session registry *)
(* ===================================================================== *)

(** The state held for a user: the registered object, or what a first access
    would create. *)
Definition session_of (w : World) (uid : Z) : UserSession :=
  default (new_UserSession uid) (user_sessions w !! uid).

(** [get_user_session]: the user's key stands for the returned reference. *)
Definition get_user_session (user_info : UserInfo) : M Z :=
  fun w =>
    let uid := info_user_id user_info in
    match user_sessions w !! uid with
    | Some _ => (w, Return uid)
    | None =>
        (with_user_sessions (<[uid := new_UserSession uid]> (user_sessions w)) w,
         Return uid)
    end.

(** Reading the object behind the reference. *)
Definition session_read (session : Z) : M UserSession :=
  fun w => (w, Return (session_of w session)).

(** An attribute assignment on the object behind the reference (which
    [get_user_session] has registered by then). *)
Definition session_assign (session : Z) (f : UserSession -> UserSession)
  : M unit :=
  fun w =>
    (with_user_sessions (<[session := f (session_of w session)]> (user_sessions w)) w,
     Return tt).

(* ===================================================================== *)
(** ** Utility functions *)
(* ===================================================================== *)

Definition newline : string := String (ascii_of_nat 10) EmptyString.

(** [format_docs] *)
Definition format_docs (docs : list Document) : string :=
  Py.join (newline ++ newline) (map page_content docs).

(** [text += page.extract_text() or ""] over the pages *)
Fixpoint pdf_text (pages : list (reply (option string))) (text : string)
  : reply string :=
  match pages with
  | [] => Ok text
  | Error msg :: _ => Error msg
  | Ok t :: rest => pdf_text rest (text ++ default "" t)
  end.

(** [extract_text_from_file].  The Latin-1 decoding cannot fail, so the inner
    handler of the source is never entered. *)
Definition extract_text_from_file (env : Env) (file_content : list Byte.byte)
  (filename : string) : M string :=
  try_except
    (if Py.endswith (Py.lower filename) ".pdf" then
       pages <- call (pdf_pages env file_content) ;;
       text <- call (pdf_text pages "") ;;
       logger INFO (Extracted_chars_from_PDF (String.length text)) ;;
       ret text
     else
       match decode_utf8 env file_content with
       | Some text => ret text
       | None => ret (Py.decode_latin1 file_content)
       end)
    (fun e =>
       logger ERROR (Failed_to_extract_text filename e) ;;
       raise (HTTPException 400
                ("Cannot process " ++ filename ++ ". Supported: TXT, MD, PDF"))).

(** [extract_text_from_url] *)
Definition extract_text_from_url (env : Env) (url : string)
  : M (string * string) :=
  try_except
    ('(scheme, netloc) <- call (urlparse env url) ;;
     if negb (Py.truthy (Some scheme)) || negb (Py.truthy (Some netloc)) then
       raise (Exception "Invalid URL format")
     else
       logger INFO (Fetching_content_from url) ;;
       docs <- call (web_load env url) ;;
       match docs with
       | [] => raise (Exception "No content found on webpage")
       | d0 :: _ =>
           let content := page_content d0 in
           let title := metadata_get (metadata d0) "title" netloc in
           logger INFO (Extracted_chars_from (String.length content) title) ;;
           ret (content, title)
       end)
    (fun e =>
       logger ERROR (Failed_to_fetch_URL url e) ;;
       raise (HTTPException 400 ("Cannot fetch webpage: " ++ str_exn e))).

(* ===================================================================== *)
(** ** RAG implementations *)
(* ===================================================================== *)

Module BasicRAG.

Definition template (context question : string) : string :=
  "Bạn là trợ lý AI thông minh. Hãy trả lời câu hỏi dựa trên ngữ cảnh sau:

NGỮ CẢNH:
" ++ context ++ "

CÂU HỎI: " ++ question ++ "

Hãy trả lời chính xác, chi tiết bằng tiếng Việt. Nếu không tìm thấy thông tin trong ngữ cảnh, hãy nói rõ.".

(** The chain [{context: retriever | format_docs, question: passthrough}
    | prompt | llm | StrOutputParser()], invoked on a question. *)
Definition build_chain (env : Env) (retriever : VectorStoreRetriever)
  (llm : ChatOpenAI) (question : string) : M string :=
  docs <- call (get_relevant_documents env retriever question) ;;
  call (llm_invoke env llm (template (format_docs docs) question)).

End BasicRAG.

Module MultiQueryRAG.

Definition multi_query_template (question : string) : string :=
  "Bạn là AI assistant. Hãy tạo 3 câu hỏi khác nhau 
từ câu hỏi gốc để tìm kiếm tài liệu tốt hơn. Mỗi câu hỏi trên một dòng.

Câu hỏi gốc: " ++ question.

(** [multi_query_prompt | llm | StrOutputParser()
     | (lambda x: [q.strip() for q in x.split("\n") if q.strip()])] *)
Definition generate_queries (env : Env) (llm : ChatOpenAI) (question : string)
  : M (list string) :=
  x <- call (llm_invoke env llm (multi_query_template question)) ;;
  ret (List.filter (fun q => Py.truthy (Some q))
         (map Py.strip (Py.split (ascii_of_nat 10) x))).

(** [unique[key] = doc] on a dict, which keeps keys in insertion order: a
    key already present keeps its place and takes the new value. *)
Fixpoint dict_set (unique : list (string * Document)) (key : string)
  (doc : Document) : list (string * Document) :=
  match unique with
  | [] => [(key, doc)]
  | (k, v) :: rest =>
      if String.eqb k key then (k, doc) :: rest
      else (k, v) :: dict_set rest key doc
  end.

Definition get_unique_docs (doc_lists : list (list Document)) : list Document :=
  let unique :=
    fold_left
      (fun unique docs =>
         fold_left (fun unique doc => dict_set unique (page_content doc) doc)
           docs unique)
      doc_lists [] in
  map snd unique.

(** The loop of [retrieve_all], [all_docs] being its accumulator. *)
Fixpoint retrieve_all_from (env : Env) (retriever : VectorStoreRetriever)
  (queries : list string) (all_docs : list (list Document))
  : M (list (list Document)) :=
  match queries with
  | [] => ret all_docs
  | q :: rest =>
      all_docs' <-
        try_except
          (docs <- call (get_relevant_documents env retriever q) ;;
           ret (all_docs ++ [docs])%list)
          (fun e => logger WARNING (Query_failed e) ;; ret all_docs) ;;
      retrieve_all_from env retriever rest all_docs'
  end.

Definition retrieve_all (env : Env) (retriever : VectorStoreRetriever)
  (queries : list string) : M (list (list Document)) :=
  retrieve_all_from env retriever queries [].

Definition template (context question : string) : string :=
  "Trả lời câu hỏi dựa trên ngữ cảnh:

" ++ context ++ "

Câu hỏi: " ++ question ++ "
Trả lời:".

(** [full_chain], the value [build_chain] returns. *)
Definition build_chain (env : Env) (retriever : VectorStoreRetriever)
  (llm : ChatOpenAI) (question : string) : M string :=
  queries <- generate_queries env llm question ;;
  logger INFO (Generated_queries queries) ;;
  doc_lists <- retrieve_all env retriever queries ;;
  let unique_docs := get_unique_docs doc_lists in
  let context := format_docs unique_docs in
  call (llm_invoke env llm (template context question)).

End MultiQueryRAG.

Module HyDERAG.

Definition hyde_template (question : string) : string :=
  "Hãy viết một đoạn văn giả định trả lời câu hỏi sau:

Câu hỏi: " ++ question ++ "
Đoạn văn:".

Definition template (context question : string) : string :=
  "Dựa trên ngữ cảnh sau, trả lời câu hỏi:

" ++ context ++ "

Câu hỏi: " ++ question ++ "
Trả lời:".

(** [full_chain], the value [build_chain] returns. *)
Definition build_chain (env : Env) (retriever : VectorStoreRetriever)
  (llm : ChatOpenAI) (question : string) : M string :=
  hypothetical <- call (llm_invoke env llm (hyde_template question)) ;;
  logger INFO (Hypothetical_doc (Py.slice_to 100 hypothetical)) ;;
  docs <- call (get_relevant_documents env retriever hypothetical) ;;
  let context := format_docs docs in
  call (llm_invoke env llm (template context question)).

End HyDERAG.

(* ===================================================================== *)
(** ** Database writes of the handlers *)
(* ===================================================================== *)

(** [cursor.execute("INSERT INTO documents ...")]: the connection's pending
    state and [cursor.lastrowid].  Nothing reaches the stored database before
    the commit. *)
Definition execute_insert_documents (env : Env) (uid : Z) (filename : string)
  (file_size chunks word_count : nat) (source_type : string)
  : M (Database * Z) :=
  fun w =>
    match sqlite_error env InsertDocuments with
    | Some msg => (w, Raise (Exception msg))
    | None =>
        let rowid := next_rowid (map documents_id (tbl_documents (db w))) in
        let row :=
          {| documents_id := rowid; documents_user_id := uid;
             documents_filename := filename;
             documents_file_size := Z.of_nat file_size;
             documents_chunks := Z.of_nat chunks;
             documents_word_count := Z.of_nat word_count;
             documents_source_type := source_type |} in
        (w, Return (with_documents (tbl_documents (db w) ++ [row])%list (db w),
                    rowid))
    end.

(** [cursor.execute("INSERT INTO conversations ...")];
    [document_id INTEGER NOT NULL] refuses [None]. *)
Definition execute_insert_conversations (env : Env) (uid : Z)
  (doc_id : option Z) (question answer rag_type : string)
  : M (Database * Z) :=
  fun w =>
    match sqlite_error env InsertConversations with
    | Some msg => (w, Raise (Exception msg))
    | None =>
        match doc_id with
        | None =>
            (w, Raise (Exception
                         "NOT NULL constraint failed: conversations.document_id"))
        | Some d =>
            let rowid :=
              next_rowid (map conversations_id (tbl_conversations (db w))) in
            let row :=
              {| conversations_id := rowid; conversations_user_id := uid;
                 conversations_document_id := d;
                 conversations_question := question;
                 conversations_answer := answer;
                 conversations_rag_type := rag_type |} in
            (w, Return (with_conversations
                          (tbl_conversations (db w) ++ [row])%list (db w),
                        rowid))
        end
    end.

(** [conn.commit()]: the pending state becomes the stored one. *)
Definition commit (env : Env) (step : sql_step) (pending : Database) : M unit :=
  fun w =>
    match sqlite_error env step with
    | Some msg => (w, Raise (Exception msg))
    | None => (with_db pending w, Return tt)
    end.

(* ===================================================================== *)
(** ** Document endpoints *)
(* ===================================================================== *)

(** [UploadFile]: the name and what [await file.read()] returns. *)
Record UploadFile : Type := {
  filename : option string;
  file_content : list Byte.byte
}.

(** The JSON object [upload_document] returns. *)
Record UploadResponse : Type := {
  upload_status : string;
  upload_message : string;
  upload_source : string;
  upload_source_type : string;
  upload_content_length : nat;
  upload_chunks : nat;
  upload_word_count : nat
}.

(** The test [file and file.filename]: the file and its name when it holds. *)
Definition file_and_filename (file : option UploadFile)
  : option (UploadFile * string) :=
  match file with
  | Some f =>
      match filename f with
      | Some (String c n) => Some (f, String c n)
      | _ => None
      end
  | None => None
  end.

(** The first part of the [try] block of [upload_document]: choosing the
    input and extracting [(text, source_name, source_type)]. *)
Definition upload_extract (env : Env) (user_info : UserInfo)
  (file : option UploadFile) (url : option string)
  : M (string * string * string) :=
  match file_and_filename file with
  | Some (f, name) =>
      logger INFO (User_uploading_file (info_username user_info) name) ;;
      (* [if not file.filename] cannot hold inside this branch *)
      let content := file_content f in
      if (List.length content =? 0)%nat then
        raise (HTTPException 400 "Empty file")
      else
        text <- extract_text_from_file env content name ;;
        ret (text, name, "file")
  | None =>
      if Py.truthy url then
        let u := default "" url in
        logger INFO (User_uploading_URL (info_username user_info) u) ;;
        '(text, source_name) <- extract_text_from_url env u ;;
        ret (text, source_name, "url")
      else
        raise (HTTPException 400 "Provide either file or URL")
  end.

(** The rest of the [try] block: validation, chunking, indexing and the
    document record, with the session attributes assigned where the source
    assigns them. *)
Definition upload_commit (env : Env) (user_info : UserInfo) (session : Z)
  (text source_name source_type : string) : M UploadResponse :=
  if negb (Py.truthy (Some text)) || (String.length text <? 50)%nat then
    raise (HTTPException 400 "Content too short (less than 50 characters).")
  else
    logger INFO (Processing_characters (String.length text) source_name) ;;
    let doc :=
      {| page_content := text;
         metadata := [("source", source_name); ("type", source_type)] |} in
    session_assign session (set_documents [doc]) ;;
    session_assign session (set_source_name (Some source_name)) ;;
    session_assign session (set_source_type (Some source_type)) ;;
    splits <- call (split_documents env 1000 200 [doc]) ;;
    logger INFO (Created_chunks (List.length splits) source_name) ;;
    vs <- call (from_documents env splits) ;;
    session_assign session (set_vectorstore (Some vs)) ;;
    session_assign session (set_retriever (Some (as_retriever vs 4))) ;;
    '(pending, lastrowid) <-
      execute_insert_documents env (info_user_id user_info) source_name
        (Py.encoded_length text) (List.length splits)
        (List.length (Py.split_whitespace text)) source_type ;;
    session_assign session (set_document_id (Some lastrowid)) ;;
    commit env CommitDocuments pending ;;
    logger INFO Document_processed ;;
    ret {| upload_status := "success";
           upload_message := "Successfully processed '" ++ source_name ++ "'";
           upload_source := source_name;
           upload_source_type := source_type;
           upload_content_length := String.length text;
           upload_chunks := List.length splits;
           upload_word_count := List.length (Py.split_whitespace text) |}.

(** The [except] clauses of [upload_document]: an [HTTPException] is raised
    again, anything else is logged and becomes a 500. *)
Definition upload_except (e : exn) : M UploadResponse :=
  if is_HTTPException e then raise e
  else
    logger ERROR (Upload_failed e) ;;
    raise (HTTPException 500 ("Processing failed: " ++ str_exn e)).

(** [POST /upload] *)
Definition upload_document (env : Env) (file : option UploadFile)
  (url : option string) (token : option string) : M UploadResponse :=
  user_info <- verify_token env token ;;
  session <- get_user_session user_info ;;
  try_except
    ('(text, source_name, source_type) <-
       upload_extract env user_info file url ;;
     upload_commit env user_info session text source_name source_type)
    upload_except.

(** [class QuestionRequest] *)
Record QuestionRequest : Type := {
  question : string;
  rag_type : string
}.

(** [class AnswerResponse] *)
Record AnswerResponse : Type := {
  answer : string;
  sources : list string
}.

(** [doc.page_content[:200] + "..."] *)
Definition preview (doc : Document) : string :=
  Py.slice_to 200 (page_content doc) ++ "...".

(** The dispatch on [rag_type] in [ask_question]. *)
Definition run_chain (env : Env) (rag_type : string)
  (retriever : VectorStoreRetriever) (llm : ChatOpenAI) (question : string)
  : M string :=
  if String.eqb rag_type "multi_query" then
    MultiQueryRAG.build_chain env retriever llm question
  else if String.eqb rag_type "hyde" then
    HyDERAG.build_chain env retriever llm question
  else
    BasicRAG.build_chain env retriever llm question.

(** The [try] block of [ask_question], [s] being the session object and
    [session_retriever] its retriever. *)
Definition ask_answer (env : Env) (user_info : UserInfo) (s : UserSession)
  (session_retriever : VectorStoreRetriever) (request : QuestionRequest)
  : M AnswerResponse :=
  let question := Py.strip (question request) in
  let rag_type := rag_type request in
  logger INFO (User_asking (info_username user_info) question rag_type) ;;
  answer <- run_chain env rag_type session_retriever (llm s) question ;;
  relevant_docs <-
    call (get_relevant_documents env session_retriever question) ;;
  let sources := map preview (firstn 3 relevant_docs) in
  '(pending, _) <-
    execute_insert_conversations env (info_user_id user_info)
      (document_id s) question answer rag_type ;;
  commit env CommitConversations pending ;;
  logger INFO Answer_generated ;;
  ret {| answer := answer; sources := sources |}.

(** Its [except Exception] clause. *)
Definition ask_except (e : exn) : M AnswerResponse :=
  logger ERROR (Question_failed e) ;;
  raise (HTTPException 500 ("Question failed: " ++ str_exn e)).

(** [POST /ask] *)
Definition ask_question (env : Env) (request : QuestionRequest)
  (token : option string) : M AnswerResponse :=
  user_info <- verify_token env token ;;
  session <- get_user_session user_info ;;
  s <- session_read session ;;
  match retriever s with
  | None =>
      raise (HTTPException 400
               "No document uploaded. Please upload a document or URL first.")
  | Some session_retriever =>
      try_except (ask_answer env user_info s session_retriever request)
        ask_except
  end.

(** [DELETE /clear] *)
Definition clear_system (env : Env) (token : option string) : M string :=
  user_info <- verify_token env token ;;
  session <- get_user_session user_info ;;
  session_assign session clear ;;
  ret "System cleared. Ready to upload new document or URL.".

(* ===================================================================== *)
(** ** Status endpoint *)
(* ===================================================================== *)

(** [class StatusResponse] *)
Record StatusResponse : Type := {
  status_status : string;
  status_message : string;
  status_document_count : nat;
  status_chunk_count : nat;
  status_source_name : option string;
  status_source_type : option string
}.

(** [GET /status]; [collection_count] is
    [vectorstore._collection.count()], taken to succeed. *)
Definition get_status (env : Env) (collection_count : Chroma -> nat)
  (token : option string) : M StatusResponse :=
  user_info <- verify_token env token ;;
  session <- get_user_session user_info ;;
  s <- session_read session ;;
  match vectorstore s with
  | None =>
      ret {| status_status := "no_document";
             status_message :=
               "No document uploaded. Please upload a document or URL first.";
             status_document_count := 0;
             status_chunk_count := 0;
             status_source_name := None;
             status_source_type := None |}
  | Some vs =>
      ret {| status_status := "ready";
             status_message := "System ready to answer questions";
             status_document_count := List.length (documents s);
             status_chunk_count := collection_count vs;
             status_source_name := source_name s;
             status_source_type := source_type s |}
  end.

(** [GET /auth/me] *)
Definition get_current_user (env : Env) (token : option string) : M UserInfo :=
  verify_token env token.

(* ===================================================================== *)
(** ** Authentication endpoints *)
(* ===================================================================== *)

(** [timedelta(days=n)], in microseconds, the resolution of [datetime]. *)
Definition timedelta_days (n : Z) : Z := n * 86400000000.

(** The statements inside the [try] blocks of [register] and [login]. *)
Inductive auth_step : Type :=
| SelectUsers
| InsertUsers
| InsertSessions
| CommitSession.

(** What [register] and [login] draw from outside: the SHA-256 digest, the
    token [secrets.token_urlsafe(32)] returns on this request, the row id
    [AUTOINCREMENT] gives the new session (it comes from [sqlite_sequence],
    which outlives deleted rows and is no part of the modelled tables), and
    the error, if any, a statement fails with.  The log lines of the two
    handlers are left out. *)
Record AuthEnv : Type := {
  sha256_hexdigest : string -> string;
  token_urlsafe : string;
  sessions_lastrowid : Z;
  auth_sqlite_error : auth_step -> option string
}.

(** [hash_password] *)
Definition hash_password (aenv : AuthEnv) (password : string) : string :=
  sha256_hexdigest aenv password.

(** [generate_token] *)
Definition generate_token (aenv : AuthEnv) : string := token_urlsafe aenv.

(** [class RegisterRequest]; the [EmailStr] check belongs to request
    parsing, before the handler runs. *)
Record RegisterRequest : Type := {
  register_username : string;
  register_email : string;
  register_password : string
}.

(** [class LoginRequest] *)
Record LoginRequest : Type := {
  login_username : string;
  login_password : string
}.

(** [class AuthResponse] *)
Record AuthResponse : Type := {
  auth_token : string;
  auth_username : string;
  auth_email : string;
  auth_message : string
}.

Definition with_users (rows : list users_row) (d : Database) : Database :=
  {| tbl_users := rows; tbl_sessions := tbl_sessions d;
     tbl_documents := tbl_documents d;
     tbl_conversations := tbl_conversations d |}.

(** A statement that may fail before it does anything. *)
Definition auth_execute (aenv : AuthEnv) (step : auth_step) : M unit :=
  match auth_sqlite_error aenv step with
  | Some msg => raise (Exception msg)
  | None => ret tt
  end.

(** The database a fresh connection sees. *)
Definition connect : M Database := fun w => (w, Return (db w)).

(** [SELECT id FROM users WHERE username = ? OR email = ?] *)
Definition select_users_taken (d : Database) (username email : string)
  : list Z :=
  map users_id
    (List.filter
       (fun u =>
          String.eqb (users_username u) username
          || String.eqb (users_email u) email)
       (tbl_users d)).

(** [SELECT id, username, email FROM users
     WHERE username = ? AND password_hash = ?] *)
Definition select_users_login (d : Database) (username password_hash : string)
  : list (Z * string * string) :=
  map (fun u => (users_id u, users_username u, users_email u))
    (List.filter
       (fun u =>
          String.eqb (users_username u) username
          && String.eqb (users_password_hash u) password_hash)
       (tbl_users d)).

(** [INSERT INTO users (username, email, password_hash)] on the connection's
    pending state, with the [UNIQUE] constraints of the table; gives the new
    state and [cursor.lastrowid]. *)
Definition insert_users (pending : Database)
  (username email password_hash : string) : reply (Database * Z) :=
  if existsb (fun u => String.eqb (users_username u) username)
       (tbl_users pending)
  then Error "UNIQUE constraint failed: users.username"
  else if existsb (fun u => String.eqb (users_email u) email)
            (tbl_users pending)
  then Error "UNIQUE constraint failed: users.email"
  else
    let rowid := next_rowid (map users_id (tbl_users pending)) in
    Ok (with_users
          (tbl_users pending
           ++ [ {| users_id := rowid; users_username := username;
                   users_email := email;
                   users_password_hash := password_hash |} ])%list
          pending,
        rowid).

(** [INSERT INTO sessions (user_id, token, expires_at)], with
    [token TEXT UNIQUE]. *)
Definition insert_sessions (aenv : AuthEnv) (pending : Database) (uid : Z)
  (token : string) (expires_at : Z) : reply Database :=
  if existsb (fun s => String.eqb (sessions_token s) token)
       (tbl_sessions pending)
  then Error "UNIQUE constraint failed: sessions.token"
  else
    Ok (with_sessions
          (tbl_sessions pending
           ++ [ {| sessions_id := sessions_lastrowid aenv;
                   sessions_user_id := uid; sessions_token := token;
                   sessions_expires_at := expires_at |} ])%list
          pending).

(** [conn.commit()] of the two handlers. *)
Definition auth_commit (aenv : AuthEnv) (pending : Database) : M unit :=
  auth_execute aenv CommitSession ;;
  (fun w => (with_db pending w, Return tt)).

(** The [try] block of [register]. *)
Definition register_try (env : Env) (aenv : AuthEnv)
  (request : RegisterRequest) : M AuthResponse :=
  d <- connect ;;
  auth_execute aenv SelectUsers ;;
  match select_users_taken d (register_username request)
          (register_email request) with
  | _ :: _ => raise (HTTPException 400 "Username hoặc email đã tồn tại")
  | [] =>
      let password_hash := hash_password aenv (register_password request) in
      auth_execute aenv InsertUsers ;;
      '(pending, uid) <-
        call (insert_users d (register_username request)
                (register_email request) password_hash) ;;
      let token := generate_token aenv in
      let expires_at := now env + timedelta_days 7 in
      auth_execute aenv InsertSessions ;;
      pending <- call (insert_sessions aenv pending uid token expires_at) ;;
      auth_commit aenv pending ;;
      ret {| auth_token := token;
             auth_username := register_username request;
             auth_email := register_email request;
             auth_message := "Đăng ký thành công!" |}
  end.

(** The [except] clauses shared by [register] and [login]: an
    [HTTPException] is raised again, anything else becomes a 500 with the
    handler's own message.  The connection is closed either way, which
    drops what was not committed. *)
Definition auth_except (detail : string) (e : exn) : M AuthResponse :=
  if is_HTTPException e then raise e
  else raise (HTTPException 500 detail).

(** [POST /auth/register] *)
Definition register (env : Env) (aenv : AuthEnv) (request : RegisterRequest)
  : M AuthResponse :=
  try_except (register_try env aenv request)
    (auth_except "Đăng ký thất bại").

(** The [try] block of [login]. *)
Definition login_try (env : Env) (aenv : AuthEnv) (request : LoginRequest)
  : M AuthResponse :=
  d <- connect ;;
  let password_hash := hash_password aenv (login_password request) in
  auth_execute aenv SelectUsers ;;
  match select_users_login d (login_username request) password_hash with
  | [] =>
      raise (HTTPException 401 "Tên đăng nhập hoặc mật khẩu không đúng")
  | (uid, username, email) :: _ =>
      let token := generate_token aenv in
      let expires_at := now env + timedelta_days 7 in
      auth_execute aenv InsertSessions ;;
      pending <- call (insert_sessions aenv d uid token expires_at) ;;
      auth_commit aenv pending ;;
      ret {| auth_token := token;
             auth_username := username;
             auth_email := email;
             auth_message := "Đăng nhập thành công!" |}
  end.

(** [POST /auth/login] *)
Definition login (env : Env) (aenv : AuthEnv) (request : LoginRequest)
  : M AuthResponse :=
  try_except (login_try env aenv request)
    (auth_except "Đăng nhập thất bại").

(* ===================================================================== *)
(** ** Vocabulary of the statements *)
(* ===================================================================== *)

Local Open Scope list_scope.

(** The texts of a list in order, each kept where it first occurs and
    dropped wherever it occurs again. *)
Fixpoint first_occurrences (l : list string) : list string :=
  match l with
  | [] => []
  | x :: rest =>
      x :: List.filter (fun y => negb (String.eqb y x)) (first_occurrences rest)
  end.

(** [y in K] for a list of keys. *)
Definition seen (K : list string) (y : string) : bool :=
  existsb (String.eqb y) K.

(** The inner loop of [get_unique_docs] over one flat list of documents. *)
Definition merge_into (unique : list (string * Document)) (docs : list Document)
  : list (string * Document) :=
  fold_left
    (fun unique doc => MultiQueryRAG.dict_set unique (page_content doc) doc)
    docs unique.

(** Every key of the dict is the text of the document stored under it. *)
Definition keyed_by_text (unique : list (string * Document)) : Prop :=
  Forall (fun kv => fst kv = page_content (snd kv)) unique.

(** The constraints of the schema on users and sessions: [users.id] is a
    primary key, [sessions.token] is unique, every session refers to a user,
    and a stored token is never the empty string ([generate_token] returns
    43 characters). *)
Definition db_wf (d : Database) : Prop :=
  List.NoDup (map users_id (tbl_users d))
  /\ List.NoDup (map sessions_token (tbl_sessions d))
  /\ (forall s, In s (tbl_sessions d) ->
        sessions_token s <> ""%string
        /\ exists u, In u (tbl_users d) /\ users_id u = sessions_user_id s).

(** The identity [verify_token] returns for a user row. *)
Definition info_of (u : users_row) : UserInfo :=
  {| info_user_id := users_id u; info_username := users_username u;
     info_email := users_email u |}.

(** A computation that only writes to the log: its outcome and the records
    it logs do not depend on the world, which it otherwise leaves alone. *)
Definition writer {A} (m : M A) : Prop :=
  exists (l : list (levelname * LogMessage)) (r : result A),
    forall w, m w = (with_log (log w ++ l) w, r).

(** The document [upload_document] builds from an extracted text. *)
Definition new_document (text source_name source_type : string) : Document :=
  {| page_content := text;
     metadata := [("source"%string, source_name); ("type"%string, source_type)] |}.

(** The session once the document, its name and its kind are assigned. *)
Definition staged (text source_name source_type : string) (s : UserSession)
  : UserSession :=
  set_source_type (Some source_type)
    (set_source_name (Some source_name)
       (set_documents [new_document text source_name source_type] s)).

(** The session once the vector store and its retriever are assigned. *)
Definition indexed (vs : Chroma) (s : UserSession) : UserSession :=
  set_retriever (Some (as_retriever vs 4)) (set_vectorstore (Some vs) s).

(** The exception of the length check. *)
Definition content_too_short : exn :=
  HTTPException 400 "Content too short (less than 50 characters).".

(** The result lists of the queries whose retrieval succeeds, in query
    order, and the warnings logged for the others. *)
Definition successful_retrievals (env : Env) (r : VectorStoreRetriever)
  (queries : list string) : list (list Document) :=
  flat_map
    (fun q =>
       match get_relevant_documents env r q with
       | Ok docs => [docs]
       | Error _ => []
       end)
    queries.

Definition retrieval_warnings (env : Env) (r : VectorStoreRetriever)
  (queries : list string) : list (levelname * LogMessage) :=
  flat_map
    (fun q =>
       match get_relevant_documents env r q with
       | Ok _ => []
       | Error msg => [(WARNING, Query_failed (Exception msg))]
       end)
    queries.

(** The queries parsed from the model's output [x]. *)
Definition parse_queries (x : string) : list string :=
  List.filter (fun q => Py.truthy (Some q))
    (map Py.strip (Py.split (ascii_of_nat 10) x)).

(** How a call to the language model ends inside a chain. *)
Definition llm_result (env : Env) (llm : ChatOpenAI) (prompt : string)
  : result string :=
  match llm_invoke env llm prompt with
  | Ok a => Return a
  | Error msg => Raise (Exception msg)
  end.

(** A conversation row without its strategy column. *)
Definition without_rag_type (row : conversations_row) : conversations_row :=
  {| conversations_id := conversations_id row;
     conversations_user_id := conversations_user_id row;
     conversations_document_id := conversations_document_id row;
     conversations_question := conversations_question row;
     conversations_answer := conversations_answer row;
     conversations_rag_type := "" |}.

(* ===================================================================== *)
(** ** Sample data for the concrete runs *)
(* ===================================================================== *)

(** Five chunks for the sample index to return. *)
Definition sample_chunks : list Document :=
  map (fun t => {| page_content := t; metadata := [] |})
    ["alpha"%string; "beta"%string; "gamma"%string; "delta"%string;
     "epsilon"%string].

(** A sample environment: every collaborator answers, time is 10, and a
    search returns the first [k] sample chunks. *)
Definition sample_env : Env :=
  {| now := 10;
     pdf_pages := fun _ => Ok [];
     decode_utf8 := fun bs => Some (string_of_list_byte bs);
     urlparse := fun _ => Ok ("http"%string, "example.org"%string);
     web_load := fun _ => Ok [];
     split_documents := fun _ _ docs => Ok docs;
     from_documents := fun _ => Ok (ChromaStore 1);
     similarity_search := fun _ k _ => Ok (firstn k sample_chunks);
     llm_invoke := fun _ _ => Ok "42"%string;
     sqlite_error := fun _ => None |}.

(** The environment at another time. *)
Definition at_time (t : Z) (env : Env) : Env :=
  {| now := t; pdf_pages := pdf_pages env; decode_utf8 := decode_utf8 env;
     urlparse := urlparse env; web_load := web_load env;
     split_documents := split_documents env;
     from_documents := from_documents env;
     similarity_search := similarity_search env;
     llm_invoke := llm_invoke env; sqlite_error := sqlite_error env |}.

(** The environment with an index service that refuses every request. *)
Definition index_failing (msg : string) (env : Env) : Env :=
  {| now := now env; pdf_pages := pdf_pages env;
     decode_utf8 := decode_utf8 env; urlparse := urlparse env;
     web_load := web_load env; split_documents := split_documents env;
     from_documents := fun _ => Error msg;
     similarity_search := similarity_search env;
     llm_invoke := llm_invoke env; sqlite_error := sqlite_error env |}.

(** A sample database: user 1 holds the token ["t"], valid until time 100. *)
Definition sample_db : Database :=
  {| tbl_users :=
       [ {| users_id := 1; users_username := "alice";
            users_email := "a@x.com"; users_password_hash := "" |} ];
     tbl_sessions :=
       [ {| sessions_id := 1; sessions_user_id := 1; sessions_token := "t";
            sessions_expires_at := 100 |} ];
     tbl_documents := [];
     tbl_conversations := [] |}.

(** Nobody has a session object yet. *)
Definition sample_world : World :=
  {| db := sample_db; user_sessions := ∅; log := [] |}.

(** What [verify_token] returns for the token ["t"]. *)
Definition alice : UserInfo :=
  {| info_user_id := 1; info_username := "alice"; info_email := "a@x.com" |}.

(** Three files: 59 characters of text, 10, and 64. *)
Definition sample_file : UploadFile :=
  {| filename := Some "notes.txt"%string;
     file_content :=
       list_byte_of_string
         "The quick brown fox jumps over the lazy dog, twice or more." |}.

Definition short_file : UploadFile :=
  {| filename := Some "short.txt"%string;
     file_content := list_byte_of_string "too short." |}.

Definition other_file : UploadFile :=
  {| filename := Some "other.txt"%string;
     file_content :=
       list_byte_of_string
         "Pack my box with five dozen liquor jugs, and then pack it again." |}.

(** The sample world after [sample_file] has been uploaded with the token
    ["t"]: user 1 has an active corpus. *)
Definition ready_world : World :=
  fst (upload_document sample_env (Some sample_file) None (Some "t"%string)
         sample_world).

(* ===================================================================== *)
(** ** Vocabulary of the further statements *)
(* ===================================================================== *)

(** The characters of a string. *)
Definition chars (s : string) : list ascii := list_ascii_of_string s.

(** What every session of the registry satisfies: the object under a key
    belongs to that user, the retriever is the one built on the vector
    store, there is at most one document, the source name and kind are set
    exactly when a document is, and a document id is only held together with
    a vector store. *)
Definition session_inv (uid : Z) (s : UserSession) : Prop :=
  user_id s = uid
  /\ retriever s = option_map (fun vs => as_retriever vs 4) (vectorstore s)
  /\ (List.length (documents s) <= 1)%nat
  /\ (documents s = [] <-> source_name s = None)
  /\ (source_name s = None <-> source_type s = None)
  /\ (vectorstore s = None -> document_id s = None).

Definition registry_inv (w : World) : Prop :=
  forall uid, session_inv uid (session_of w uid).

(** The uniqueness constraints of the [users] table on names and addresses. *)
Definition users_unique (d : Database) : Prop :=
  List.NoDup (map users_username (tbl_users d))
  /\ List.NoDup (map users_email (tbl_users d)).

(** The user row [register] inserts. *)
Definition registered_user (aenv : AuthEnv) (request : RegisterRequest)
  (d : Database) : users_row :=
  {| users_id := next_rowid (map users_id (tbl_users d));
     users_username := register_username request;
     users_email := register_email request;
     users_password_hash := hash_password aenv (register_password request) |}.

(** The session row [register] and [login] insert for user [uid]. *)
Definition issued_session (env : Env) (aenv : AuthEnv) (uid : Z)
  : sessions_row :=
  {| sessions_id := sessions_lastrowid aenv; sessions_user_id := uid;
     sessions_token := token_urlsafe aenv;
     sessions_expires_at := now env + timedelta_days 7 |}.

(** The row [upload_document] inserts into [documents]. *)
Definition uploaded_row (d : Database) (uid : Z) (text name kind : string)
  (splits : list Document) : documents_row :=
  {| documents_id := next_rowid (map documents_id (tbl_documents d));
     documents_user_id := uid;
     documents_filename := name;
     documents_file_size := Z.of_nat (Py.encoded_length text);
     documents_chunks := Z.of_nat (List.length splits);
     documents_word_count := Z.of_nat (List.length (Py.split_whitespace text));
     documents_source_type := kind |}.

(** The exception [ask_question] raises without a retriever. *)
Definition no_document_uploaded : exn :=
  HTTPException 400
    "No document uploaded. Please upload a document or URL first.".

(** Sample secrets: a toy digest, the token ["u"], no failing statement. *)
Definition sample_auth : AuthEnv :=
  {| sha256_hexdigest := fun p => ("#" ++ p)%string;
     token_urlsafe := "u";
     sessions_lastrowid := 2;
     auth_sqlite_error := fun _ => None |}.

Definition sample_registration : RegisterRequest :=
  {| register_username := "bob"; register_email := "b@x.com";
     register_password := "pw2" |}.

(** The rows the query of [verify_token] yields for one session row. *)
Definition session_rows (users : list users_row) (token : string) (t : Z)
  (s : sessions_row) : list (Z * string * string * Z) :=
  flat_map
    (fun u =>
       if (sessions_user_id s =? users_id u)
          && String.eqb (sessions_token s) token
          && (t <? sessions_expires_at s)
       then [(users_id u, users_username u, users_email u,
              sessions_expires_at s)]
       else [])
    users.

(** The exception [verify_token] raises for a token it does not accept. *)
Definition token_invalid : exn :=
  HTTPException 401 "Token không hợp lệ hoặc đã hết hạn".

(** A computation that raises nothing but library exceptions. *)
Definition library_failures {A} (m : M A) : Prop :=
  forall w e, snd (m w) = Raise e -> exists msg, e = Exception msg.

(** The last element of a list, if any. *)
Fixpoint last_error {A} (l : list A) : option A :=
  match l with
  | [] => None
  | [a] => Some a
  | _ :: rest => last_error rest
  end.

(** [c.isspace()] for every character of a string. *)
Definition blank (s : string) : Prop :=
  Forall (fun c => Py.isspace c = true) (chars s).

(** The number of maximal runs of non-whitespace characters of a string,
    counted at their first characters: a non-whitespace character starts a
    run when it starts the string or follows a whitespace character.
    [boundary] tells whether the position before is such a boundary. *)
Fixpoint count_runs (boundary : bool) (s : string) : nat :=
  match s with
  | EmptyString => 0
  | String c s' =>
      ((if boundary && negb (Py.isspace c) then 1 else 0)
       + count_runs (Py.isspace c) s')%nat
  end.

(** The non-whitespace characters of a string, in order. *)
Definition non_whitespace (s : string) : list ascii :=
  List.filter (fun c => negb (Py.isspace c)) (chars s).

(** The text [extract_text_from_file] takes from one PDF page:
    [page.extract_text() or ""]. *)
Definition page_text (t : option string) : string := default ""%string t.

(** Whether every page of a PDF could be read, and the texts of the pages
    that could. *)
Fixpoint pages_read (pages : list (reply (option string)))
  : option (list string) :=
  match pages with
  | [] => Some []
  | Error _ :: _ => None
  | Ok t :: rest =>
      match pages_read rest with
      | Some ts => Some (page_text t :: ts)
      | None => None
      end
  end.

(** The sample world after [sample_registration]: user 2 holds the token
    ["u"] besides user 1 and the token ["t"]. *)
Definition registered_world : World :=
  fst (register sample_env sample_auth sample_registration sample_world).

(** Other secrets with the same digest: the token ["v"]. *)
Definition second_auth : AuthEnv :=
  {| sha256_hexdigest := sha256_hexdigest sample_auth;
     token_urlsafe := "v";
     sessions_lastrowid := 3;
     auth_sqlite_error := fun _ => None |}.

(** The environment with a database that refuses the INSERT into
    [documents]. *)
Definition documents_failing (msg : string) (env : Env) : Env :=
  {| now := now env; pdf_pages := pdf_pages env;
     decode_utf8 := decode_utf8 env; urlparse := urlparse env;
     web_load := web_load env; split_documents := split_documents env;
     from_documents := from_documents env;
     similarity_search := similarity_search env;
     llm_invoke := llm_invoke env;
     sqlite_error := fun step =>
       match step with
       | InsertDocuments => Some msg
       | _ => sqlite_error env step
       end |}.

(** The sample world after an upload that failed at that INSERT: user 1 has
    a retriever and no document id. *)
Definition half_uploaded_world : World :=
  fst (upload_document (documents_failing "disk full" sample_env)
         (Some sample_file) None (Some "t"%string) sample_world).

(** The environment with a model that refuses every prompt. *)
Definition llm_failing (msg : string) (env : Env) : Env :=
  {| now := now env; pdf_pages := pdf_pages env;
     decode_utf8 := decode_utf8 env; urlparse := urlparse env;
     web_load := web_load env; split_documents := split_documents env;
     from_documents := from_documents env;
     similarity_search := similarity_search env;
     llm_invoke := fun _ _ => Error msg;
     sqlite_error := sqlite_error env |}.

(** The login of the sample registration, and a Multi-Query question. *)
Definition bob_login : LoginRequest :=
  {| login_username := "bob"; login_password := "pw2" |}.

Definition sample_question : QuestionRequest :=
  {| question := " why? "; rag_type := "multi_query" |}.

(** The text of [sample_file]. *)
Definition sample_text : string :=
  "The quick brown fox jumps over the lazy dog, twice or more.".

(** What the sample upload and the sample question return. *)
Definition sample_upload_response : UploadResponse :=
  {| upload_status := "success";
     upload_message := "Successfully processed 'notes.txt'";
     upload_source := "notes.txt";
     upload_source_type := "file";
     upload_content_length := 59;
     upload_chunks := 1;
     upload_word_count := 12 |}.

Definition sample_answer : AnswerResponse :=
  {| answer := "42";
     sources := ["alpha..."%string; "beta..."%string; "gamma..."%string] |}.

(** The sample question with the HyDE tag and with the Basic one. *)
Definition hyde_question : QuestionRequest :=
  {| question := " why? "; rag_type := "hyde" |}.


(* ===================================================================== *)
(** ** Multi-Query: merging the retrieved chunks *)
(* ===================================================================== *)

Section Merge.

Implicit Types (K l : list string) (u : list (string * Document)).

Lemma filter_filter_and {A} (f g : A -> bool) (l : list A) :
  List.filter f (List.filter g l) = List.filter (fun x => g x && f x) l.
Proof.
  induction l as [|a l IH]; simpl; [reflexivity|].
  destruct (g a); simpl; [destruct (f a)|]; rewrite IH; reflexivity.
Qed.

Lemma filter_all {A} (f : A -> bool) (l : list A) :
  (forall x, f x = true) -> List.filter f l = l.
Proof.
  intros Hf. induction l as [|a l IH]; simpl; [reflexivity|].
  rewrite Hf, IH. reflexivity.
Qed.

Lemma filter_none {A} (f : A -> bool) (l : list A) :
  (forall x, In x l -> f x = false) -> List.filter f l = [].
Proof.
  induction l as [|a l IH]; simpl; intros Hf; [reflexivity|].
  rewrite (Hf a) by (left; reflexivity). apply IH. intros x Hx. apply Hf.
  right. exact Hx.
Qed.

Lemma seen_app K1 K2 y : seen (K1 ++ K2) y = seen K1 y || seen K2 y.
Proof. unfold seen. apply existsb_app. Qed.

Lemma seen_In K y : seen K y = true <-> In y K.
Proof.
  unfold seen. rewrite existsb_exists. split.
  - intros (x & Hx & E). apply String.eqb_eq in E. subst. exact Hx.
  - intros H. exists y. split; [exact H | apply String.eqb_refl].
Qed.

Lemma first_occurrences_In l t : In t (first_occurrences l) <-> In t l.
Proof.
  induction l as [|x l IH]; simpl; [tauto|].
  rewrite List.filter_In, IH, negb_true_iff, String.eqb_neq.
  destruct (string_dec x t) as [->|Hne]; [tauto|].
  intuition congruence.
Qed.

Lemma first_occurrences_NoDup l : List.NoDup (first_occurrences l).
Proof.
  induction l as [|x l IH]; simpl; constructor.
  - rewrite List.filter_In, negb_true_iff, String.eqb_neq. tauto.
  - apply List.NoDup_filter, IH.
Qed.

Lemma first_occurrences_app l1 l2 :
  first_occurrences (l1 ++ l2) =
  first_occurrences l1
  ++ List.filter (fun y => negb (seen l1 y)) (first_occurrences l2).
Proof.
  induction l1 as [|x l1 IH]; simpl.
  - symmetry. apply filter_all. reflexivity.
  - f_equal. rewrite IH, List.filter_app, filter_filter_and. f_equal.
    apply List.filter_ext. intros y. unfold seen. simpl.
    rewrite negb_orb. apply andb_comm.
Qed.

Lemma dict_set_keys u k d :
  map fst (MultiQueryRAG.dict_set u k d) =
  if seen (map fst u) k then map fst u else map fst u ++ [k].
Proof.
  induction u as [|[k0 v] u IH]; simpl; [reflexivity|].
  unfold seen in *. simpl. rewrite (String.eqb_sym k k0).
  destruct (String.eqb k0 k); simpl; [reflexivity|].
  rewrite IH. destruct (existsb (String.eqb k) (map fst u)); reflexivity.
Qed.

Lemma dict_set_keyed u d :
  keyed_by_text u -> keyed_by_text (MultiQueryRAG.dict_set u (page_content d) d).
Proof.
  unfold keyed_by_text. induction 1 as [|[k0 v] u H0 Hu IH]; simpl.
  - repeat constructor.
  - destruct (String.eqb k0 (page_content d)) eqn:E.
    + apply String.eqb_eq in E. constructor; [exact E | exact Hu].
    + constructor; [exact H0 | exact IH].
Qed.

Lemma merge_into_keyed docs : forall u,
  keyed_by_text u -> keyed_by_text (merge_into u docs).
Proof.
  unfold merge_into.
  induction docs as [|d docs IH]; intros u Hu; simpl; [exact Hu|].
  apply IH, dict_set_keyed, Hu.
Qed.

Lemma merge_into_keys docs : forall u,
  map fst (merge_into u docs) =
  map fst u
  ++ List.filter (fun y => negb (seen (map fst u) y))
       (first_occurrences (map page_content docs)).
Proof.
  unfold merge_into.
  induction docs as [|d docs IH]; intros u; simpl.
  - symmetry. apply app_nil_r.
  - rewrite IH, dict_set_keys.
    set (k := page_content d). set (X := first_occurrences _).
    destruct (seen (map fst u) k) eqn:Hk; simpl.
    + f_equal. rewrite filter_filter_and. apply List.filter_ext. intros y.
      destruct (String.eqb y k) eqn:E; simpl; [|reflexivity].
      apply String.eqb_eq in E. subst y. rewrite Hk. reflexivity.
    + rewrite <- app_assoc. simpl. f_equal. f_equal.
      rewrite filter_filter_and. apply List.filter_ext. intros y.
      rewrite seen_app, negb_orb. unfold seen at 2. simpl.
      rewrite orb_false_r. apply andb_comm.
Qed.

Lemma get_unique_docs_flat doc_lists :
  MultiQueryRAG.get_unique_docs doc_lists =
  map snd (merge_into [] (concat doc_lists)).
Proof.
  unfold MultiQueryRAG.get_unique_docs. f_equal.
  generalize (@nil (string * Document)).
  induction doc_lists as [|docs rest IH]; intros u; simpl; [reflexivity|].
  unfold merge_into in *. rewrite fold_left_app. apply IH.
Qed.

Lemma keyed_texts u :
  keyed_by_text u -> map page_content (map snd u) = map fst u.
Proof.
  induction 1 as [|[k v] u H0 Hu IH]; simpl; [reflexivity|].
  simpl in H0. rewrite IH, H0. reflexivity.
Qed.

(** The texts of the merged list are the texts retrieved, first occurrences only. *)
Lemma get_unique_docs_texts doc_lists :
  map page_content (MultiQueryRAG.get_unique_docs doc_lists) =
  first_occurrences (map page_content (concat doc_lists)).
Proof.
  rewrite get_unique_docs_flat, keyed_texts.
  - rewrite merge_into_keys. simpl. apply filter_all. reflexivity.
  - apply merge_into_keyed. constructor.
Qed.

(** A repeated result list adds nothing: what a duplicate query retrieves has
    been seen already. *)
Lemma first_occurrences_absorb l1 l2 l3 :
  incl l2 l1 ->
  first_occurrences (l1 ++ l2 ++ l3) = first_occurrences (l1 ++ l3).
Proof.
  intros Hin. rewrite !first_occurrences_app, List.filter_app. f_equal.
  assert (E : List.filter (fun y => negb (seen l1 y)) (first_occurrences l2) = []).
  { apply filter_none. intros y Hy. apply first_occurrences_In, Hin in Hy.
    apply seen_In in Hy. rewrite Hy. reflexivity. }
  rewrite E. simpl. rewrite filter_filter_and. apply List.filter_ext. intros y.
  destruct (seen l1 y) eqn:E1; simpl; [apply andb_false_r|].
  rewrite andb_true_r. destruct (seen l2 y) eqn:E2; [|reflexivity].
  apply seen_In, Hin, seen_In in E2. congruence.
Qed.

(** The document kept under a text is the last one retrieved with it; only
    its place is that of the first. *)
Lemma dict_set_overwrites u k d :
  seen (map fst u) k = true ->
  In (k, d) (MultiQueryRAG.dict_set u k d).
Proof.
  induction u as [|[k0 v] u IH]; simpl; [discriminate|].
  unfold seen in *. simpl. rewrite (String.eqb_sym k k0).
  destruct (String.eqb k0 k) eqn:E; simpl.
  - apply String.eqb_eq in E. subst. left. reflexivity.
  - intros H. right. apply IH, H.
Qed.

(** C2.  For every sequence of per-query result lists, the texts of
    [get_unique_docs]'s result are the retrieved texts with each distinct text
    kept once, in the order of first occurrence: they equal
    [first_occurrences] of the flattened texts, no text repeats, every
    retrieved text occurs exactly once, a text whose first occurrence comes
    after the texts [l1] stands right after the distinct texts of [l1], and a
    result list retrieved a second time (a duplicate query) changes nothing. *)
Theorem get_unique_docs_first_occurrence (doc_lists : list (list Document)) :
  let texts := map page_content (concat doc_lists) in
  let merged := map page_content (MultiQueryRAG.get_unique_docs doc_lists) in
  merged = first_occurrences texts
  /\ List.NoDup merged
  /\ (forall t, In t texts -> count_occ string_dec merged t = 1%nat)
  /\ (forall l1 t l2, texts = l1 ++ t :: l2 -> ~ In t l1 ->
        exists rest, merged = first_occurrences l1 ++ t :: rest /\ ~ In t rest)
  /\ (forall before docs between after,
        doc_lists = before ++ docs :: between ++ docs :: after ->
        merged =
        map page_content
          (MultiQueryRAG.get_unique_docs (before ++ docs :: between ++ after))).
Proof.
  intros texts merged.
  assert (Hm : merged = first_occurrences texts)
    by apply get_unique_docs_texts.
  split; [exact Hm|]. split; [rewrite Hm; apply first_occurrences_NoDup|].
  split; [|split].
  - intros t Ht. rewrite Hm.
    apply (proj1 (List.NoDup_count_occ' string_dec _)).
    + apply first_occurrences_NoDup.
    + apply first_occurrences_In, Ht.
  - intros l1 t l2 Ht Hnot. rewrite Hm, Ht, first_occurrences_app. simpl.
    assert (Hs : seen l1 t = false).
    { destruct (seen l1 t) eqn:E; [|reflexivity]. apply seen_In in E. tauto. }
    rewrite Hs. simpl. eexists. split; [reflexivity|].
    rewrite !List.filter_In, negb_true_iff, String.eqb_neq. tauto.
  - intros before docs between after Hd. subst merged texts.
    rewrite !get_unique_docs_texts, Hd.
    rewrite !List.concat_app. simpl. rewrite !List.concat_app. simpl.
    rewrite !List.map_app.
    set (a := map page_content (concat before)).
    set (b := map page_content docs).
    set (c := map page_content (concat between)).
    set (e := map page_content (concat after)).
    replace (a ++ b ++ c ++ b ++ e) with ((a ++ b ++ c) ++ b ++ e)
      by (rewrite <- !app_assoc; reflexivity).
    rewrite first_occurrences_absorb.
    + rewrite <- !app_assoc. reflexivity.
    + intros y Hy. apply in_or_app. right. apply in_or_app. left. exact Hy.
Qed.

End Merge.

(* ===================================================================== *)
(** ** Token validation and logout *)
(* ===================================================================== *)

Section Tokens.

Variable env : Env.

Lemma verify_token_world token w : fst (verify_token env token w) = w.
Proof.
  unfold verify_token. destruct (Py.truthy token); simpl; [|reflexivity].
  destruct (select_session_user _ _ _) as [|[[[? ?] ?] ?] ?]; reflexivity.
Qed.

Lemma verify_token_cases token w :
  (exists ui, verify_token env token w = (w, Return ui))
  \/ (exists d, verify_token env token w = (w, Raise (HTTPException 401 d))).
Proof.
  unfold verify_token. destruct (Py.truthy token); simpl.
  - destruct (select_session_user _ _ _) as [|[[[? ?] ?] ?] ?]; eauto.
  - eauto.
Qed.

Lemma truthy_Some token :
  Py.truthy token = true -> exists t, token = Some t /\ t <> ""%string.
Proof.
  destruct token as [[|c t]|]; simpl; try discriminate.
  intros _. eexists. split; [reflexivity|discriminate].
Qed.

Lemma truthy_nonempty t : t <> ""%string -> Py.truthy (Some t) = true.
Proof. destruct t; [congruence|reflexivity]. Qed.

(** The rows the query of [verify_token] yields. *)
Lemma select_session_user_In d t time row :
  In row (select_session_user d t time) <->
  exists s u, In s (tbl_sessions d) /\ In u (tbl_users d)
    /\ sessions_user_id s = users_id u /\ sessions_token s = t
    /\ time < sessions_expires_at s
    /\ row = (users_id u, users_username u, users_email u,
              sessions_expires_at s).
Proof.
  unfold select_session_user. rewrite in_flat_map. split.
  - intros (s & Hs & Hrow). apply in_flat_map in Hrow.
    destruct Hrow as (u & Hu & Hrow).
    destruct (sessions_user_id s =? users_id u) eqn:E1; simpl in Hrow;
      [|contradiction].
    destruct (String.eqb (sessions_token s) t) eqn:E2; simpl in Hrow;
      [|contradiction].
    destruct (time <? sessions_expires_at s) eqn:E3; simpl in Hrow;
      [|contradiction].
    destruct Hrow as [<-|[]]. exists s, u.
    apply Z.eqb_eq in E1. apply String.eqb_eq in E2. apply Z.ltb_lt in E3.
    repeat split; assumption.
  - intros (s & u & Hs & Hu & E1 & E2 & E3 & ->). exists s. split; [exact Hs|].
    apply in_flat_map. exists u. split; [exact Hu|].
    apply Z.eqb_eq in E1. apply String.eqb_eq in E2. apply Z.ltb_lt in E3.
    rewrite E1, E2, E3. left. reflexivity.
Qed.

Lemma NoDup_map_injective {A B} (f : A -> B) (l : list A) a b :
  List.NoDup (map f l) -> In a l -> In b l -> f a = f b -> a = b.
Proof.
  induction l as [|x l IH]; simpl; [tauto|].
  intros Hnd Ha Hb E. apply List.NoDup_cons_iff in Hnd. destruct Hnd as [Hx Hnd].
  destruct Ha as [->|Ha], Hb as [->|Hb]; auto.
  - exfalso. apply Hx. rewrite E. apply in_map, Hb.
  - exfalso. apply Hx. rewrite <- E. apply in_map, Ha.
Qed.

(** When [verify_token] returns, and when it does not. *)
Lemma verify_token_Return token w ui :
  verify_token env token w = (w, Return ui) ->
  exists t s u, token = Some t /\ t <> ""%string
    /\ In s (tbl_sessions (db w)) /\ In u (tbl_users (db w))
    /\ sessions_user_id s = users_id u /\ sessions_token s = t
    /\ now env < sessions_expires_at s /\ ui = info_of u.
Proof.
  unfold verify_token. destruct (Py.truthy token) eqn:Ht; simpl;
    [|discriminate].
  apply truthy_Some in Ht. destruct Ht as (t & -> & Hne). simpl.
  destruct (select_session_user _ _ _) as [|row rest] eqn:Hq.
  - discriminate.
  - assert (Hin : In row (select_session_user (db w) t (now env)))
      by (rewrite Hq; left; reflexivity).
    apply select_session_user_In in Hin.
    destruct Hin as (s & u & Hs & Hu & E1 & E2 & E3 & ->).
    intros [= <-]. exists t, s, u. repeat split; assumption.
Qed.

Lemma verify_token_accepts t s u w :
  t <> ""%string -> In s (tbl_sessions (db w)) -> In u (tbl_users (db w)) ->
  sessions_user_id s = users_id u -> sessions_token s = t ->
  now env < sessions_expires_at s ->
  exists ui, verify_token env (Some t) w = (w, Return ui).
Proof.
  intros Hne Hs Hu E1 E2 E3. unfold verify_token.
  rewrite (truthy_nonempty _ Hne). simpl.
  destruct (select_session_user _ _ _) as [|[[[? ?] ?] ?] rest] eqn:Hq.
  - exfalso.
    assert (Hin : In (users_id u, users_username u, users_email u,
                      sessions_expires_at s)
                    (select_session_user (db w) t (now env))).
    { apply select_session_user_In. exists s, u. repeat split; assumption. }
    rewrite Hq in Hin. exact Hin.
  - eexists. reflexivity.
Qed.

(** C5.  On a database that meets the schema's constraints, [verify_token]
    returns exactly when a session record carries the presented token and
    the current time is strictly before its expiry; otherwise (no token, an
    unknown one, or an expired record still stored) it raises the 401
    [HTTPException].  What it returns is the identity of the user who owns
    the record, and the world is left as it was. *)
Theorem verify_token_valid_iff (token : option string) (w : World)
  (Hwf : db_wf (db w)) :
  ((exists ui, snd (verify_token env token w) = Return ui) <->
   (exists t s, token = Some t /\ In s (tbl_sessions (db w))
      /\ sessions_token s = t /\ now env < sessions_expires_at s))
  /\ (forall e, snd (verify_token env token w) = Raise e ->
        exists d, e = HTTPException 401 d)
  /\ (forall ui, snd (verify_token env token w) = Return ui ->
        forall s u, In s (tbl_sessions (db w)) ->
          Some (sessions_token s) = token ->
          In u (tbl_users (db w)) -> users_id u = sessions_user_id s ->
          ui = info_of u)
  /\ fst (verify_token env token w) = w.
Proof.
  destruct Hwf as (Hids & Htok & Href).
  split; [|split; [|split]].
  - split.
    + intros (ui & Hui).
      destruct (verify_token_cases token w) as [(ui' & E)|(d & E)];
        rewrite E in Hui; simpl in Hui; [|discriminate].
      apply verify_token_Return in E.
      destruct E as (t & s & u & -> & _ & Hs & _ & _ & E2 & E3 & _).
      exists t, s. repeat split; assumption.
    + intros (t & s & -> & Hs & E2 & E3).
      destruct (Href s Hs) as (Hne & u & Hu & Eu).
      destruct (verify_token_accepts t s u w) as (ui & E);
        try assumption; try congruence.
      exists ui. rewrite E. reflexivity.
  - intros e He.
    destruct (verify_token_cases token w) as [(ui' & E)|(d & E)];
      rewrite E in He; simpl in He; [discriminate|].
    injection He as <-. eauto.
  - intros ui Hui s u Hs Es Hu Eu.
    destruct (verify_token_cases token w) as [(ui' & E)|(d & E)];
      rewrite E in Hui; simpl in Hui; [|discriminate].
    injection Hui as ->. apply verify_token_Return in E.
    destruct E as (t & s' & u' & -> & _ & Hs' & Hu' & E1 & E2 & _ & ->).
    injection Es as Es.
    assert (s = s') by (eapply NoDup_map_injective; eauto; congruence).
    subst s'.
    assert (u = u') by (eapply NoDup_map_injective; eauto; congruence).
    subst u'. reflexivity.
  - apply verify_token_world.
Qed.

End Tokens.

Lemma sample_db_wf : db_wf sample_db.
Proof.
  unfold db_wf, sample_db. simpl. split; [|split].
  - repeat constructor; simpl; tauto.
  - repeat constructor; simpl; tauto.
  - intros s [<-|[]]. split; [discriminate|].
    eexists. split; [left; reflexivity|reflexivity].
Qed.

(** The statement of C5 at the sample world: the token ["t"] is accepted. *)
Lemma verify_token_valid_iff_witness :
  db_wf (db sample_world)
  /\ snd (verify_token sample_env (Some "t"%string) sample_world)
     = Return {| info_user_id := 1; info_username := "alice";
                 info_email := "a@x.com" |}
  /\ fst (verify_token sample_env (Some "t"%string) sample_world)
     = sample_world.
Proof.
  split; [exact sample_db_wf|].
  split; [reflexivity|].
  exact (proj2 (proj2 (proj2
    (verify_token_valid_iff sample_env (Some "t"%string) sample_world
       sample_db_wf)))).
Defined.

Section Logout.

Variable env : Env.

Lemma verify_token_rejects token w :
  (forall s, In s (tbl_sessions (db w)) -> Some (sessions_token s) <> token) ->
  exists d, verify_token env token w = (w, Raise (HTTPException 401 d)).
Proof.
  intros Hnone.
  destruct (verify_token_cases env token w) as [(ui & E)|(d & E)]; [|eauto].
  exfalso. apply verify_token_Return in E.
  destruct E as (t & s & u & -> & _ & Hs & _ & _ & E2 & _).
  apply (Hnone s Hs). congruence.
Qed.

(** C4, as the code has it.  [logout] runs [verify_token] first.  With a
    token that verifies it deletes every session record carrying the token
    and returns its message; afterwards no record carries the token and a
    second [logout] with it raises the 401 [HTTPException], leaving the world
    as the first call left it.  With a token that does not verify (absent,
    unknown, deleted or expired) it raises that same 401 and changes
    nothing. *)
Theorem logout_requires_valid_token (token : option string) (w : World) :
  (forall ui, snd (verify_token env token w) = Return ui ->
     exists t, token = Some t
       /\ logout env token w =
          (with_db
             (with_sessions
                (List.filter (fun s => negb (String.eqb (sessions_token s) t))
                   (tbl_sessions (db w)))
                (db w)) w,
           Return "Đăng xuất thành công"%string)
       /\ (forall s, In s (tbl_sessions (db (fst (logout env token w)))) ->
             sessions_token s <> t)
       /\ exists d,
            logout env token (fst (logout env token w)) =
            (fst (logout env token w), Raise (HTTPException 401 d)))
  /\ (forall e, snd (verify_token env token w) = Raise e ->
        logout env token w = (w, Raise e)
        /\ exists d, e = HTTPException 401 d).
Proof.
  split.
  - intros ui Hui.
    destruct (verify_token_cases env token w) as [(ui' & E)|(d & E)];
      rewrite E in Hui; simpl in Hui; [|discriminate].
    destruct (verify_token_Return env _ _ _ E) as (t & _ & _ & -> & _).
    exists t. split; [reflexivity|].
    assert (L : logout env (Some t) w =
                (with_db
                   (with_sessions
                      (List.filter
                         (fun s => negb (String.eqb (sessions_token s) t))
                         (tbl_sessions (db w)))
                      (db w)) w,
                 Return "Đăng xuất thành công"%string)).
    { unfold logout, bind. rewrite E. reflexivity. }
    rewrite L. simpl. split; [reflexivity|].
    assert (Hgone : forall s,
               In s (List.filter
                       (fun s => negb (String.eqb (sessions_token s) t))
                       (tbl_sessions (db w))) ->
               sessions_token s <> t).
    { intros s Hs. apply List.filter_In in Hs. destruct Hs as [_ Hs].
      apply negb_true_iff, String.eqb_neq in Hs. exact Hs. }
    split; [exact Hgone|].
    match goal with |- exists d, logout _ _ ?w1 = _ =>
      destruct (verify_token_rejects (Some t) w1) as (d & E1) end.
    { simpl. intros s Hs Heq. apply (Hgone s Hs). congruence. }
    exists d. unfold logout, bind. rewrite E1. reflexivity.
  - intros e He.
    destruct (verify_token_cases env token w) as [(ui' & E)|(d & E)];
      rewrite E in He; simpl in He; [discriminate|].
    injection He as <-. split; [|eauto].
    unfold logout, bind. rewrite E. reflexivity.
Qed.

End Logout.

(** C4 as stated fails: at the sample world the first [logout] with the
    token ["t"] succeeds and the second one, with the record now deleted, is
    refused with 401; so is a [logout] without a token, and one with the
    stored but expired token (time 100). *)
Lemma logout_not_idempotent :
  snd (logout sample_env (Some "t"%string) sample_world)
  = Return "Đăng xuất thành công"%string
  /\ snd (logout sample_env (Some "t"%string)
            (fst (logout sample_env (Some "t"%string) sample_world)))
     = Raise (HTTPException 401 "Token không hợp lệ hoặc đã hết hạn")
  /\ snd (logout sample_env None sample_world)
     = Raise (HTTPException 401 "Token không được cung cấp")
  /\ snd (logout (at_time 100 sample_env) (Some "t"%string) sample_world)
     = Raise (HTTPException 401 "Token không hợp lệ hoặc đã hết hạn").
Proof. repeat split; reflexivity. Qed.

(* ===================================================================== *)
(** ** Computations that only log *)
(* ===================================================================== *)

Section Writers.

Lemma with_log_id w : with_log (log w ++ []) w = w.
Proof. destruct w. unfold with_log. simpl. rewrite app_nil_r. reflexivity. Qed.

Lemma with_log_with_log l1 l2 w :
  with_log (log (with_log (log w ++ l1) w) ++ l2) (with_log (log w ++ l1) w)
  = with_log (log w ++ l1 ++ l2) w.
Proof. unfold with_log. simpl. rewrite app_assoc. reflexivity. Qed.

Lemma writer_ret {A} (a : A) : writer (ret a).
Proof. exists [], (Return a). intros w. unfold ret. rewrite with_log_id. reflexivity. Qed.

Lemma writer_raise {A} (e : exn) : writer (@raise A e).
Proof. exists [], (Raise e). intros w. unfold raise. rewrite with_log_id. reflexivity. Qed.

Lemma writer_call {A} (r : reply A) : writer (call r).
Proof.
  destruct r as [msg|a]; [exists [], (Raise (Exception msg))|exists [], (Return a)];
    intros w; unfold call; rewrite with_log_id; reflexivity.
Qed.

Lemma writer_logger lvl msg : writer (logger lvl msg).
Proof. exists [(lvl, msg)], (Return tt). intros w. reflexivity. Qed.

Lemma writer_bind {A B} (m : M A) (k : A -> M B) :
  writer m -> (forall a, writer (k a)) -> writer (bind m k).
Proof.
  intros (l & r & Hm) Hk. destruct r as [e|a].
  - exists l, (Raise e). intros w. unfold bind. rewrite Hm. reflexivity.
  - destruct (Hk a) as (l' & r' & Hka). exists (l ++ l'), r'. intros w.
    unfold bind. rewrite Hm, Hka, with_log_with_log. reflexivity.
Qed.

Lemma writer_try_except {A} (m : M A) (h : exn -> M A) :
  writer m -> (forall e, writer (h e)) -> writer (try_except m h).
Proof.
  intros (l & r & Hm) Hh. destruct r as [e|a].
  - destruct (Hh e) as (l' & r' & Hhe). exists (l ++ l'), r'. intros w.
    unfold try_except. rewrite Hm, Hhe, with_log_with_log. reflexivity.
  - exists l, (Return a). intros w. unfold try_except. rewrite Hm. reflexivity.
Qed.

(** What a writer leaves alone. *)
Lemma writer_frame {A} (m : M A) (w : World) :
  writer m ->
  db (fst (m w)) = db w /\ user_sessions (fst (m w)) = user_sessions w.
Proof. intros (l & r & Hm). rewrite Hm. split; reflexivity. Qed.

Lemma writer_result {A} (m : M A) (w w' : World) :
  writer m -> snd (m w) = snd (m w').
Proof. intros (l & r & Hm). rewrite !Hm. reflexivity. Qed.

End Writers.

Ltac writer_step :=
  first
    [ apply writer_ret | apply writer_raise | apply writer_call
    | apply writer_logger
    | apply writer_bind; [|intros ?]
    | apply writer_try_except; [|intros ?]
    | match goal with
      | |- writer (match ?x with _ => _ end) => destruct x
      | |- writer (if ?b then _ else _) => destruct b
      end ].

Ltac writer_auto := repeat writer_step.

Section WriterInstances.

Variable env : Env.

Lemma extract_text_from_file_writer content name :
  writer (extract_text_from_file env content name).
Proof. unfold extract_text_from_file. writer_auto. Qed.

Lemma extract_text_from_url_writer url :
  writer (extract_text_from_url env url).
Proof. unfold extract_text_from_url. writer_auto. Qed.

Lemma upload_extract_writer ui file url :
  writer (upload_extract env ui file url).
Proof.
  unfold upload_extract. writer_auto;
    auto using extract_text_from_file_writer, extract_text_from_url_writer.
Qed.

Lemma BasicRAG_writer r l q : writer (BasicRAG.build_chain env r l q).
Proof. unfold BasicRAG.build_chain. writer_auto. Qed.

Lemma retrieve_all_from_writer r qs :
  forall acc, writer (MultiQueryRAG.retrieve_all_from env r qs acc).
Proof.
  induction qs as [|q qs IH]; intros acc; simpl; [apply writer_ret|].
  apply writer_bind; [writer_auto | intros a; apply IH].
Qed.

Lemma MultiQueryRAG_writer r l q : writer (MultiQueryRAG.build_chain env r l q).
Proof.
  unfold MultiQueryRAG.build_chain, MultiQueryRAG.generate_queries,
    MultiQueryRAG.retrieve_all.
  writer_auto. apply retrieve_all_from_writer.
Qed.

Lemma HyDERAG_writer r l q : writer (HyDERAG.build_chain env r l q).
Proof. unfold HyDERAG.build_chain. writer_auto. Qed.

Lemma run_chain_writer tag r l q : writer (run_chain env tag r l q).
Proof.
  unfold run_chain.
  destruct (String.eqb tag "multi_query"); [apply MultiQueryRAG_writer|].
  destruct (String.eqb tag "hyde");
    [apply HyDERAG_writer | apply BasicRAG_writer].
Qed.

End WriterInstances.

(* ===================================================================== *)
(** ** Reading and writing the session registry *)
(* ===================================================================== *)

Section Registry.

Lemma session_of_insert w uid s uid' :
  session_of (with_user_sessions (<[uid := s]> (user_sessions w)) w) uid'
  = if decide (uid = uid') then s else session_of w uid'.
Proof.
  unfold session_of. simpl. rewrite lookup_insert.
  destruct (decide (uid = uid')); reflexivity.
Qed.

(** A first access registers the state every reader already assumed. *)
Lemma get_user_session_spec ui w :
  exists w1, get_user_session ui w = (w1, Return (info_user_id ui))
    /\ (forall uid, session_of w1 uid = session_of w uid)
    /\ db w1 = db w /\ log w1 = log w.
Proof.
  unfold get_user_session.
  destruct (user_sessions w !! info_user_id ui) eqn:E.
  - exists w. repeat split; reflexivity.
  - eexists. split; [reflexivity|]. repeat split.
    intros uid. rewrite session_of_insert.
    destruct (decide (info_user_id ui = uid)) as [<-|]; [|reflexivity].
    unfold session_of. rewrite E. reflexivity.
Qed.

Lemma session_assign_spec session f w :
  exists w1, session_assign session f w = (w1, Return tt)
    /\ session_of w1 session = f (session_of w session)
    /\ (forall uid, uid <> session -> session_of w1 uid = session_of w uid)
    /\ db w1 = db w /\ log w1 = log w.
Proof.
  unfold session_assign. eexists. split; [reflexivity|]. repeat split.
  - rewrite session_of_insert. destruct (decide (session = session)); congruence.
  - intros uid Hne. rewrite session_of_insert.
    destruct (decide (session = uid)); congruence.
Qed.

Lemma session_of_with_log l w uid :
  session_of (with_log l w) uid = session_of w uid.
Proof. reflexivity. Qed.

Lemma session_of_with_db d w uid :
  session_of (with_db d w) uid = session_of w uid.
Proof. reflexivity. Qed.

End Registry.

(* ===================================================================== *)
(** ** Upload *)
(* ===================================================================== *)

Ltac session_lookup :=
  unfold session_of; simpl; rewrite ?lookup_insert;
  repeat match goal with
         | |- context [decide (?a = ?b)] => destruct (decide (a = b))
         end;
  simpl; try congruence; try reflexivity.

Section Upload.

Variable env : Env.

Lemma too_short_test text :
  negb (Py.truthy (Some text)) || (String.length text <? 50)%nat
  = (String.length text <? 50)%nat.
Proof. destruct text; reflexivity. Qed.

(** What the second part of the [try] block does to the world, by outcome. *)
Lemma upload_commit_spec ui session text name kind w :
  let w' := fst (upload_commit env ui session text name kind w) in
  let st := staged text name kind (session_of w session) in
  (forall uid, uid <> session -> session_of w' uid = session_of w uid)
  /\ match snd (upload_commit env ui session text name kind w) with
     | Raise e =>
         db w' = db w
         /\ ((e = content_too_short /\ (String.length text < 50)%nat
              /\ session_of w' session = session_of w session)
             \/ (is_HTTPException e = false /\ (50 <= String.length text)%nat
                 /\ (session_of w' session = st
                     \/ (exists vs, session_of w' session = indexed vs st)
                     \/ (exists vs id,
                           session_of w' session
                           = set_document_id (Some id) (indexed vs st)))))
     | Return resp =>
         (50 <= String.length text)%nat
         /\ exists vs id,
              session_of w' session = set_document_id (Some id) (indexed vs st)
     end.
Proof.
  unfold upload_commit. rewrite too_short_test.
  destruct (String.length text <? 50)%nat eqn:Hlen.
  - apply Nat.ltb_lt in Hlen. simpl. split; [reflexivity|].
    split; [reflexivity|]. left. repeat split. exact Hlen.
  - apply Nat.ltb_ge in Hlen.
    unfold bind, logger, session_assign, call, execute_insert_documents,
      commit, ret; simpl.
    destruct (split_documents env 1000 200 _) as [e1|splits]; simpl.
    { split; [intros; session_lookup|]. split; [reflexivity|]. right.
      split; [reflexivity|]. split; [exact Hlen|]. left. session_lookup. }
    destruct (from_documents env splits) as [e2|vs]; simpl.
    { split; [intros; session_lookup|]. split; [reflexivity|]. right.
      split; [reflexivity|]. split; [exact Hlen|]. left. session_lookup. }
    destruct (sqlite_error env InsertDocuments) as [e3|]; simpl.
    { split; [intros; session_lookup|]. split; [reflexivity|]. right.
      split; [reflexivity|]. split; [exact Hlen|]. right. left. exists vs.
      session_lookup. }
    destruct (sqlite_error env CommitDocuments) as [e4|]; simpl.
    { split; [intros; session_lookup|]. split; [reflexivity|]. right.
      split; [reflexivity|]. split; [exact Hlen|]. right. right.
      eexists vs, _. session_lookup. }
    split; [intros; session_lookup|]. split; [exact Hlen|].
    eexists vs, _. session_lookup.
Qed.

(** How the part of [upload_document] after the extraction fails once the
    length check has passed: at chunking, at indexing, at the INSERT or at the
    commit, with what the session holds at that point. *)
Lemma upload_commit_failure ui session text name kind w e :
  snd (upload_commit env ui session text name kind w) = Raise e ->
  is_HTTPException e = false ->
  let w' := fst (upload_commit env ui session text name kind w) in
  let st := staged text name kind (session_of w session) in
  let doc := new_document text name kind in
  exists msg,
    e = Exception msg
    /\ ((split_documents env 1000 200 [doc] = Error msg
         /\ session_of w' session = st)
        \/ (exists splits,
              split_documents env 1000 200 [doc] = Ok splits
              /\ from_documents env splits = Error msg
              /\ session_of w' session = st)
        \/ (exists splits vs,
              split_documents env 1000 200 [doc] = Ok splits
              /\ from_documents env splits = Ok vs
              /\ sqlite_error env InsertDocuments = Some msg
              /\ session_of w' session = indexed vs st)
        \/ (exists splits vs,
              split_documents env 1000 200 [doc] = Ok splits
              /\ from_documents env splits = Ok vs
              /\ sqlite_error env InsertDocuments = None
              /\ sqlite_error env CommitDocuments = Some msg
              /\ session_of w' session
                 = set_document_id
                     (Some (next_rowid
                              (map documents_id (tbl_documents (db w)))))
                     (indexed vs st))).
Proof.
  unfold upload_commit. rewrite too_short_test.
  destruct (String.length text <? 50)%nat eqn:Hlen.
  { simpl. intros [= <-]. discriminate. }
  unfold new_document.
  unfold bind, logger, session_assign, call, execute_insert_documents,
    commit, ret; simpl.
  destruct (split_documents env 1000 200 _) as [e1|splits]; simpl.
  { intros [= <-] _. exists e1. split; [reflexivity|]. left.
    split; [reflexivity|]. session_lookup. }
  destruct (from_documents env splits) as [e2|vs] eqn:Hvs; simpl.
  { intros [= <-] _. exists e2. split; [reflexivity|]. right. left.
    exists splits. split; [reflexivity|]. split; [exact Hvs|].
    session_lookup. }
  destruct (sqlite_error env InsertDocuments) as [e3|] eqn:Hins; simpl.
  { intros [= <-] _. exists e3. split; [reflexivity|]. right. right. left.
    exists splits, vs. split; [reflexivity|]. split; [exact Hvs|].
    split; [reflexivity|]. session_lookup. }
  destruct (sqlite_error env CommitDocuments) as [e4|] eqn:Hcom; simpl.
  { intros [= <-] _. exists e4. split; [reflexivity|]. right. right. right.
    exists splits, vs. split; [reflexivity|]. split; [exact Hvs|].
    split; [reflexivity|]. split; [reflexivity|]. session_lookup. }
  discriminate.
Qed.

Lemma is_HTTPException_true e :
  is_HTTPException e = true -> exists c d, e = HTTPException c d.
Proof. destruct e; [eauto|discriminate]. Qed.

(** Input selection and extraction only ever raise a 400. *)
Lemma extract_text_from_file_raises content name w e :
  snd (extract_text_from_file env content name w) = Raise e ->
  exists d, e = HTTPException 400 d.
Proof.
  unfold extract_text_from_file, try_except, bind, call, logger, raise, ret.
  repeat (simpl;
          match goal with
          | |- context [match ?x with _ => _ end] => destruct x
          | |- context [if ?b then _ else _] => destruct b
          end);
    simpl; intros [= <-] || discriminate; eauto.
Qed.

Lemma extract_text_from_url_raises url w e :
  snd (extract_text_from_url env url w) = Raise e ->
  exists d, e = HTTPException 400 d.
Proof.
  unfold extract_text_from_url, try_except, bind, call, logger, raise, ret.
  repeat (simpl;
          match goal with
          | |- context [match ?x with _ => _ end] => destruct x
          | |- context [if ?b then _ else _] => destruct b
          end);
    simpl; intros [= <-] || discriminate; eauto.
Qed.

Lemma upload_extract_raises ui file url w e :
  snd (upload_extract env ui file url w) = Raise e ->
  exists d, e = HTTPException 400 d.
Proof.
  unfold upload_extract.
  destruct (file_and_filename file) as [[f name]|].
  - unfold bind at 1. simpl.
    destruct (length (file_content f) =? 0)%nat; simpl.
    + intros [= <-]. eauto.
    + unfold bind.
      destruct (extract_text_from_file env (file_content f) name _)
        as [w1 [e1|text]] eqn:E; simpl.
      * intros [= <-]. eapply extract_text_from_file_raises.
        rewrite E. reflexivity.
      * discriminate.
  - destruct (Py.truthy url); simpl.
    + unfold bind at 1. simpl. unfold bind.
      destruct (extract_text_from_url env _ _) as [w1 [e1|[text name]]] eqn:E;
        simpl.
      * intros [= <-]. eapply extract_text_from_url_raises.
        rewrite E. reflexivity.
      * discriminate.
    + intros [= <-]. eauto.
Qed.

(** [upload_document] after a successful [verify_token], step by step. *)
Lemma upload_document_run file url token w ui :
  snd (verify_token env token w) = Return ui ->
  exists w1 l,
    (forall uid, session_of w1 uid = session_of w uid)
    /\ db w1 = db w
    /\ match snd (upload_extract env ui file url w) with
       | Raise e =>
           upload_document env file url token w
           = (with_log (log w1 ++ l) w1, Raise e)
           /\ exists d, e = HTTPException 400 d
       | Return (text, name, kind) =>
           upload_document env file url token w
           = try_except
               (upload_commit env ui (info_user_id ui) text name kind)
               upload_except (with_log (log w1 ++ l) w1)
       end.
Proof.
  intros Hv.
  destruct (verify_token_cases env token w) as [(ui' & E)|(d & E)];
    rewrite E in Hv; simpl in Hv; [|discriminate].
  injection Hv as ->.
  destruct (get_user_session_spec ui w) as (w1 & Hg & Hs & Hdb & _).
  destruct (upload_extract_writer env ui file url) as (l & r & Hx).
  exists w1, l. split; [exact Hs|]. split; [exact Hdb|].
  pose proof (upload_extract_raises ui file url w) as Hr.
  rewrite Hx in *. simpl in *.
  assert (Hrun : upload_document env file url token w
                 = try_except
                     ('(text, name, kind) <- upload_extract env ui file url ;;
                      upload_commit env ui (info_user_id ui) text name kind)
                     upload_except w1).
  { unfold upload_document, bind at 1. rewrite E.
    unfold bind at 1. rewrite Hg. reflexivity. }
  rewrite Hrun. unfold try_except, bind. rewrite Hx.
  destruct r as [e|[[text name] kind]].
  - destruct (Hr e eq_refl) as (d & ->). simpl. eauto.
  - reflexivity.
Qed.

(** C1, as the code has it.  A failed upload never writes to the database.
    If it fails with status 401 or 400, which is every failure of
    authentication, input selection, extraction or the length check, every
    user's session state is exactly what it was.  Otherwise it fails with
    status 500 and the message of the step that failed, and nothing is
    rolled back; the other users' sessions are untouched and the user's
    documents, source name and source kind are already those of the new
    upload.  When chunking or indexing failed, the vector store, retriever
    and document id are still the old ones; when the INSERT failed, the
    vector store is the one the index service built from the chunks of the
    new document and the retriever is the one on it; when the commit failed,
    the document id is moreover the row id of the INSERT that was never
    committed. *)
Theorem upload_failure_effects (file : option UploadFile)
  (url token : option string) (w w' : World) (e : exn) :
  upload_document env file url token w = (w', Raise e) ->
  db w' = db w
  /\ ((exists d, e = HTTPException 401 d \/ e = HTTPException 400 d)
      /\ (forall uid, session_of w' uid = session_of w uid)
      \/ exists ui text name kind msg,
           e = HTTPException 500 ("Processing failed: " ++ msg)
           /\ snd (verify_token env token w) = Return ui
           /\ snd (upload_extract env ui file url w) = Return (text, name, kind)
           /\ (50 <= String.length text)%nat
           /\ (forall uid, uid <> info_user_id ui ->
                 session_of w' uid = session_of w uid)
           /\ let st := staged text name kind (session_of w (info_user_id ui)) in
              let doc := new_document text name kind in
              (split_documents env 1000 200 [doc] = Error msg
               /\ session_of w' (info_user_id ui) = st)
              \/ (exists splits,
                    split_documents env 1000 200 [doc] = Ok splits
                    /\ from_documents env splits = Error msg
                    /\ session_of w' (info_user_id ui) = st)
              \/ (exists splits vs,
                    split_documents env 1000 200 [doc] = Ok splits
                    /\ from_documents env splits = Ok vs
                    /\ sqlite_error env InsertDocuments = Some msg
                    /\ session_of w' (info_user_id ui) = indexed vs st)
              \/ (exists splits vs,
                    split_documents env 1000 200 [doc] = Ok splits
                    /\ from_documents env splits = Ok vs
                    /\ sqlite_error env InsertDocuments = None
                    /\ sqlite_error env CommitDocuments = Some msg
                    /\ session_of w' (info_user_id ui)
                       = set_document_id
                           (Some (next_rowid
                                    (map documents_id (tbl_documents (db w)))))
                           (indexed vs st))).
Proof.
  intros Hup.
  destruct (verify_token_cases env token w) as [(ui & E)|(d & E)].
  - destruct (upload_document_run file url token w ui) as (w1 & l & Hs & Hdb & Hrun).
    { rewrite E. reflexivity. }
    destruct (snd (upload_extract env ui file url w))
      as [e0|[[text name] kind]] eqn:Hx.
    + destruct Hrun as (Hrun & d & ->). rewrite Hrun in Hup.
      injection Hup as <- <-. split; [exact Hdb|]. left. split; [eauto|].
      exact Hs.
    + rewrite Hrun in Hup. unfold try_except in Hup.
      pose proof (upload_commit_spec ui (info_user_id ui) text name kind
                    (with_log (log w1 ++ l) w1)) as Hc.
      pose proof (upload_commit_failure ui (info_user_id ui) text name kind
                    (with_log (log w1 ++ l) w1)) as Hf.
      destruct (upload_commit env ui (info_user_id ui) text name kind
                  (with_log (log w1 ++ l) w1)) as [w2 [e2|resp]];
        [|discriminate].
      simpl in Hc, Hf. destruct Hc as (Hother & Hdb2 & Hcase).
      destruct Hcase as [(-> & Hlen & Hsame)|(Hnot & Hlen & _)].
      * simpl in Hup. injection Hup as <- <-.
        split; [congruence|]. left. split; [eauto|].
        intros uid. destruct (decide (uid = info_user_id ui)) as [->|Hne].
        -- rewrite Hsame. apply Hs.
        -- rewrite Hother by exact Hne. apply Hs.
      * destruct (Hf e2 eq_refl Hnot) as (msg & -> & Hst).
        unfold upload_except in Hup.
        unfold bind, logger, raise in Hup. simpl in Hup.
        injection Hup as <- <-. simpl. split; [congruence|]. right.
        exists ui, text, name, kind, msg.
        split; [reflexivity|]. split; [rewrite E; reflexivity|].
        split; [exact Hx|]. split; [exact Hlen|].
        split.
        -- intros uid Hne. change (session_of w2 uid = session_of w uid).
           rewrite Hother by exact Hne. apply Hs.
        -- change (session_of (with_log (log w2 ++ [(ERROR, Upload_failed (Exception msg))]) w2)
                     (info_user_id ui))
             with (session_of w2 (info_user_id ui)).
           rewrite <- (Hs (info_user_id ui)), <- Hdb.
           exact Hst.
  - unfold upload_document, bind in Hup. rewrite E in Hup.
    injection Hup as <- <-. split; [reflexivity|]. left. split; [eauto|].
    reflexivity.
Qed.

(** C7.  Whenever the token verifies and extraction yields a text shorter
    than 50 characters, [upload_document] raises the 400 "Content too short"
    [HTTPException], and every user's session state (the active corpus, if
    any) and the database are exactly what they were before the request. *)
Theorem upload_content_too_short (file : option UploadFile)
  (url token : option string) (w : World) (ui : UserInfo)
  (text name kind : string) :
  snd (verify_token env token w) = Return ui ->
  snd (upload_extract env ui file url w) = Return (text, name, kind) ->
  (String.length text < 50)%nat ->
  snd (upload_document env file url token w) = Raise content_too_short
  /\ (forall uid,
        session_of (fst (upload_document env file url token w)) uid
        = session_of w uid)
  /\ db (fst (upload_document env file url token w)) = db w.
Proof.
  intros Hv Hx Hlen.
  destruct (upload_document_run file url token w ui Hv)
    as (w1 & l & Hs & Hdb & Hrun).
  rewrite Hx in Hrun. rewrite Hrun. unfold try_except.
  pose proof (upload_commit_spec ui (info_user_id ui) text name kind
                (with_log (log w1 ++ l) w1)) as Hc.
  destruct (upload_commit env ui (info_user_id ui) text name kind
              (with_log (log w1 ++ l) w1)) as [w2 [e2|resp]]; simpl in Hc.
  - destruct Hc as (Hother & Hdb2 & Hcase).
    destruct Hcase as [(-> & _ & Hsame)|(_ & Hge & _)]; [|lia].
    simpl. split; [reflexivity|]. split; [|congruence].
    intros uid. destruct (decide (uid = info_user_id ui)) as [->|Hne].
    + rewrite Hsame. apply Hs.
    + rewrite Hother by exact Hne. apply Hs.
  - destruct Hc as (_ & Hge & _). lia.
Qed.

(** C3, as the code has it.  With neither a named file nor a URL the upload
    of an authenticated user raises the 400 "Provide either file or URL".
    With both, nothing is rejected: the file branch runs and the URL is never
    looked at, so the request behaves as if only the file had been sent.
    An upload that succeeds had at least one of the two inputs. *)
Theorem upload_input_selection (file : option UploadFile)
  (url token : option string) (w : World) :
  (forall ui, snd (verify_token env token w) = Return ui ->
     file_and_filename file = None -> Py.truthy url = false ->
     snd (upload_document env file url token w)
     = Raise (HTTPException 400 "Provide either file or URL"))
  /\ (file_and_filename file <> None ->
      upload_document env file url token w
      = upload_document env file None token w)
  /\ (forall resp, snd (upload_document env file url token w) = Return resp ->
        file_and_filename file <> None \/ Py.truthy url = true).
Proof.
  assert (Hneither : forall ui, snd (verify_token env token w) = Return ui ->
     file_and_filename file = None -> Py.truthy url = false ->
     snd (upload_document env file url token w)
     = Raise (HTTPException 400 "Provide either file or URL")).
  { intros ui Hv Hf Hu.
    destruct (upload_document_run file url token w ui Hv)
      as (w1 & l & _ & _ & Hrun).
    unfold upload_extract in Hrun. rewrite Hf, Hu in Hrun. simpl in Hrun.
    destruct Hrun as [-> _]. reflexivity. }
  split; [exact Hneither|]. split.
  - intros Hf. unfold upload_document, upload_extract.
    destruct (file_and_filename file) as [[f name]|]; [reflexivity|congruence].
  - intros resp Hr.
    destruct (file_and_filename file) eqn:Hf; [left; discriminate|].
    destruct (Py.truthy url) eqn:Hu; [right; reflexivity|]. exfalso.
    destruct (verify_token_cases env token w) as [(ui & E)|(d & E)].
    + rewrite (Hneither ui) in Hr; [discriminate| |reflexivity|reflexivity].
      rewrite E. reflexivity.
    + unfold upload_document, bind in Hr. rewrite E in Hr. discriminate.
Qed.

End Upload.

(** C1 as stated fails.  User 1 holds the corpus of "notes.txt"; the upload
    of "other.txt" then fails at indexing with status 500, and afterwards the
    session names "other.txt" and holds its text while the vector store,
    retriever and document id are still those of "notes.txt". *)
Lemma upload_failure_keeps_partial_state :
  snd (upload_document (index_failing "quota exceeded" sample_env)
         (Some other_file) None (Some "t"%string) ready_world)
  = Raise (HTTPException 500 "Processing failed: quota exceeded")
  /\ session_of
       (fst (upload_document (index_failing "quota exceeded" sample_env)
               (Some other_file) None (Some "t"%string) ready_world)) 1
     <> session_of ready_world 1
  /\ source_name (session_of ready_world 1) = Some "notes.txt"%string
  /\ source_name
       (session_of
          (fst (upload_document (index_failing "quota exceeded" sample_env)
                  (Some other_file) None (Some "t"%string) ready_world)) 1)
     = Some "other.txt"%string
  /\ vectorstore
       (session_of
          (fst (upload_document (index_failing "quota exceeded" sample_env)
                  (Some other_file) None (Some "t"%string) ready_world)) 1)
     = vectorstore (session_of ready_world 1).
Proof.
  split; [reflexivity|]. split; [|repeat split].
  intros H. apply (f_equal source_name) in H. vm_compute in H. discriminate.
Qed.

(** The statement of C1's correction at that failing upload. *)
Lemma upload_failure_effects_witness :
  upload_document (index_failing "quota exceeded" sample_env)
    (Some other_file) None (Some "t"%string) ready_world
  = (fst (upload_document (index_failing "quota exceeded" sample_env)
            (Some other_file) None (Some "t"%string) ready_world),
     Raise (HTTPException 500 "Processing failed: quota exceeded"))
  /\ db (fst (upload_document (index_failing "quota exceeded" sample_env)
                (Some other_file) None (Some "t"%string) ready_world))
     = db ready_world.
Proof.
  assert (H : upload_document (index_failing "quota exceeded" sample_env)
                (Some other_file) None (Some "t"%string) ready_world
              = (fst (upload_document
                        (index_failing "quota exceeded" sample_env)
                        (Some other_file) None (Some "t"%string) ready_world),
                 Raise (HTTPException 500 "Processing failed: quota exceeded")))
    by (vm_compute; reflexivity).
  split; [exact H|].
  exact (proj1 (upload_failure_effects _ _ _ _ _ _ _ H)).
Defined.

(** C3 as stated fails: a request carrying both a file and a URL is not
    refused; the file is processed and the upload succeeds. *)
Lemma upload_with_file_and_url_succeeds :
  snd (upload_document sample_env (Some sample_file)
         (Some "http://example.org/"%string) (Some "t"%string) sample_world)
  = Return {| upload_status := "success";
              upload_message := "Successfully processed 'notes.txt'";
              upload_source := "notes.txt";
              upload_source_type := "file";
              upload_content_length := 59;
              upload_chunks := 1;
              upload_word_count := 12 |}.
Proof. reflexivity. Qed.

(** The statement of C7 at the upload of a ten-character file over an
    existing corpus. *)
Lemma upload_content_too_short_witness :
  snd (upload_document sample_env (Some short_file) None (Some "t"%string)
         ready_world)
  = Raise content_too_short
  /\ (forall uid,
        session_of
          (fst (upload_document sample_env (Some short_file) None
                  (Some "t"%string) ready_world)) uid
        = session_of ready_world uid)
  /\ db (fst (upload_document sample_env (Some short_file) None
                (Some "t"%string) ready_world))
     = db ready_world.
Proof.
  apply (upload_content_too_short sample_env (Some short_file) None
           (Some "t"%string) ready_world alice "too short."%string
           "short.txt"%string "file"%string).
  - reflexivity.
  - reflexivity.
  - simpl. lia.
Defined.

(* ===================================================================== *)
(** ** Multi-Query retrieval *)
(* ===================================================================== *)

Section MultiQuery.

Variable env : Env.
Variable r : VectorStoreRetriever.

Lemma retrieve_all_from_spec queries : forall acc w,
  MultiQueryRAG.retrieve_all_from env r queries acc w
  = (with_log (log w ++ retrieval_warnings env r queries) w,
     Return (acc ++ successful_retrievals env r queries)).
Proof.
  induction queries as [|q queries IH]; intros acc w; simpl.
  - unfold ret. rewrite with_log_id, app_nil_r. reflexivity.
  - unfold bind at 1, try_except, bind at 1, call, ret, logger.
    destruct (get_relevant_documents env r q) as [msg|docs]; simpl.
    + rewrite IH. unfold with_log. simpl. rewrite <- app_assoc. reflexivity.
    + rewrite IH, <- app_assoc. reflexivity.
Qed.

Lemma dict_set_values u k d kv :
  In kv (MultiQueryRAG.dict_set u k d) -> In kv u \/ snd kv = d.
Proof.
  induction u as [|[k0 v] u IH]; simpl.
  - intros [<-|[]]. right. reflexivity.
  - destruct (String.eqb k0 k); simpl.
    + intros [<-|H]; [right; reflexivity|left; right; exact H].
    + intros [<-|H]; [left; left; reflexivity|].
      destruct (IH H); [left; right; assumption|right; assumption].
Qed.

Lemma merge_into_values docs : forall u kv,
  In kv (merge_into u docs) -> In kv u \/ In (snd kv) docs.
Proof.
  unfold merge_into.
  induction docs as [|d docs IH]; intros u kv; simpl; [tauto|].
  intros H. apply IH in H. destruct H as [H|H]; [|tauto].
  apply dict_set_values in H. destruct H as [H|H]; [tauto|].
  right. left. symmetry. exact H.
Qed.

Lemma get_unique_docs_In doc_lists d :
  In d (MultiQueryRAG.get_unique_docs doc_lists) -> In d (concat doc_lists).
Proof.
  rewrite get_unique_docs_flat, in_map_iff. intros ([k v] & <- & H).
  apply merge_into_values in H. destruct H as [[]|H]. exact H.
Qed.

Lemma successful_retrievals_In queries docs :
  In docs (successful_retrievals env r queries) <->
  exists q, In q queries /\ get_relevant_documents env r q = Ok docs.
Proof.
  unfold successful_retrievals. rewrite in_flat_map. split.
  - intros (q & Hq & H). exists q. split; [exact Hq|].
    destruct (get_relevant_documents env r q); simpl in H; [contradiction|].
    destruct H as [->|[]]. reflexivity.
  - intros (q & Hq & E). exists q. split; [exact Hq|]. rewrite E. left.
    reflexivity.
Qed.

Lemma successful_retrievals_none queries :
  (forall q, In q queries ->
     exists msg, get_relevant_documents env r q = Error msg) ->
  successful_retrievals env r queries = [].
Proof.
  induction queries as [|q queries IH]; intros Hall; [reflexivity|].
  unfold successful_retrievals in *. simpl.
  destruct (Hall q) as (msg & ->); [left; reflexivity|]. simpl.
  apply IH. intros q' Hq'. apply Hall. right. exact Hq'.
Qed.

(** The chain of Multi-Query once the model has produced its queries. *)
Lemma MultiQueryRAG_run llm question x w :
  llm_invoke env llm (MultiQueryRAG.multi_query_template question) = Ok x ->
  snd (MultiQueryRAG.build_chain env r llm question w)
  = llm_result env llm
      (MultiQueryRAG.template
         (format_docs
            (MultiQueryRAG.get_unique_docs
               (successful_retrievals env r (parse_queries x))))
         question).
Proof.
  intros Hx.
  assert (Hg : MultiQueryRAG.generate_queries env llm question w
               = (w, Return (parse_queries x))).
  { unfold MultiQueryRAG.generate_queries, bind, call. rewrite Hx.
    reflexivity. }
  unfold MultiQueryRAG.build_chain, MultiQueryRAG.retrieve_all.
  unfold bind at 1. rewrite Hg.
  unfold bind at 1, logger. unfold bind at 1.
  rewrite retrieve_all_from_spec.
  unfold call, llm_result.
  destruct (llm_invoke env llm (MultiQueryRAG.template _ question));
    reflexivity.
Qed.

(** The whole run of the Multi-Query chain once the model has produced its
    queries: what it logs and what it asks the model. *)
Lemma MultiQueryRAG_chain llm question x w :
  llm_invoke env llm (MultiQueryRAG.multi_query_template question) = Ok x ->
  MultiQueryRAG.build_chain env r llm question w
  = (with_log
       (log w ++ (INFO, Generated_queries (parse_queries x))
               :: retrieval_warnings env r (parse_queries x)) w,
     llm_result env llm
       (MultiQueryRAG.template
          (format_docs
             (MultiQueryRAG.get_unique_docs
                (successful_retrievals env r (parse_queries x))))
          question)).
Proof.
  intros Hx.
  assert (Hg : MultiQueryRAG.generate_queries env llm question w
               = (w, Return (parse_queries x))).
  { unfold MultiQueryRAG.generate_queries, bind, call. rewrite Hx.
    reflexivity. }
  unfold MultiQueryRAG.build_chain, MultiQueryRAG.retrieve_all.
  unfold bind at 1. rewrite Hg.
  unfold bind at 1, logger. unfold bind at 1.
  rewrite retrieve_all_from_spec.
  unfold call, llm_result, with_log. simpl. rewrite <- app_assoc. simpl.
  destruct (llm_invoke env llm (MultiQueryRAG.template _ question));
    reflexivity.
Qed.

(** C8.  Whatever the generated queries are, [retrieve_all] never raises:
    it returns, in query order, the result lists of exactly the queries
    whose retrieval succeeded and logs one warning for each query that
    failed.  The texts merged from them are those retrieved by the successful
    queries, first occurrences only; every document of the merged list was
    retrieved by a successful query, and every text a successful query
    retrieved is in the merged list.  This merged list is what the chain
    works with: once the model has produced the queries, [full_chain] logs
    them and the warnings of the failed retrievals, raises nothing at the
    retrieval step, and ends as the model does on the answer prompt whose
    context is the merged list, formatted.  When there is no query, or every
    retrieval fails, the result is empty and the chain goes on to ask the
    model with an empty context instead of failing at that step. *)
Theorem retrieve_all_skips_failed_queries (queries : list string) :
  (forall w,
     MultiQueryRAG.retrieve_all env r queries w
     = (with_log (log w ++ retrieval_warnings env r queries) w,
        Return (successful_retrievals env r queries)))
  /\ (forall docs,
        In docs (successful_retrievals env r queries) <->
        exists q, In q queries /\ get_relevant_documents env r q = Ok docs)
  /\ (let merged :=
        MultiQueryRAG.get_unique_docs (successful_retrievals env r queries) in
      map page_content merged
      = first_occurrences
          (map page_content (concat (successful_retrievals env r queries)))
      /\ (forall d, In d merged ->
            exists q docs, In q queries
              /\ get_relevant_documents env r q = Ok docs /\ In d docs)
      /\ (forall q docs d, In q queries ->
            get_relevant_documents env r q = Ok docs -> In d docs ->
            In (page_content d) (map page_content merged))
      /\ (forall llm question x w,
            llm_invoke env llm (MultiQueryRAG.multi_query_template question)
            = Ok x ->
            parse_queries x = queries ->
            MultiQueryRAG.build_chain env r llm question w
            = (with_log
                 (log w ++ (INFO, Generated_queries queries)
                         :: retrieval_warnings env r queries) w,
               llm_result env llm
                 (MultiQueryRAG.template (format_docs merged) question))))
  /\ ((forall q, In q queries ->
         exists msg, get_relevant_documents env r q = Error msg) ->
      successful_retrievals env r queries = []
      /\ forall llm question x w,
           llm_invoke env llm (MultiQueryRAG.multi_query_template question)
           = Ok x ->
           parse_queries x = queries ->
           snd (MultiQueryRAG.build_chain env r llm question w)
           = llm_result env llm (MultiQueryRAG.template "" question)).
Proof.
  split; [|split; [|split]].
  - intros w. unfold MultiQueryRAG.retrieve_all.
    rewrite retrieve_all_from_spec. reflexivity.
  - apply successful_retrievals_In.
  - split; [apply get_unique_docs_texts|]. split; [|split].
    + intros d Hd. apply get_unique_docs_In, in_concat in Hd.
      destruct Hd as (docs & Hdocs & Hd).
      apply successful_retrievals_In in Hdocs.
      destruct Hdocs as (q & Hq & E). eauto.
    + intros q docs d Hq E Hd. rewrite get_unique_docs_texts.
      apply first_occurrences_In, in_map, in_concat. exists docs.
      split; [|exact Hd]. apply successful_retrievals_In. eauto.
    + intros llm question x w Hx <-.
      apply MultiQueryRAG_chain, Hx.
  - intros Hall. split; [apply successful_retrievals_none, Hall|].
    intros llm question x w Hx Hq.
    rewrite (MultiQueryRAG_run llm question x w Hx), Hq.
    rewrite (successful_retrievals_none queries Hall). reflexivity.
Qed.

End MultiQuery.

(* ===================================================================== *)
(** ** Ask *)
(* ===================================================================== *)

Section Ask.

Variable env : Env.

Lemma slice_to_length n s : (String.length (Py.slice_to n s) <= n)%nat.
Proof.
  revert s. induction n as [|n IH]; intros [|c s]; simpl; try lia.
  specialize (IH s). lia.
Qed.

Lemma string_length_append (a b : string) :
  String.length (a ++ b)%string = (String.length a + String.length b)%nat.
Proof. induction a as [|c a IH]; simpl; [reflexivity|]. rewrite IH. reflexivity. Qed.

Lemma preview_length d : (String.length (preview d) <= 203)%nat.
Proof.
  unfold preview. rewrite string_length_append.
  pose proof (slice_to_length 200 (page_content d)) as H.
  change (String.length "...") with 3%nat. lia.
Qed.

(** The [try] block of [ask_question], by outcome. *)
Lemma ask_answer_spec ui s r request w :
  let w' := fst (ask_answer env ui s r request w) in
  let q := Py.strip (question request) in
  user_sessions w' = user_sessions w
  /\ match snd (ask_answer env ui s r request w) with
     | Raise e => db w' = db w
     | Return resp =>
         exists docs d,
           snd (run_chain env (rag_type request) r (llm s) q w)
           = Return (answer resp)
           /\ get_relevant_documents env r q = Ok docs
           /\ sources resp = map preview (firstn 3 docs)
           /\ document_id s = Some d
           /\ db w'
              = with_conversations
                  (tbl_conversations (db w)
                   ++ [ {| conversations_id :=
                             next_rowid
                               (map conversations_id (tbl_conversations (db w)));
                           conversations_user_id := info_user_id ui;
                           conversations_document_id := d;
                           conversations_question := q;
                           conversations_answer := answer resp;
                           conversations_rag_type := rag_type request |} ])
                  (db w)
     end.
Proof.
  destruct (run_chain_writer env (rag_type request) r (llm s)
              (Py.strip (question request))) as (l & res & Hc).
  unfold ask_answer, bind, logger, call, execute_insert_conversations,
    commit, ret.
  rewrite !Hc. simpl.
  destruct res as [e|a]; simpl; [split; reflexivity|].
  destruct (get_relevant_documents env r _) as [msg|docs]; simpl;
    [split; reflexivity|].
  destruct (sqlite_error env InsertConversations); simpl;
    [split; reflexivity|].
  destruct (document_id s) as [d|]; simpl; [|split; reflexivity].
  destruct (sqlite_error env CommitConversations); simpl;
    [split; reflexivity|].
  split; [reflexivity|]. exists docs, d. repeat split; reflexivity.
Qed.

(** [ask_question] after a successful [verify_token], step by step. *)
Lemma ask_question_run request token w ui :
  snd (verify_token env token w) = Return ui ->
  exists w1,
    (forall uid, session_of w1 uid = session_of w uid)
    /\ db w1 = db w
    /\ ask_question env request token w
       = match retriever (session_of w (info_user_id ui)) with
         | None =>
             (w1, Raise (HTTPException 400
                  "No document uploaded. Please upload a document or URL first."))
         | Some r =>
             try_except
               (ask_answer env ui (session_of w (info_user_id ui)) r request)
               ask_except w1
         end.
Proof.
  intros Hv.
  destruct (verify_token_cases env token w) as [(ui' & E)|(d & E)];
    rewrite E in Hv; simpl in Hv; [|discriminate].
  injection Hv as ->.
  destruct (get_user_session_spec ui w) as (w1 & Hg & Hs & Hdb & _).
  exists w1. split; [exact Hs|]. split; [exact Hdb|].
  unfold ask_question, bind at 1. rewrite E.
  unfold bind at 1. rewrite Hg.
  unfold bind at 1, session_read. rewrite (Hs (info_user_id ui)).
  destruct (retriever (session_of w (info_user_id ui))); reflexivity.
Qed.

(** C9.  Whenever [ask_question] returns, whatever the strategy tag, its
    excerpt previews are computed from one more retrieval with the session's
    retriever on the stripped question: they are the previews (the first 200
    characters followed by "...") of the first three documents of that
    retrieval, so there are at most 3 of them, each of at most 203
    characters. *)
Theorem ask_sources_from_fresh_retrieval (request : QuestionRequest)
  (token : option string) (w : World) (resp : AnswerResponse) :
  snd (ask_question env request token w) = Return resp ->
  exists ui r docs,
    snd (verify_token env token w) = Return ui
    /\ retriever (session_of w (info_user_id ui)) = Some r
    /\ get_relevant_documents env r (Py.strip (question request)) = Ok docs
    /\ sources resp = map preview (firstn 3 docs)
    /\ (List.length (sources resp) <= 3)%nat
    /\ Forall (fun p => (String.length p <= 203)%nat) (sources resp).
Proof.
  intros Hr.
  destruct (verify_token_cases env token w) as [(ui & E)|(d & E)].
  - destruct (ask_question_run request token w ui) as (w1 & _ & _ & Hrun).
    { rewrite E. reflexivity. }
    rewrite Hrun in Hr.
    destruct (retriever (session_of w (info_user_id ui))) as [r|] eqn:Hret;
      [|discriminate].
    unfold try_except in Hr.
    pose proof (ask_answer_spec ui (session_of w (info_user_id ui)) r request
                  w1) as Hspec.
    destruct (ask_answer env ui (session_of w (info_user_id ui)) r request w1)
      as [w2 [e|resp']]; simpl in Hr, Hspec; [discriminate|].
    injection Hr as ->.
    destruct Hspec as (_ & docs & d & _ & Hdocs & Hsrc & _).
    exists ui, r, docs. split; [rewrite E; reflexivity|].
    split; [exact Hret|]. split; [exact Hdocs|]. split; [exact Hsrc|].
    rewrite Hsrc. split.
    + rewrite List.length_map. apply List.firstn_le_length.
    + apply List.Forall_forall. intros p Hp. apply in_map_iff in Hp.
      destruct Hp as (doc & <- & _). apply preview_length.
  - unfold ask_question, bind in Hr. rewrite E in Hr. discriminate.
Qed.

(** C10.  [ask_question] never touches the active corpus: after the call,
    successful or not, every user's session state (documents, source name,
    source kind, vector store, retriever, document id) is what it was, and
    so are the users, sessions and documents tables.  A call that returns
    has appended exactly one conversation record, holding the stripped
    question, the answer returned and the strategy tag as sent; a call that
    raises has appended none. *)
Theorem ask_question_frame (request : QuestionRequest)
  (token : option string) (w : World) :
  let w' := fst (ask_question env request token w) in
  (forall uid, session_of w' uid = session_of w uid)
  /\ tbl_users (db w') = tbl_users (db w)
  /\ tbl_sessions (db w') = tbl_sessions (db w)
  /\ tbl_documents (db w') = tbl_documents (db w)
  /\ match snd (ask_question env request token w) with
     | Return resp =>
         exists row,
           tbl_conversations (db w') = tbl_conversations (db w) ++ [row]
           /\ conversations_question row = Py.strip (question request)
           /\ conversations_answer row = answer resp
           /\ conversations_rag_type row = rag_type request
     | Raise _ => tbl_conversations (db w') = tbl_conversations (db w)
     end.
Proof.
  destruct (verify_token_cases env token w) as [(ui & E)|(d & E)].
  - destruct (ask_question_run request token w ui) as (w1 & Hs & Hdb & Hrun).
    { rewrite E. reflexivity. }
    rewrite Hrun.
    destruct (retriever (session_of w (info_user_id ui))) as [r|] eqn:Hret.
    + unfold try_except.
      pose proof (ask_answer_spec ui (session_of w (info_user_id ui)) r request
                    w1) as Hspec.
      destruct (ask_answer env ui (session_of w (info_user_id ui)) r request
                  w1) as [w2 [e|resp]]; simpl in Hspec |- *.
      * destruct Hspec as (Hus & Hdb2).
        repeat split; try congruence.
        intros uid. rewrite <- Hs. unfold session_of. simpl. rewrite Hus.
        reflexivity.
      * destruct Hspec as (Hus & docs & d & _ & _ & _ & _ & Hdb2).
        rewrite Hdb2, Hdb. simpl.
        split; [|split; [reflexivity|split; [reflexivity|split; [reflexivity|]]]].
        -- intros uid. rewrite <- Hs. unfold session_of. simpl. rewrite Hus.
           reflexivity.
        -- eexists. split; [reflexivity|]. simpl. repeat split.
    + simpl. repeat split; first [congruence | apply Hs].
  - unfold ask_question, bind. rewrite E. simpl. repeat split.
Qed.

Lemma run_chain_default tag r l q :
  tag <> "multi_query"%string -> tag <> "hyde"%string ->
  run_chain env tag r l q = BasicRAG.build_chain env r l q.
Proof.
  intros H1 H2. unfold run_chain.
  apply String.eqb_neq in H1, H2. rewrite H1, H2. reflexivity.
Qed.

(** C6.  A strategy tag other than ["multi_query"] and ["hyde"] dispatches
    the Basic chain; the request then ends exactly as the same request
    tagged ["basic"] does: the same answer and excerpt previews, or the same
    exception, and the same session registry.  The databases agree too,
    except that the conversation record keeps the tag as it was sent. *)
Theorem ask_unrecognized_tag_is_basic (q tag : string)
  (token : option string) (w : World) :
  tag <> "multi_query"%string -> tag <> "hyde"%string ->
  let given := ask_question env {| question := q; rag_type := tag |} token w in
  let basic :=
    ask_question env {| question := q; rag_type := "basic" |} token w in
  (forall r l question,
     run_chain env tag r l question = BasicRAG.build_chain env r l question)
  /\ snd given = snd basic
  /\ user_sessions (fst given) = user_sessions (fst basic)
  /\ tbl_users (db (fst given)) = tbl_users (db (fst basic))
  /\ tbl_sessions (db (fst given)) = tbl_sessions (db (fst basic))
  /\ tbl_documents (db (fst given)) = tbl_documents (db (fst basic))
  /\ map without_rag_type (tbl_conversations (db (fst given)))
     = map without_rag_type (tbl_conversations (db (fst basic))).
Proof.
  intros H1 H2. split; [intros; apply run_chain_default; assumption|].
  destruct (verify_token_cases env token w) as [(ui & E)|(d & E)].
  - destruct (get_user_session_spec ui w) as (w1 & Hg & _).
    unfold ask_question, bind, session_read. rewrite !E, !Hg.
    destruct (retriever (session_of w1 (info_user_id ui))) as [r|];
      [|repeat split].
    unfold try_except, ask_answer. simpl rag_type. simpl question.
    rewrite (run_chain_default tag) by assumption.
    rewrite (run_chain_default "basic") by discriminate.
    destruct (BasicRAG_writer env r (llm (session_of w1 (info_user_id ui)))
                (Py.strip q)) as (l & res & Hc).
    unfold bind, logger, call, execute_insert_conversations, commit, ret.
    rewrite !Hc. simpl.
    destruct res as [e|a]; simpl; [repeat split|].
    destruct (get_relevant_documents env r _) as [msg|docs]; simpl;
      [repeat split|].
    destruct (sqlite_error env InsertConversations); simpl; [repeat split|].
    destruct (document_id _) as [d|]; simpl; [|repeat split].
    destruct (sqlite_error env CommitConversations); simpl; [repeat split|].
    repeat split. rewrite !List.map_app. reflexivity.
  - unfold ask_question, bind. rewrite E. simpl. repeat split.
Qed.

End Ask.

(** The statement of C9 at a question asked with the Multi-Query tag. *)
Lemma ask_sources_from_fresh_retrieval_witness :
  snd (ask_question sample_env
         {| question := " What is this about? "; rag_type := "multi_query" |}
         (Some "t"%string) ready_world)
  = Return {| answer := "42";
              sources := ["alpha..."%string; "beta..."%string;
                          "gamma..."%string] |}
  /\ exists ui r docs,
       snd (verify_token sample_env (Some "t"%string) ready_world) = Return ui
       /\ retriever (session_of ready_world (info_user_id ui)) = Some r
       /\ get_relevant_documents sample_env r
            (Py.strip " What is this about? ") = Ok docs
       /\ ["alpha..."%string; "beta..."%string; "gamma..."%string]
          = map preview (firstn 3 docs)
       /\ (List.length ["alpha..."%string; "beta..."%string; "gamma..."%string]
           <= 3)%nat
       /\ Forall (fun p => (String.length p <= 203)%nat)
            ["alpha..."%string; "beta..."%string; "gamma..."%string].
Proof.
  split; [reflexivity|].
  apply (ask_sources_from_fresh_retrieval sample_env
           {| question := " What is this about? "; rag_type := "multi_query" |}
           (Some "t"%string) ready_world
           {| answer := "42";
              sources := ["alpha..."%string; "beta..."%string;
                          "gamma..."%string] |}).
  reflexivity.
Defined.

(** The statement of C6 at the tag ["semantic"]. *)
Lemma ask_unrecognized_tag_is_basic_witness :
  snd (ask_question sample_env
         {| question := "What is this about?"; rag_type := "semantic" |}
         (Some "t"%string) ready_world)
  = snd (ask_question sample_env
           {| question := "What is this about?"; rag_type := "basic" |}
           (Some "t"%string) ready_world)
  /\ snd (ask_question sample_env
            {| question := "What is this about?"; rag_type := "semantic" |}
            (Some "t"%string) ready_world)
     = Return {| answer := "42";
                 sources := ["alpha..."%string; "beta..."%string;
                             "gamma..."%string] |}.
Proof.
  split; [|reflexivity].
  apply (ask_unrecognized_tag_is_basic sample_env "What is this about?"
           "semantic" (Some "t"%string) ready_world);
    discriminate.
Defined.

(** What [get_unique_docs] keeps of two documents with one text is the
    later document, at the place of the earlier one. *)
Example get_unique_docs_keeps_latest_document :
  MultiQueryRAG.get_unique_docs
    [[ {| page_content := "a"; metadata := [("query"%string, "1"%string)] |};
       {| page_content := "b"; metadata := [("query"%string, "1"%string)] |} ];
     [ {| page_content := "c"; metadata := [("query"%string, "2"%string)] |};
       {| page_content := "a"; metadata := [("query"%string, "2"%string)] |} ]]
  = [ {| page_content := "a"; metadata := [("query"%string, "2"%string)] |};
      {| page_content := "b"; metadata := [("query"%string, "1"%string)] |};
      {| page_content := "c"; metadata := [("query"%string, "2"%string)] |} ].
Proof. reflexivity. Qed.

(* ===================================================================== *)
(** ** Registration and login *)
(* ===================================================================== *)

Section Accounts.

Variable env : Env.
Variable aenv : AuthEnv.

Lemma existsb_token_false tok rows :
  existsb (fun s => String.eqb (sessions_token s) tok) rows = false ->
  forall s, In s rows -> sessions_token s <> tok.
Proof.
  intros H s Hs E.
  assert (Ht : existsb (fun s => String.eqb (sessions_token s) tok) rows = true).
  { apply existsb_exists. exists s. split; [exact Hs|].
    apply String.eqb_eq, E. }
  congruence.
Qed.

Lemma select_users_taken_nil d username email :
  select_users_taken d username email = [] ->
  forall u, In u (tbl_users d) ->
    users_username u <> username /\ users_email u <> email.
Proof.
  unfold select_users_taken. intros H u Hu.
  destruct (String.eqb (users_username u) username
            || String.eqb (users_email u) email) eqn:E.
  - exfalso.
    assert (Hin : In (users_id u)
                    (map users_id
                       (List.filter
                          (fun u => String.eqb (users_username u) username
                                    || String.eqb (users_email u) email)
                          (tbl_users d)))).
    { apply in_map, List.filter_In. split; assumption. }
    rewrite H in Hin. exact Hin.
  - apply orb_false_iff in E. destruct E as [E1 E2].
    apply String.eqb_neq in E1, E2. split; assumption.
Qed.

Lemma select_users_taken_cons d username email u :
  In u (tbl_users d) ->
  users_username u = username \/ users_email u = email ->
  select_users_taken d username email <> [].
Proof.
  intros Hu Hm H. destruct (select_users_taken_nil _ _ _ H u Hu). tauto.
Qed.

(** [register] returns only when neither the user name nor the e-mail
    address is in use and the drawn token is not stored yet; it then adds
    one user row, holding the digest of the password, and one session row
    for that user expiring seven days after the request, and answers with
    the token.  When the name or the address is in use it raises the 400
    conflict (unless the lookup itself failed).  Every failure is that 400
    or the 500 of the handler, and leaves the world as it was: no user row
    stays behind without the commit. *)
Lemma register_spec (request : RegisterRequest) (w : World) :
  match snd (register env aenv request w) with
  | Return resp =>
      select_users_taken (db w) (register_username request)
        (register_email request) = []
      /\ (forall s, In s (tbl_sessions (db w)) ->
            sessions_token s <> token_urlsafe aenv)
      /\ fst (register env aenv request w)
         = with_db
             (with_sessions
                (tbl_sessions (db w)
                 ++ [issued_session env aenv
                       (users_id (registered_user aenv request (db w)))])
                (with_users
                   (tbl_users (db w) ++ [registered_user aenv request (db w)])
                   (db w)))
             w
      /\ resp = {| auth_token := token_urlsafe aenv;
                   auth_username := register_username request;
                   auth_email := register_email request;
                   auth_message := "Đăng ký thành công!" |}
  | Raise e =>
      fst (register env aenv request w) = w
      /\ (e = HTTPException 400 "Username hoặc email đã tồn tại"
          \/ e = HTTPException 500 "Đăng ký thất bại")
  end
  /\ (auth_sqlite_error aenv SelectUsers = None ->
      select_users_taken (db w) (register_username request)
        (register_email request) <> [] ->
      snd (register env aenv request w)
      = Raise (HTTPException 400 "Username hoặc email đã tồn tại")).
Proof.
  unfold register, try_except, register_try, auth_commit, bind, connect,
    auth_execute, call, insert_users, insert_sessions, raise, ret,
    auth_except, hash_password, generate_token.
  destruct (auth_sqlite_error aenv SelectUsers); simpl.
  { split; [split; [reflexivity|right; reflexivity]|discriminate]. }
  destruct (select_users_taken _ _ _) as [|i rest] eqn:Hsel; simpl.
  2:{ split; [split; [reflexivity|left; reflexivity]|intros; reflexivity]. }
  split; [|congruence].
  destruct (auth_sqlite_error aenv InsertUsers); simpl;
    [split; [reflexivity|right; reflexivity]|].
  destruct (existsb _ (tbl_users (db w))); simpl;
    [split; [reflexivity|right; reflexivity]|].
  destruct (existsb _ (tbl_users (db w))); simpl;
    [split; [reflexivity|right; reflexivity]|].
  destruct (auth_sqlite_error aenv InsertSessions); simpl;
    [split; [reflexivity|right; reflexivity]|].
  destruct (existsb _ (tbl_sessions (db w))) eqn:Htok; simpl;
    [split; [reflexivity|right; reflexivity]|].
  destruct (auth_sqlite_error aenv CommitSession); simpl;
    [split; [reflexivity|right; reflexivity]|].
  split; [reflexivity|]. split; [apply existsb_token_false, Htok|].
  split; reflexivity.
Qed.

(** [login] returns only for a stored user whose name and password
    digest both match; it then adds one session row for that user, expiring
    seven days after the request, changes nothing else, and answers with the
    token and the stored name and address.  When no row matches, whether the
    name is unknown or the password is wrong, it raises one and the same 401
    (unless the lookup itself failed).  Every failure is that 401 or the 500
    of the handler, and leaves the world as it was. *)
Lemma login_spec (request : LoginRequest) (w : World) :
  match snd (login env aenv request w) with
  | Return resp =>
      exists u,
        In u (tbl_users (db w))
        /\ users_username u = login_username request
        /\ users_password_hash u
           = hash_password aenv (login_password request)
        /\ (forall s, In s (tbl_sessions (db w)) ->
              sessions_token s <> token_urlsafe aenv)
        /\ fst (login env aenv request w)
           = with_db
               (with_sessions
                  (tbl_sessions (db w)
                   ++ [issued_session env aenv (users_id u)])
                  (db w))
               w
        /\ resp = {| auth_token := token_urlsafe aenv;
                     auth_username := users_username u;
                     auth_email := users_email u;
                     auth_message := "Đăng nhập thành công!" |}
  | Raise e =>
      fst (login env aenv request w) = w
      /\ (e = HTTPException 401 "Tên đăng nhập hoặc mật khẩu không đúng"
          \/ e = HTTPException 500 "Đăng nhập thất bại")
  end
  /\ (auth_sqlite_error aenv SelectUsers = None ->
      (forall u, In u (tbl_users (db w)) ->
         users_username u <> login_username request
         \/ users_password_hash u
            <> hash_password aenv (login_password request)) ->
      snd (login env aenv request w)
      = Raise (HTTPException 401 "Tên đăng nhập hoặc mật khẩu không đúng")).
Proof.
  unfold login, try_except, login_try, auth_commit, bind, connect,
    auth_execute, call, insert_sessions, raise, ret, auth_except,
    generate_token.
  destruct (auth_sqlite_error aenv SelectUsers); simpl.
  { split; [split; [reflexivity|right; reflexivity]|discriminate]. }
  unfold select_users_login.
  destruct (List.filter _ (tbl_users (db w))) as [|u rest] eqn:Hsel; simpl.
  { split; [split; [reflexivity|left; reflexivity]|intros; reflexivity]. }
  assert (Hu : In u (List.filter
                       (fun u => String.eqb (users_username u)
                                   (login_username request)
                                 && String.eqb (users_password_hash u)
                                      (hash_password aenv
                                         (login_password request)))
                       (tbl_users (db w))))
    by (rewrite Hsel; left; reflexivity).
  apply List.filter_In in Hu. destruct Hu as [Hu Hm].
  apply andb_true_iff in Hm. destruct Hm as [Hn Hp].
  apply String.eqb_eq in Hn, Hp.
  split.
  2:{ intros _ Hnone. destruct (Hnone u Hu); contradiction. }
  destruct (auth_sqlite_error aenv InsertSessions); simpl;
    [split; [reflexivity|right; reflexivity]|].
  destruct (existsb _ (tbl_sessions (db w))) eqn:Htok; simpl;
    [split; [reflexivity|right; reflexivity]|].
  destruct (auth_sqlite_error aenv CommitSession); simpl;
    [split; [reflexivity|right; reflexivity]|].
  exists u. split; [exact Hu|]. split; [exact Hn|]. split; [exact Hp|].
  split; [apply existsb_token_false, Htok|]. split; reflexivity.
Qed.

Lemma register_Return request w resp :
  snd (register env aenv request w) = Return resp ->
  select_users_taken (db w) (register_username request)
    (register_email request) = []
  /\ (forall s, In s (tbl_sessions (db w)) ->
        sessions_token s <> token_urlsafe aenv)
  /\ tbl_users (db (fst (register env aenv request w)))
     = tbl_users (db w) ++ [registered_user aenv request (db w)]
  /\ tbl_sessions (db (fst (register env aenv request w)))
     = tbl_sessions (db w)
       ++ [issued_session env aenv
             (users_id (registered_user aenv request (db w)))]
  /\ tbl_documents (db (fst (register env aenv request w)))
     = tbl_documents (db w)
  /\ tbl_conversations (db (fst (register env aenv request w)))
     = tbl_conversations (db w)
  /\ user_sessions (fst (register env aenv request w)) = user_sessions w
  /\ resp = {| auth_token := token_urlsafe aenv;
               auth_username := register_username request;
               auth_email := register_email request;
               auth_message := "Đăng ký thành công!" |}.
Proof.
  intros Hr. destruct (register_spec request w) as [H _].
  rewrite Hr in H. destruct H as (Hsel & Htok & Hw & Hresp).
  rewrite Hw. simpl. repeat split; assumption.
Qed.

Lemma login_Return request w resp :
  snd (login env aenv request w) = Return resp ->
  exists u,
    In u (tbl_users (db w))
    /\ users_username u = login_username request
    /\ users_password_hash u = hash_password aenv (login_password request)
    /\ (forall s, In s (tbl_sessions (db w)) ->
          sessions_token s <> token_urlsafe aenv)
    /\ tbl_users (db (fst (login env aenv request w))) = tbl_users (db w)
    /\ tbl_sessions (db (fst (login env aenv request w)))
       = tbl_sessions (db w) ++ [issued_session env aenv (users_id u)]
    /\ tbl_documents (db (fst (login env aenv request w)))
       = tbl_documents (db w)
    /\ tbl_conversations (db (fst (login env aenv request w)))
       = tbl_conversations (db w)
    /\ user_sessions (fst (login env aenv request w)) = user_sessions w
    /\ resp = {| auth_token := token_urlsafe aenv;
                 auth_username := users_username u;
                 auth_email := users_email u;
                 auth_message := "Đăng nhập thành công!" |}.
Proof.
  intros Hr. destruct (login_spec request w) as [H _].
  rewrite Hr in H. destruct H as (u & Hu & Hn & Hp & Htok & Hw & Hresp).
  exists u. rewrite Hw. simpl. repeat split; assumption.
Qed.

(** X1.  [register] returns only when neither the user name nor the e-mail
    address is in use and the drawn token is not stored yet; it then adds
    exactly one user row, holding the digest of the password, and one
    session row for that user expiring seven days after the request, and
    answers with the token.  When the name or the address is in use it
    raises the 400 conflict (unless the lookup itself failed).  Every failure
    is that 400 or the handler's 500 and leaves the database and the session
    registry as they were: no user row stays behind without the commit. *)
Theorem register_outcome (request : RegisterRequest) (w : World) :
  (forall resp, snd (register env aenv request w) = Return resp ->
     (forall u, In u (tbl_users (db w)) ->
        users_username u <> register_username request
        /\ users_email u <> register_email request)
     /\ (forall s, In s (tbl_sessions (db w)) ->
           sessions_token s <> token_urlsafe aenv)
     /\ tbl_users (db (fst (register env aenv request w)))
        = tbl_users (db w) ++ [registered_user aenv request (db w)]
     /\ tbl_sessions (db (fst (register env aenv request w)))
        = tbl_sessions (db w)
          ++ [issued_session env aenv
                (users_id (registered_user aenv request (db w)))]
     /\ auth_token resp = token_urlsafe aenv
     /\ auth_username resp = register_username request
     /\ auth_email resp = register_email request)
  /\ (forall e, snd (register env aenv request w) = Raise e ->
        db (fst (register env aenv request w)) = db w
        /\ user_sessions (fst (register env aenv request w)) = user_sessions w
        /\ (e = HTTPException 400 "Username hoặc email đã tồn tại"
            \/ e = HTTPException 500 "Đăng ký thất bại"))
  /\ (forall u, In u (tbl_users (db w)) ->
        users_username u = register_username request
        \/ users_email u = register_email request ->
        auth_sqlite_error aenv SelectUsers = None ->
        snd (register env aenv request w)
        = Raise (HTTPException 400 "Username hoặc email đã tồn tại")).
Proof.
  split; [|split].
  - intros resp Hr. apply register_Return in Hr.
    destruct Hr as (Hsel & Htok & Hu & Hs & _ & _ & _ & ->).
    split; [apply select_users_taken_nil, Hsel|]. split; [exact Htok|].
    repeat split; assumption.
  - intros e He. destruct (register_spec request w) as [H _].
    rewrite He in H. destruct H as [-> H]. repeat split. exact H.
  - intros u Hu Hm Hok. destruct (register_spec request w) as [_ H].
    apply H; [exact Hok|]. eapply select_users_taken_cons; eassumption.
Qed.

(** X2.  [login] returns only for a stored user whose name and password
    digest both match; it then adds one session row for that user, expiring
    seven days after the request, leaves the users table alone, and answers
    with the token and the stored name and address.  When no row matches,
    whether the name is unknown or the password is wrong, it raises one and
    the same 401 (unless the lookup itself failed).  Every failure is that
    401 or the handler's 500 and leaves the database and the session registry
    as they were. *)
Theorem login_outcome (request : LoginRequest) (w : World) :
  (forall resp, snd (login env aenv request w) = Return resp ->
     exists u,
       In u (tbl_users (db w))
       /\ users_username u = login_username request
       /\ users_password_hash u
          = hash_password aenv (login_password request)
       /\ tbl_users (db (fst (login env aenv request w))) = tbl_users (db w)
       /\ tbl_sessions (db (fst (login env aenv request w)))
          = tbl_sessions (db w) ++ [issued_session env aenv (users_id u)]
       /\ auth_token resp = token_urlsafe aenv
       /\ auth_username resp = users_username u
       /\ auth_email resp = users_email u)
  /\ (forall e, snd (login env aenv request w) = Raise e ->
        db (fst (login env aenv request w)) = db w
        /\ user_sessions (fst (login env aenv request w)) = user_sessions w
        /\ (e = HTTPException 401 "Tên đăng nhập hoặc mật khẩu không đúng"
            \/ e = HTTPException 500 "Đăng nhập thất bại"))
  /\ ((forall u, In u (tbl_users (db w)) ->
         users_username u <> login_username request
         \/ users_password_hash u
            <> hash_password aenv (login_password request)) ->
      auth_sqlite_error aenv SelectUsers = None ->
      snd (login env aenv request w)
      = Raise (HTTPException 401 "Tên đăng nhập hoặc mật khẩu không đúng")).
Proof.
  split; [|split].
  - intros resp Hr. apply login_Return in Hr.
    destruct Hr as (u & Hu & Hn & Hp & _ & Hus & Hs & _ & _ & _ & ->).
    exists u. repeat split; assumption.
  - intros e He. destruct (login_spec request w) as [H _].
    rewrite He in H. destruct H as [-> H]. repeat split. exact H.
  - intros Hnone Hok. destruct (login_spec request w) as [_ H].
    apply H; assumption.
Qed.

End Accounts.

(* ===================================================================== *)
(** ** Tokens across registration, login and logout *)
(* ===================================================================== *)

Section IssuedTokens.

Variable env : Env.
Variable aenv : AuthEnv.

Lemma select_session_user_rows d token t :
  select_session_user d token t
  = flat_map (session_rows (tbl_users d) token t) (tbl_sessions d).
Proof. reflexivity. Qed.

Lemma flat_map_nil {A B} (f : A -> list B) (l : list A) :
  (forall x, In x l -> f x = []) -> flat_map f l = [].
Proof.
  induction l as [|a l IH]; intros H; simpl; [reflexivity|].
  rewrite (H a) by (left; reflexivity). apply IH. intros x Hx. apply H.
  right. exact Hx.
Qed.

Lemma flat_map_ext_in {A B} (f g : A -> list B) (l : list A) :
  (forall x, In x l -> f x = g x) -> flat_map f l = flat_map g l.
Proof.
  induction l as [|a l IH]; intros H; simpl; [reflexivity|].
  rewrite (H a) by (left; reflexivity). f_equal. apply IH. intros x Hx.
  apply H. right. exact Hx.
Qed.

Lemma session_rows_other_token users token t s :
  sessions_token s <> token -> session_rows users token t s = [].
Proof.
  intros Hne. unfold session_rows. apply flat_map_nil. intros u _.
  apply String.eqb_neq in Hne. rewrite Hne, andb_false_r. reflexivity.
Qed.

Lemma session_rows_app us us' token t s :
  session_rows (us ++ us') token t s
  = session_rows us token t s ++ session_rows us' token t s.
Proof. unfold session_rows. apply flat_map_app. Qed.

Lemma session_rows_no_user users token t s :
  (forall u, In u users -> users_id u <> sessions_user_id s) ->
  session_rows users token t s = [].
Proof.
  intros Hne. unfold session_rows. apply flat_map_nil. intros u Hu.
  destruct (sessions_user_id s =? users_id u) eqn:E; [|reflexivity].
  apply Z.eqb_eq in E. destruct (Hne u Hu). congruence.
Qed.

Lemma session_rows_unique_user users token t s u :
  List.NoDup (map users_id users) -> In u users ->
  users_id u = sessions_user_id s -> sessions_token s = token ->
  session_rows users token t s
  = if t <? sessions_expires_at s
    then [(users_id u, users_username u, users_email u, sessions_expires_at s)]
    else [].
Proof.
  intros Hnd Hu Hid <-. unfold session_rows.
  induction users as [|u0 users IH]; [destruct Hu|].
  simpl in Hnd. apply List.NoDup_cons_iff in Hnd. destruct Hnd as [Hfresh Hnd].
  simpl. destruct Hu as [->|Hu].
  - rewrite Hid, Z.eqb_refl, String.eqb_refl. simpl.
    rewrite flat_map_nil.
    + destruct (t <? sessions_expires_at s); reflexivity.
    + intros u' Hu'.
      destruct (sessions_user_id s =? users_id u') eqn:E; [|reflexivity].
      apply Z.eqb_eq in E. exfalso. apply Hfresh. rewrite Hid, E.
      apply in_map, Hu'.
  - assert (Hne : (sessions_user_id s =? users_id u0) = false).
    { apply Z.eqb_neq. intros E. apply Hfresh. rewrite <- E, <- Hid.
      apply in_map, Hu. }
    rewrite Hne. simpl. apply IH; assumption.
Qed.

Lemma next_rowid_bound ids x : In x ids -> x < next_rowid ids.
Proof.
  unfold next_rowid. induction ids as [|i ids IH]; simpl; [tauto|].
  intros [->|H]; [lia|]. specialize (IH H). lia.
Qed.

Lemma next_rowid_fresh ids : ~ In (next_rowid ids) ids.
Proof. intros H. apply next_rowid_bound in H. lia. Qed.

Lemma verify_token_select env' t w :
  t <> ""%string ->
  snd (verify_token env' (Some t) w)
  = match select_session_user (db w) t (now env') with
    | [] => Raise token_invalid
    | (uid, uname, mail, _) :: _ =>
        Return {| info_user_id := uid; info_username := uname;
                  info_email := mail |}
    end.
Proof.
  intros Hne. unfold verify_token. rewrite (truthy_nonempty _ Hne). simpl.
  destruct (select_session_user _ _ _) as [|[[[? ?] ?] ?] ?]; reflexivity.
Qed.

(** The query of [verify_token] once rows have been appended to both tables,
    none of the old sessions referring to a new user. *)
Lemma select_session_user_grown d d' us' ss' token t :
  tbl_users d' = tbl_users d ++ us' ->
  tbl_sessions d' = tbl_sessions d ++ ss' ->
  (forall s u, In s (tbl_sessions d) -> In u us' ->
     users_id u <> sessions_user_id s) ->
  select_session_user d' token t
  = select_session_user d token t
    ++ flat_map (session_rows (tbl_users d') token t) ss'.
Proof.
  intros Hu Hs Hfresh. rewrite !select_session_user_rows, Hs, flat_map_app.
  f_equal. apply flat_map_ext_in. intros s Hin.
  rewrite Hu, session_rows_app.
  rewrite (session_rows_no_user us'), app_nil_r; [reflexivity|].
  intros u Hu'. apply Hfresh; assumption.
Qed.

Lemma verify_token_grown env' token w w' us' ss' ui :
  tbl_users (db w') = tbl_users (db w) ++ us' ->
  tbl_sessions (db w') = tbl_sessions (db w) ++ ss' ->
  (forall s u, In s (tbl_sessions (db w)) -> In u us' ->
     users_id u <> sessions_user_id s) ->
  snd (verify_token env' token w) = Return ui ->
  snd (verify_token env' token w') = Return ui.
Proof.
  intros Hu Hs Hfresh Hv. unfold verify_token in *.
  destruct (Py.truthy token); simpl in *; [|discriminate].
  rewrite (select_session_user_grown (db w) (db w') us' ss') by assumption.
  destruct (select_session_user (db w) _ _) as [|[[[? ?] ?] ?] ?];
    simpl in *; [discriminate|exact Hv].
Qed.

(** X3.  The token [register] returns validates at once: on the world the
    registration leaves, [verify_token] accepts it at every time before the
    seventh day after the request and returns the new user's id, name and
    address; from that time on it raises the 401. *)
Theorem register_token_validates (request : RegisterRequest) (w : World)
  (resp : AuthResponse) (env' : Env) :
  token_urlsafe aenv <> ""%string ->
  snd (register env aenv request w) = Return resp ->
  snd (verify_token env' (Some (auth_token resp))
         (fst (register env aenv request w)))
  = if now env' <? now env + timedelta_days 7
    then Return {| info_user_id := next_rowid (map users_id (tbl_users (db w)));
                   info_username := register_username request;
                   info_email := register_email request |}
    else Raise token_invalid.
Proof.
  intros Hne Hr. apply register_Return in Hr.
  destruct Hr as (_ & Htok & Hu & Hs & _ & _ & _ & ->). simpl.
  rewrite verify_token_select by exact Hne.
  rewrite select_session_user_rows, Hs, Hu, flat_map_app.
  rewrite flat_map_nil.
  2:{ intros s Hin. apply session_rows_other_token, Htok, Hin. }
  simpl. rewrite app_nil_r, session_rows_app.
  rewrite session_rows_no_user.
  2:{ intros u Hin E. simpl in E.
      apply (next_rowid_fresh (map users_id (tbl_users (db w)))).
      rewrite <- E. apply in_map, Hin. }
  unfold session_rows. simpl. rewrite Z.eqb_refl, String.eqb_refl. simpl.
  destruct (now env' <? now env + timedelta_days 7); reflexivity.
Qed.

(** X4.  The token [login] returns validates at once, provided user ids are
    unique as the primary key makes them: before the seventh day after the
    request [verify_token] returns the identity of the user who logged in,
    with the name and address of the answer; from then on it raises the
    401. *)
Theorem login_token_validates (request : LoginRequest) (w : World)
  (resp : AuthResponse) (env' : Env) :
  List.NoDup (map users_id (tbl_users (db w))) ->
  token_urlsafe aenv <> ""%string ->
  snd (login env aenv request w) = Return resp ->
  exists uid,
    snd (verify_token env' (Some (auth_token resp))
           (fst (login env aenv request w)))
    = if now env' <? now env + timedelta_days 7
      then Return {| info_user_id := uid;
                     info_username := auth_username resp;
                     info_email := auth_email resp |}
      else Raise token_invalid.
Proof.
  intros Hnd Hne Hr. apply login_Return in Hr.
  destruct Hr as (u & Hin & _ & _ & Htok & Hu & Hs & _ & _ & _ & ->).
  exists (users_id u). simpl.
  rewrite verify_token_select by exact Hne.
  rewrite select_session_user_rows, Hs, Hu, flat_map_app.
  rewrite flat_map_nil.
  2:{ intros s Hs'. apply session_rows_other_token, Htok, Hs'. }
  simpl. rewrite app_nil_r.
  rewrite (session_rows_unique_user _ _ _ _ u) by (assumption || reflexivity).
  simpl. destruct (now env' <? now env + timedelta_days 7); reflexivity.
Qed.

(** X5.  Issuing a token invalidates none: a token [verify_token] accepts
    before a successful [login] is accepted after it, with the same
    identity; the same holds across a successful [register] when every
    stored session refers to a stored user. *)
Theorem issued_tokens_stay_valid (w : World) (token : option string)
  (env' : Env) (ui : UserInfo) :
  snd (verify_token env' token w) = Return ui ->
  (forall request resp,
     snd (login env aenv request w) = Return resp ->
     snd (verify_token env' token (fst (login env aenv request w)))
     = Return ui)
  /\ (forall request resp,
        (forall s, In s (tbl_sessions (db w)) ->
           exists u, In u (tbl_users (db w))
             /\ users_id u = sessions_user_id s) ->
        snd (register env aenv request w) = Return resp ->
        snd (verify_token env' token (fst (register env aenv request w)))
        = Return ui).
Proof.
  intros Hv. split.
  - intros request resp Hr. apply login_Return in Hr.
    destruct Hr as (u & _ & _ & _ & _ & Hu & Hs & _).
    apply (verify_token_grown env' token w _ [] [issued_session env aenv (users_id u)]);
      try assumption.
    + rewrite Hu, app_nil_r. reflexivity.
    + intros s u' _ [].
  - intros request resp Href Hr. apply register_Return in Hr.
    destruct Hr as (_ & _ & Hu & Hs & _).
    eapply verify_token_grown; try eassumption.
    intros s u' Hs' [<-|[]] E. simpl in E.
    destruct (Href s Hs') as (u & Hin & Hid).
    apply (next_rowid_fresh (map users_id (tbl_users (db w)))).
    rewrite E, <- Hid. apply in_map, Hin.
Qed.

(** X6.  [logout] only ends the token it is given: whatever it does, any
    other token is accepted or refused by [verify_token] afterwards exactly
    as before. *)
Theorem logout_keeps_other_tokens (token other : option string) (w : World)
  (env' : Env) :
  other <> token ->
  snd (verify_token env' other (fst (logout env token w)))
  = snd (verify_token env' other w).
Proof.
  intros Hne. unfold logout, bind.
  destruct (verify_token_cases env token w) as [(ui & E)|(d & E)];
    rewrite E; simpl; [|reflexivity].
  unfold verify_token. destruct (Py.truthy other) eqn:Ht; simpl;
    [|reflexivity].
  apply truthy_Some in Ht. destruct Ht as (t' & -> & _). simpl.
  assert (Hsel : select_session_user
                   (with_sessions
                      (List.filter
                         (fun s =>
                            match token with
                            | Some t => negb (String.eqb (sessions_token s) t)
                            | None => true
                            end)
                         (tbl_sessions (db w)))
                      (db w)) t' (now env')
                 = select_session_user (db w) t' (now env')).
  { rewrite !select_session_user_rows. simpl.
    induction (tbl_sessions (db w)) as [|s ss IH]; simpl; [reflexivity|].
    destruct token as [t|]; simpl.
    - destruct (String.eqb (sessions_token s) t) eqn:Es; simpl.
      + apply String.eqb_eq in Es.
        rewrite (session_rows_other_token _ t' _ s) by congruence.
        simpl. exact IH.
      + f_equal. exact IH.
    - f_equal. exact IH. }
  rewrite Hsel.
  destruct (select_session_user (db w) t' (now env')) as [|[[[? ?] ?] ?] ?];
    reflexivity.
Qed.

End IssuedTokens.

Section AccountRoundTrip.

Variable env : Env.
Variable aenv : AuthEnv.

Lemma filter_snoc_only {A} (f : A -> bool) (l : list A) (a : A) :
  (forall x, In x l -> f x = false) -> f a = true ->
  List.filter f (l ++ [a]) = [a].
Proof.
  intros Hl Ha. rewrite List.filter_app, (filter_none f l Hl). simpl.
  rewrite Ha. reflexivity.
Qed.

(** X7.  What [register] stores, [login] finds: after a successful
    registration, a login with the same name and password, digested by the
    same function, returns with the registered name and address, provided
    its own token is a new one and none of its statements fails. *)
Theorem register_then_login (request : RegisterRequest) (w : World)
  (resp : AuthResponse) (env' : Env) (aenv' : AuthEnv) :
  snd (register env aenv request w) = Return resp ->
  sha256_hexdigest aenv' (register_password request)
  = sha256_hexdigest aenv (register_password request) ->
  (forall step, auth_sqlite_error aenv' step = None) ->
  token_urlsafe aenv' <> token_urlsafe aenv ->
  (forall s, In s (tbl_sessions (db w)) ->
     sessions_token s <> token_urlsafe aenv') ->
  snd (login env' aenv'
         {| login_username := register_username request;
            login_password := register_password request |}
         (fst (register env aenv request w)))
  = Return {| auth_token := token_urlsafe aenv';
              auth_username := register_username request;
              auth_email := register_email request;
              auth_message := "Đăng nhập thành công!" |}.
Proof.
  intros Hr Hhash Hok Hnew Hfresh. apply register_Return in Hr.
  destruct Hr as (Hsel & _ & Hu & Hs & _ & _ & _ & _).
  unfold login, try_except, login_try, auth_commit, bind, connect,
    auth_execute, call, insert_sessions, raise, ret, auth_except,
    generate_token, hash_password, select_users_login.
  rewrite !Hok. simpl. rewrite Hu, Hs.
  rewrite filter_snoc_only.
  - simpl.
    assert (Htok : existsb
                     (fun s => String.eqb (sessions_token s)
                                 (token_urlsafe aenv'))
                     (tbl_sessions (db w)
                      ++ [issued_session env aenv
                            (users_id (registered_user aenv request (db w)))])
                   = false).
    { rewrite existsb_app. simpl. apply orb_false_iff. split.
      - destruct (existsb _ (tbl_sessions (db w))) eqn:E; [|reflexivity].
        apply existsb_exists in E. destruct E as (s & Hin & E).
        apply String.eqb_eq in E. destruct (Hfresh s Hin E).
      - rewrite orb_false_r. apply String.eqb_neq. congruence. }
    cbn [users_id registered_user] in Htok. rewrite Htok. reflexivity.
  - intros u Hin.
    destruct (select_users_taken_nil _ _ _ Hsel u Hin) as [Hn _].
    apply String.eqb_neq in Hn. simpl. rewrite Hn. reflexivity.
  - simpl. rewrite String.eqb_refl, Hhash. unfold hash_password.
    rewrite String.eqb_refl. reflexivity.
Qed.

Lemma NoDup_snoc {A} (l : list A) (a : A) :
  List.NoDup l -> ~ In a l -> List.NoDup (l ++ [a]).
Proof.
  induction l as [|x l IH]; intros Hnd Ha; simpl.
  - constructor; [intros []|constructor].
  - apply List.NoDup_cons_iff in Hnd. destruct Hnd as [Hx Hnd].
    apply List.NoDup_cons_iff. split.
    + intros Hin. apply in_app_or in Hin. destruct Hin as [Hin|[<-|[]]].
      * contradiction.
      * apply Ha. left. reflexivity.
    + apply IH; [exact Hnd|]. intros Hin. apply Ha. right. exact Hin.
Qed.

Lemma NoDup_map_filter {A B} (f : A -> B) (p : A -> bool) (l : list A) :
  List.NoDup (map f l) -> List.NoDup (map f (List.filter p l)).
Proof.
  induction l as [|x l IH]; simpl; intros Hnd; [constructor|].
  apply List.NoDup_cons_iff in Hnd. destruct Hnd as [Hx Hnd].
  destruct (p x); simpl; [|apply IH, Hnd].
  apply List.NoDup_cons_iff. split; [|apply IH, Hnd].
  intros Hin. apply Hx. apply in_map_iff in Hin.
  destruct Hin as (y & <- & Hy). apply List.filter_In in Hy.
  apply in_map, Hy.
Qed.

Lemma not_in_map_tokens tok rows :
  (forall s, In s rows -> sessions_token s <> tok) ->
  ~ In tok (map sessions_token rows).
Proof.
  intros H Hin. apply in_map_iff in Hin. destruct Hin as (s & E & Hs).
  apply (H s Hs E).
Qed.

(** X8.  The handlers that write users and sessions keep the constraints of
    the schema: if user ids, user names, addresses and tokens are unique,
    every session refers to a stored user and no stored token is empty, the
    same holds after [register], after [login] and after [logout], whatever
    their outcome, as long as the token drawn is not the empty string. *)
Theorem auth_handlers_keep_constraints (w : World) :
  db_wf (db w) -> users_unique (db w) ->
  token_urlsafe aenv <> ""%string ->
  (forall request,
     db_wf (db (fst (register env aenv request w)))
     /\ users_unique (db (fst (register env aenv request w))))
  /\ (forall request,
        db_wf (db (fst (login env aenv request w)))
        /\ users_unique (db (fst (login env aenv request w))))
  /\ (forall token,
        db_wf (db (fst (logout env token w)))
        /\ users_unique (db (fst (logout env token w)))).
Proof.
  intros (Hids & Htoks & Href) (Hnames & Hmails) Hne.
  split; [|split].
  - intros request.
    destruct (snd (register env aenv request w)) as [e|resp] eqn:Hr.
    + destruct (register_spec env aenv request w) as [H _].
      rewrite Hr in H. destruct H as [-> _].
      split; [exact (conj Hids (conj Htoks Href))|exact (conj Hnames Hmails)].
    + apply register_Return in Hr.
      destruct Hr as (Hsel & Htok & Hu & Hs & _ & _ & _ & _).
      pose proof (select_users_taken_nil _ _ _ Hsel) as Hfree.
      split; [split; [|split]|split].
      * rewrite Hu, List.map_app. simpl. apply NoDup_snoc; [exact Hids|].
        apply next_rowid_fresh.
      * rewrite Hs, List.map_app. simpl. apply NoDup_snoc; [exact Htoks|].
        apply not_in_map_tokens, Htok.
      * rewrite Hs, Hu. intros s Hin. apply in_app_or in Hin.
        destruct Hin as [Hin|[<-|[]]].
        -- destruct (Href s Hin) as (Hn & u & Hu' & Hid).
           split; [exact Hn|]. exists u. split; [|exact Hid].
           apply in_or_app. left. exact Hu'.
        -- split; [exact Hne|]. eexists. split; [|reflexivity].
           apply in_or_app. right. left. reflexivity.
      * rewrite Hu, List.map_app. simpl. apply NoDup_snoc; [exact Hnames|].
        intros Hin. apply in_map_iff in Hin. destruct Hin as (u & E & Hin).
        destruct (Hfree u Hin). contradiction.
      * rewrite Hu, List.map_app. simpl. apply NoDup_snoc; [exact Hmails|].
        intros Hin. apply in_map_iff in Hin. destruct Hin as (u & E & Hin).
        destruct (Hfree u Hin). contradiction.
  - intros request.
    destruct (snd (login env aenv request w)) as [e|resp] eqn:Hr.
    + destruct (login_spec env aenv request w) as [H _].
      rewrite Hr in H. destruct H as [-> _].
      split; [exact (conj Hids (conj Htoks Href))|exact (conj Hnames Hmails)].
    + apply login_Return in Hr.
      destruct Hr as (u & Hin & _ & _ & Htok & Hu & Hs & _).
      split; [split; [|split]|split].
      * rewrite Hu. exact Hids.
      * rewrite Hs, List.map_app. simpl. apply NoDup_snoc; [exact Htoks|].
        apply not_in_map_tokens, Htok.
      * rewrite Hs, Hu. intros s Hs'. apply in_app_or in Hs'.
        destruct Hs' as [Hs'|[<-|[]]]; [apply Href, Hs'|].
        split; [exact Hne|]. exists u. split; [exact Hin|reflexivity].
      * rewrite Hu. exact Hnames.
      * rewrite Hu. exact Hmails.
  - intros token. unfold logout, bind.
    destruct (verify_token_cases env token w) as [(ui & E)|(d & E)];
      rewrite E; simpl.
    + split; [split; [|split]|split]; simpl; try assumption.
      * apply NoDup_map_filter, Htoks.
      * intros s Hs. apply List.filter_In in Hs. apply Href, Hs.
    + split; [exact (conj Hids (conj Htoks Href))|exact (conj Hnames Hmails)].
Qed.

End AccountRoundTrip.

(* ===================================================================== *)
(** ** A successful upload *)
(* ===================================================================== *)

Section UploadSuccess.

Variable env : Env.

(** The second part of the [try] block of [upload_document] when it
    returns, and when it must return. *)
Lemma upload_commit_Return ui session text name kind w resp :
  snd (upload_commit env ui session text name kind w) = Return resp ->
  exists splits vs,
    split_documents env 1000 200 [new_document text name kind] = Ok splits
    /\ from_documents env splits = Ok vs
    /\ (50 <= String.length text)%nat
    /\ db (fst (upload_commit env ui session text name kind w))
       = with_documents
           (tbl_documents (db w)
            ++ [uploaded_row (db w) (info_user_id ui) text name kind splits])
           (db w)
    /\ session_of (fst (upload_commit env ui session text name kind w)) session
       = set_document_id
           (Some (next_rowid (map documents_id (tbl_documents (db w)))))
           (indexed vs (staged text name kind (session_of w session)))
    /\ resp = {| upload_status := "success";
                 upload_message :=
                   ("Successfully processed '" ++ name ++ "'")%string;
                 upload_source := name;
                 upload_source_type := kind;
                 upload_content_length := String.length text;
                 upload_chunks := List.length splits;
                 upload_word_count :=
                   List.length (Py.split_whitespace text) |}.
Proof.
  unfold upload_commit. rewrite too_short_test.
  destruct (String.length text <? 50)%nat eqn:Hlen; [discriminate|].
  apply Nat.ltb_ge in Hlen.
  unfold bind, logger, session_assign, call, execute_insert_documents,
    commit, ret; simpl.
  change {| page_content := text;
            metadata := [("source"%string, name); ("type"%string, kind)] |}
    with (new_document text name kind).
  destruct (split_documents env 1000 200 _) as [e1|splits] eqn:Hsp; simpl;
    [discriminate|].
  destruct (from_documents env splits) as [e2|vs] eqn:Hvs; simpl;
    [discriminate|].
  destruct (sqlite_error env InsertDocuments) as [e3|]; simpl;
    [discriminate|].
  destruct (sqlite_error env CommitDocuments) as [e4|]; simpl;
    [discriminate|].
  intros [= <-]. exists splits, vs.
  split; [reflexivity|]. split; [exact Hvs|]. split; [exact Hlen|].
  split; [reflexivity|]. split; [session_lookup|reflexivity].
Qed.

Lemma upload_commit_succeeds ui session text name kind w splits vs :
  (50 <= String.length text)%nat ->
  split_documents env 1000 200 [new_document text name kind] = Ok splits ->
  from_documents env splits = Ok vs ->
  sqlite_error env InsertDocuments = None ->
  sqlite_error env CommitDocuments = None ->
  exists resp,
    snd (upload_commit env ui session text name kind w) = Return resp.
Proof.
  intros Hlen Hs Hv Hi Hc. unfold upload_commit. rewrite too_short_test.
  apply Nat.ltb_ge in Hlen. rewrite Hlen.
  unfold bind, logger, session_assign, call, execute_insert_documents,
    commit, ret; simpl.
  change {| page_content := text;
            metadata := [("source"%string, name); ("type"%string, kind)] |}
    with (new_document text name kind).
  rewrite Hs. simpl. rewrite Hv. simpl. rewrite Hi. simpl. rewrite Hc. simpl.
  eexists. reflexivity.
Qed.

(** An upload that returns, in the vocabulary of the session setters. *)
Lemma upload_document_Return (file : option UploadFile)
  (url token : option string) (w : World) (resp : UploadResponse) :
  snd (upload_document env file url token w) = Return resp ->
  exists ui text name kind splits vs,
    snd (verify_token env token w) = Return ui
    /\ snd (upload_extract env ui file url w) = Return (text, name, kind)
    /\ (50 <= String.length text)%nat
    /\ split_documents env 1000 200 [new_document text name kind] = Ok splits
    /\ from_documents env splits = Ok vs
    /\ session_of (fst (upload_document env file url token w))
         (info_user_id ui)
       = set_document_id
           (Some (next_rowid (map documents_id (tbl_documents (db w)))))
           (indexed vs
              (staged text name kind (session_of w (info_user_id ui))))
    /\ (forall uid, uid <> info_user_id ui ->
          session_of (fst (upload_document env file url token w)) uid
          = session_of w uid)
    /\ db (fst (upload_document env file url token w))
       = with_documents
           (tbl_documents (db w)
            ++ [uploaded_row (db w) (info_user_id ui) text name kind splits])
           (db w)
    /\ resp = {| upload_status := "success";
                 upload_message :=
                   ("Successfully processed '" ++ name ++ "'")%string;
                 upload_source := name;
                 upload_source_type := kind;
                 upload_content_length := String.length text;
                 upload_chunks := List.length splits;
                 upload_word_count :=
                   List.length (Py.split_whitespace text) |}.
Proof.
  intros Hup.
  destruct (verify_token_cases env token w) as [(ui & E)|(d & E)].
  2:{ unfold upload_document, bind in Hup. rewrite E in Hup. discriminate. }
  destruct (upload_document_run env file url token w ui)
    as (w1 & l & Hs & Hdb & Hrun); [rewrite E; reflexivity|].
  destruct (snd (upload_extract env ui file url w))
    as [e0|[[text name] kind]] eqn:Hx.
  { destruct Hrun as (Hrun & _). rewrite Hrun in Hup. discriminate. }
  rewrite Hrun in *. unfold try_except in *.
  pose proof (upload_commit_spec env ui (info_user_id ui) text name kind
                (with_log (log w1 ++ l) w1)) as Hc.
  pose proof (upload_commit_Return ui (info_user_id ui) text name kind
                (with_log (log w1 ++ l) w1)) as Hret.
  destruct (upload_commit env ui (info_user_id ui) text name kind
              (with_log (log w1 ++ l) w1)) as [w2 [e2|resp']];
    simpl in Hc, Hret, Hup |- *.
  { destruct Hc as (_ & _ & [(-> & _)|(Hnot & _)]); simpl in Hup.
    - discriminate.
    - unfold upload_except in Hup. rewrite Hnot in Hup. discriminate. }
  injection Hup as ->. destruct Hc as (Hother & _).
  destruct (Hret resp eq_refl)
    as (splits & vs & Hsp & Hvs & Hlen & Hdb2 & Hsess & Hresp).
  exists ui, text, name, kind, splits, vs.
  split; [rewrite E; reflexivity|]. split; [exact Hx|].
  split; [exact Hlen|]. split; [exact Hsp|]. split; [exact Hvs|].
  split.
  { rewrite Hsess, Hdb.
    change (session_of (with_log (log w1 ++ l) w1) (info_user_id ui))
      with (session_of w1 (info_user_id ui)).
    rewrite (Hs (info_user_id ui)). reflexivity. }
  split.
  { intros uid Hne. rewrite (Hother uid Hne). apply Hs. }
  split; [rewrite Hdb2; simpl; rewrite Hdb; reflexivity|exact Hresp].
Qed.

(** X9.  An upload that returns has replaced the whole corpus of the user:
    the session holds the one new document, its name and kind, the vector
    store built from its chunks with a retriever of k = 4, and the id of the
    document row just written, whatever it held before; nobody else's
    session changes.  The documents table has gained exactly that one row,
    with the UTF-8 size, chunk count and word count of the text, and the
    answer reports the same name, kind, length, chunk count and word
    count. *)
Theorem upload_success_replaces_corpus (file : option UploadFile)
  (url token : option string) (w : World) (resp : UploadResponse) :
  snd (upload_document env file url token w) = Return resp ->
  exists ui text name kind splits vs,
    snd (verify_token env token w) = Return ui
    /\ snd (upload_extract env ui file url w) = Return (text, name, kind)
    /\ split_documents env 1000 200 [new_document text name kind] = Ok splits
    /\ from_documents env splits = Ok vs
    /\ (let s' :=
          session_of (fst (upload_document env file url token w))
            (info_user_id ui) in
        documents s' = [new_document text name kind]
        /\ source_name s' = Some name
        /\ source_type s' = Some kind
        /\ vectorstore s' = Some vs
        /\ retriever s' = Some (as_retriever vs 4)
        /\ document_id s'
           = Some (next_rowid (map documents_id (tbl_documents (db w)))))
    /\ (forall uid, uid <> info_user_id ui ->
          session_of (fst (upload_document env file url token w)) uid
          = session_of w uid)
    /\ tbl_documents (db (fst (upload_document env file url token w)))
       = tbl_documents (db w)
         ++ [ {| documents_id :=
                   next_rowid (map documents_id (tbl_documents (db w)));
                 documents_user_id := info_user_id ui;
                 documents_filename := name;
                 documents_file_size := Z.of_nat (Py.encoded_length text);
                 documents_chunks := Z.of_nat (List.length splits);
                 documents_word_count :=
                   Z.of_nat (List.length (Py.split_whitespace text));
                 documents_source_type := kind |} ]
    /\ tbl_users (db (fst (upload_document env file url token w)))
       = tbl_users (db w)
    /\ tbl_sessions (db (fst (upload_document env file url token w)))
       = tbl_sessions (db w)
    /\ tbl_conversations (db (fst (upload_document env file url token w)))
       = tbl_conversations (db w)
    /\ upload_source resp = name
    /\ upload_source_type resp = kind
    /\ upload_content_length resp = String.length text
    /\ upload_chunks resp = List.length splits
    /\ upload_word_count resp = List.length (Py.split_whitespace text).
Proof.
  intros Hup. apply upload_document_Return in Hup.
  destruct Hup
    as (ui & text & name & kind & splits & vs & Hv & Hx & _ & Hsp & Hvs
        & Hsess & Hother & Hdb & ->).
  exists ui, text, name, kind, splits, vs.
  split; [exact Hv|]. split; [exact Hx|]. split; [exact Hsp|].
  split; [exact Hvs|]. split; [rewrite Hsess; repeat split|].
  split; [exact Hother|]. rewrite Hdb. repeat split.
Qed.

(** X10.  Nothing but its collaborators can stop an upload: with a token
    that verifies, an extracted text of 50 characters or more (blank ones
    count), and a splitter, an index and a database that answer, the upload
    returns. *)
Theorem upload_succeeds_when_collaborators_do (file : option UploadFile)
  (url token : option string) (w : World) (ui : UserInfo)
  (text name kind : string) (splits : list Document) (vs : Chroma) :
  snd (verify_token env token w) = Return ui ->
  snd (upload_extract env ui file url w) = Return (text, name, kind) ->
  (50 <= String.length text)%nat ->
  split_documents env 1000 200 [new_document text name kind] = Ok splits ->
  from_documents env splits = Ok vs ->
  sqlite_error env InsertDocuments = None ->
  sqlite_error env CommitDocuments = None ->
  exists resp, snd (upload_document env file url token w) = Return resp.
Proof.
  intros Hv Hx Hlen Hsp Hvs Hi Hc.
  destruct (upload_document_run env file url token w ui Hv)
    as (w1 & l & _ & _ & Hrun).
  rewrite Hx in Hrun. rewrite Hrun. unfold try_except.
  destruct (upload_commit_succeeds ui (info_user_id ui) text name kind
              (with_log (log w1 ++ l) w1) splits vs Hlen Hsp Hvs Hi Hc)
    as (resp & Hr).
  destruct (upload_commit env ui (info_user_id ui) text name kind
              (with_log (log w1 ++ l) w1)) as [w2 [e|resp']];
    simpl in Hr |- *; [discriminate|]. eauto.
Qed.

(** What an upload can have done to a session, whatever its outcome. *)
Lemma upload_document_sessions file url token w uid :
  let s := session_of w uid in
  let s' := session_of (fst (upload_document env file url token w)) uid in
  s' = s
  \/ exists text name kind,
       s' = staged text name kind s
       \/ (exists vs, s' = indexed vs (staged text name kind s))
       \/ (exists vs id,
             s' = set_document_id (Some id) (indexed vs (staged text name kind s))).
Proof.
  simpl.
  destruct (verify_token_cases env token w) as [(ui & E)|(d & E)].
  2:{ unfold upload_document, bind. rewrite E. left. reflexivity. }
  destruct (upload_document_run env file url token w ui)
    as (w1 & l & Hs & Hdb & Hrun); [rewrite E; reflexivity|].
  destruct (snd (upload_extract env ui file url w))
    as [e0|[[text name] kind]] eqn:Hx.
  { destruct Hrun as (Hrun & _). rewrite Hrun. left. apply Hs. }
  rewrite Hrun. unfold try_except.
  pose proof (upload_commit_spec env ui (info_user_id ui) text name kind
                (with_log (log w1 ++ l) w1)) as Hc.
  destruct (upload_commit env ui (info_user_id ui) text name kind
              (with_log (log w1 ++ l) w1)) as [w2 [e2|resp']];
    simpl in Hc |- *.
  - destruct Hc as (Hother & _ & Hcase).
    assert (Hw2 : session_of (fst (upload_except e2 w2)) uid
                  = session_of w2 uid).
    { unfold upload_except. destruct (is_HTTPException e2); reflexivity. }
    rewrite Hw2.
    destruct (decide (uid = info_user_id ui)) as [->|Hne].
    + destruct Hcase as [(_ & _ & Hsame)|(_ & _ & Hst)].
      * left. rewrite Hsame. apply Hs.
      * right. exists text, name, kind.
        change (session_of (with_log (log w1 ++ l) w1) (info_user_id ui))
          with (session_of w1 (info_user_id ui)) in Hst.
        rewrite (Hs (info_user_id ui)) in Hst. exact Hst.
    + left. rewrite (Hother uid Hne). apply Hs.
  - destruct Hc as (Hother & _ & vs & id & Hst).
    destruct (decide (uid = info_user_id ui)) as [->|Hne].
    + right. exists text, name, kind. right. right. exists vs, id.
      change (session_of (with_log (log w1 ++ l) w1) (info_user_id ui))
        with (session_of w1 (info_user_id ui)) in Hst.
      rewrite (Hs (info_user_id ui)) in Hst. exact Hst.
    + left. rewrite (Hother uid Hne). apply Hs.
Qed.

End UploadSuccess.

(* ===================================================================== *)
(** ** Clear, status and the shape of a session *)
(* ===================================================================== *)

Section Sessions.

Variable env : Env.

Lemma verify_token_same_tables token w w' :
  tbl_users (db w') = tbl_users (db w) ->
  tbl_sessions (db w') = tbl_sessions (db w) ->
  snd (verify_token env token w') = snd (verify_token env token w).
Proof.
  intros Hu Hs. unfold verify_token.
  destruct (Py.truthy token); simpl; [|reflexivity].
  unfold select_session_user. rewrite Hu, Hs.
  destruct (flat_map _ _) as [|[[[? ?] ?] ?] ?]; reflexivity.
Qed.

Lemma last_error_snoc {A} (l : list A) (a : A) :
  last_error (l ++ [a]) = Some a.
Proof.
  induction l as [|x l IH]; [reflexivity|].
  simpl. destruct (l ++ [a]) eqn:E; [destruct l; discriminate|exact IH].
Qed.

Lemma session_inv_new uid : session_inv uid (new_UserSession uid).
Proof. unfold session_inv. simpl. repeat split; auto. Qed.

Lemma session_inv_clear uid s : session_inv uid s -> session_inv uid (clear s).
Proof.
  intros (Hid & _). unfold session_inv. simpl. repeat split; auto.
Qed.

Lemma session_inv_staged uid text name kind s :
  session_inv uid s -> session_inv uid (staged text name kind s).
Proof.
  intros (Hid & Hr & _ & _ & _ & Hd). unfold session_inv. simpl.
  repeat split; auto; discriminate.
Qed.

Lemma session_inv_indexed uid vs s :
  session_inv uid s -> session_inv uid (indexed vs s).
Proof.
  intros (Hid & _ & Hl & Hn & Ht & _). unfold session_inv. simpl.
  repeat split; auto; try discriminate; try apply Hn; try apply Ht.
Qed.

Lemma session_inv_document_id uid id s :
  session_inv uid s -> vectorstore s <> None ->
  session_inv uid (set_document_id (Some id) s).
Proof.
  intros (Hid & Hr & Hl & Hn & Ht & _) Hv. unfold session_inv. simpl.
  repeat split; auto; try apply Hn; try apply Ht. intros; contradiction.
Qed.

Lemma registry_inv_same w w' :
  (forall uid, session_of w' uid = session_of w uid) ->
  registry_inv w -> registry_inv w'.
Proof. intros H Hinv uid. rewrite H. apply Hinv. Qed.

(** [clear_system], step by step. *)
Lemma clear_system_run token w :
  match snd (verify_token env token w) with
  | Return ui =>
      snd (clear_system env token w)
      = Return "System cleared. Ready to upload new document or URL."%string
      /\ session_of (fst (clear_system env token w)) (info_user_id ui)
         = clear (session_of w (info_user_id ui))
      /\ (forall uid, uid <> info_user_id ui ->
            session_of (fst (clear_system env token w)) uid
            = session_of w uid)
      /\ db (fst (clear_system env token w)) = db w
      /\ log (fst (clear_system env token w)) = log w
  | Raise e => clear_system env token w = (w, Raise e)
  end.
Proof.
  destruct (verify_token_cases env token w) as [(ui & E)|(d & E)];
    rewrite E; simpl.
  - destruct (get_user_session_spec ui w) as (w1 & Hg & Hs & Hdb & Hlog).
    unfold clear_system, bind. rewrite E, Hg. simpl.
    split; [reflexivity|]. split; [|split; [|split; assumption]].
    + rewrite <- (Hs (info_user_id ui)). session_lookup.
    + intros uid Hne. rewrite <- (Hs uid). session_lookup.
  - unfold clear_system, bind. rewrite E. reflexivity.
Qed.

(** [get_status], step by step. *)
Lemma get_status_run count token w :
  match snd (verify_token env token w) with
  | Return ui =>
      (forall uid, session_of (fst (get_status env count token w)) uid
                   = session_of w uid)
      /\ db (fst (get_status env count token w)) = db w
      /\ log (fst (get_status env count token w)) = log w
      /\ snd (get_status env count token w)
         = match vectorstore (session_of w (info_user_id ui)) with
           | None =>
               Return
                 {| status_status := "no_document";
                    status_message :=
                      "No document uploaded. Please upload a document or URL first.";
                    status_document_count := 0;
                    status_chunk_count := 0;
                    status_source_name := None;
                    status_source_type := None |}
           | Some vs =>
               Return
                 {| status_status := "ready";
                    status_message := "System ready to answer questions";
                    status_document_count :=
                      List.length (documents (session_of w (info_user_id ui)));
                    status_chunk_count := count vs;
                    status_source_name :=
                      source_name (session_of w (info_user_id ui));
                    status_source_type :=
                      source_type (session_of w (info_user_id ui)) |}
           end
  | Raise e => get_status env count token w = (w, Raise e)
  end.
Proof.
  destruct (verify_token_cases env token w) as [(ui & E)|(d & E)];
    rewrite E; simpl.
  - destruct (get_user_session_spec ui w) as (w1 & Hg & Hs & Hdb & Hlog).
    unfold get_status, bind, session_read. rewrite E, Hg.
    rewrite (Hs (info_user_id ui)).
    destruct (vectorstore (session_of w (info_user_id ui))); simpl;
      repeat split; assumption.
  - unfold get_status, bind. rewrite E. reflexivity.
Qed.

(** What [ask_question] leaves of the sessions. *)
Lemma ask_question_sessions request token w uid :
  session_of (fst (ask_question env request token w)) uid = session_of w uid.
Proof.
  destruct (verify_token_cases env token w) as [(ui & E)|(d & E)].
  - destruct (ask_question_run env request token w ui) as (w1 & Hs & _ & Hrun).
    { rewrite E. reflexivity. }
    rewrite Hrun.
    destruct (retriever (session_of w (info_user_id ui))) as [r|];
      [|apply Hs].
    unfold try_except.
    pose proof (ask_answer_spec env ui (session_of w (info_user_id ui)) r
                  request w1) as Hspec.
    destruct (ask_answer env ui (session_of w (info_user_id ui)) r request w1)
      as [w2 [e|resp]]; simpl in Hspec |- *; destruct Hspec as (Hus & _);
      rewrite <- Hs; unfold session_of; simpl; rewrite Hus; reflexivity.
  - unfold ask_question, bind. rewrite E. reflexivity.
Qed.

Lemma registry_inv_empty d l :
  registry_inv {| db := d; user_sessions := ∅; log := l |}.
Proof.
  intros uid. unfold session_of. simpl. rewrite lookup_empty.
  apply session_inv_new.
Qed.

Lemma upload_document_registry_inv file url token w :
  registry_inv w -> registry_inv (fst (upload_document env file url token w)).
Proof.
  intros Hinv uid.
  destruct (upload_document_sessions env file url token w uid)
    as [->|(text & name & kind & [->|[(vs & ->)|(vs & id & ->)]])].
  - apply Hinv.
  - apply session_inv_staged, Hinv.
  - apply session_inv_indexed, session_inv_staged, Hinv.
  - apply session_inv_document_id; [|discriminate].
    apply session_inv_indexed, session_inv_staged, Hinv.
Qed.

(** X11.  Every handler keeps the sessions well-shaped.  If in every
    session the retriever is the one built on the vector store, there is at
    most one document, the source name and kind are set exactly when a
    document is, a document id is only held together with a vector store and
    the object belongs to its key, then the same holds after an upload
    (returning or failing at any step), an ask, a clear, a status request,
    a logout, a registration and a login; and it holds for the registry no
    request has touched. *)
Theorem handlers_keep_session_invariant (w : World) :
  registry_inv w ->
  (forall file url token,
     registry_inv (fst (upload_document env file url token w)))
  /\ (forall request token,
        registry_inv (fst (ask_question env request token w)))
  /\ (forall token, registry_inv (fst (clear_system env token w)))
  /\ (forall count token, registry_inv (fst (get_status env count token w)))
  /\ (forall token, registry_inv (fst (logout env token w)))
  /\ (forall aenv request, registry_inv (fst (register env aenv request w)))
  /\ (forall aenv request, registry_inv (fst (login env aenv request w)))
  /\ (forall d l,
        registry_inv {| db := d; user_sessions := ∅; log := l |}).
Proof.
  intros Hinv. split; [|split; [|split; [|split; [|split; [|split; [|split]]]]]].
  - intros file url token. apply upload_document_registry_inv, Hinv.
  - intros request token. eapply registry_inv_same; [|exact Hinv].
    apply ask_question_sessions.
  - intros token uid. pose proof (clear_system_run token w) as H.
    destruct (snd (verify_token env token w)) as [e|ui].
    + rewrite H. apply Hinv.
    + destruct H as (_ & Hc & Ho & _).
      destruct (decide (uid = info_user_id ui)) as [->|Hne].
      * rewrite Hc. apply session_inv_clear, Hinv.
      * rewrite (Ho uid Hne). apply Hinv.
  - intros count token. pose proof (get_status_run count token w) as H.
    destruct (snd (verify_token env token w)) as [e|ui].
    + rewrite H. exact Hinv.
    + destruct H as (Hs & _). eapply registry_inv_same; eassumption.
  - intros token uid. unfold logout, bind.
    destruct (verify_token_cases env token w) as [(ui & E)|(d & E)];
      rewrite E; apply Hinv.
  - intros aenv request.
    destruct (snd (register env aenv request w)) as [e|resp] eqn:Hr.
    + destruct (register_spec env aenv request w) as [H _].
      rewrite Hr in H. destruct H as [-> _]. exact Hinv.
    + apply register_Return in Hr.
      destruct Hr as (_ & _ & _ & _ & _ & _ & Hus & _).
      intros uid. unfold session_of. rewrite Hus. apply Hinv.
  - intros aenv request.
    destruct (snd (login env aenv request w)) as [e|resp] eqn:Hr.
    + destruct (login_spec env aenv request w) as [H _].
      rewrite Hr in H. destruct H as [-> _]. exact Hinv.
    + apply login_Return in Hr.
      destruct Hr as (u & _ & _ & _ & _ & _ & _ & _ & _ & Hus & _).
      intros uid. unfold session_of. rewrite Hus. apply Hinv.
  - apply registry_inv_empty.
Qed.

(** X12.  Status and ask agree on what "a document is loaded" means: for a
    well-shaped registry and a token that verifies, [get_status] answers
    ["ready"] exactly when [ask_question] does not raise the 400 "No
    document uploaded", and it never reports more than one document. *)
Theorem status_ready_iff_ask_possible (w : World) (count : Chroma -> nat)
  (request : QuestionRequest) (token : option string) (ui : UserInfo)
  (resp : StatusResponse) :
  registry_inv w ->
  snd (verify_token env token w) = Return ui ->
  snd (get_status env count token w) = Return resp ->
  (status_status resp = "ready"%string <->
   snd (ask_question env request token w) <> Raise no_document_uploaded)
  /\ (status_document_count resp <= 1)%nat.
Proof.
  intros Hinv Hv Hst.
  pose proof (get_status_run count token w) as Hg. rewrite Hv in Hg.
  destruct Hg as (_ & _ & _ & Hg). rewrite Hg in Hst.
  destruct (ask_question_run env request token w ui Hv) as (w1 & _ & _ & Hrun).
  destruct (Hinv (info_user_id ui)) as (_ & Hr & Hl & _).
  rewrite Hrun, Hr.
  destruct (vectorstore (session_of w (info_user_id ui))) as [vs|];
    injection Hst as <-; simpl.
  - split; [|exact Hl]. split; [|reflexivity]. intros _.
    unfold try_except.
    destruct (ask_answer env ui _ _ request w1) as [w2 [e|a]]; simpl;
      discriminate.
  - split; [|lia]. split; [discriminate|]. intros H. destruct H. reflexivity.
Qed.

(** X13.  [clear_system] with a token that verifies unsets the caller's
    whole corpus (documents, name, kind, vector store, retriever, document
    id) and touches nothing else: not the other sessions, not the database.
    Afterwards [get_status] answers ["no_document"], [ask_question] raises
    the 400 "No document uploaded" for every question and strategy tag, and a
    second clear changes nothing more.  Without a valid token it raises the
    401 and changes nothing. *)
Theorem clear_system_resets_corpus (token : option string) (w : World) :
  (forall ui, snd (verify_token env token w) = Return ui ->
     let w' := fst (clear_system env token w) in
     session_of w' (info_user_id ui)
     = clear (session_of w (info_user_id ui))
     /\ (forall uid, uid <> info_user_id ui ->
           session_of w' uid = session_of w uid)
     /\ db w' = db w
     /\ (forall count,
           exists resp,
             snd (get_status env count token w') = Return resp
             /\ status_status resp = "no_document"%string)
     /\ (forall request,
           snd (ask_question env request token w')
           = Raise no_document_uploaded)
     /\ (forall uid,
           session_of (fst (clear_system env token w')) uid
           = session_of w' uid))
  /\ (forall e, snd (verify_token env token w) = Raise e ->
        clear_system env token w = (w, Raise e)
        /\ exists d, e = HTTPException 401 d).
Proof.
  split.
  - intros ui Hv. pose proof (clear_system_run token w) as H.
    rewrite Hv in H. destruct H as (_ & Hc & Ho & Hdb & _). simpl.
    set (w' := fst (clear_system env token w)) in *.
    assert (Hv' : snd (verify_token env token w') = Return ui).
    { rewrite (verify_token_same_tables token w w') by (rewrite Hdb; reflexivity).
      exact Hv. }
    split; [exact Hc|]. split; [exact Ho|]. split; [exact Hdb|].
    split; [|split].
    + intros count. pose proof (get_status_run count token w') as Hg.
      rewrite Hv' in Hg. destruct Hg as (_ & _ & _ & Hg).
      rewrite Hg, Hc. simpl. eexists. split; reflexivity.
    + intros request.
      destruct (ask_question_run env request token w' ui Hv')
        as (w1 & _ & _ & Hrun).
      rewrite Hrun, Hc. reflexivity.
    + intros uid. pose proof (clear_system_run token w') as H'.
      rewrite Hv' in H'. destruct H' as (_ & Hc' & Ho' & _).
      destruct (decide (uid = info_user_id ui)) as [->|Hne].
      * rewrite Hc', Hc. reflexivity.
      * apply Ho', Hne.
  - intros e He. pose proof (clear_system_run token w) as H.
    rewrite He in H. split; [exact H|].
    destruct (verify_token_cases env token w) as [(ui & E)|(d & E)];
      rewrite E in He; simpl in He; [discriminate|].
    injection He as <-. eauto.
Qed.

(** X18.  Upload, then status and ask.  After an upload that returned,
    [get_status] answers ["ready"] with one document and the name and kind
    the upload reported; [ask_question] no longer raises the 400 "No
    document uploaded", and a conversation it records refers to the document
    row the upload wrote. *)
Theorem upload_then_status_and_ask (file : option UploadFile)
  (url token : option string) (w : World) (up : UploadResponse) :
  snd (upload_document env file url token w) = Return up ->
  let w' := fst (upload_document env file url token w) in
  (forall count,
     exists st,
       snd (get_status env count token w') = Return st
       /\ status_status st = "ready"%string
       /\ status_document_count st = 1%nat
       /\ status_source_name st = Some (upload_source up)
       /\ status_source_type st = Some (upload_source_type up))
  /\ (forall request,
        snd (ask_question env request token w') <> Raise no_document_uploaded
        /\ forall resp,
             snd (ask_question env request token w') = Return resp ->
             exists doc row,
               last_error (tbl_documents (db w')) = Some doc
               /\ documents_filename doc = upload_source up
               /\ last_error
                    (tbl_conversations
                       (db (fst (ask_question env request token w'))))
                  = Some row
               /\ conversations_document_id row = documents_id doc).
Proof.
  intros Hup. apply upload_document_Return in Hup.
  destruct Hup
    as (ui & text & name & kind & splits & vs & Hv & _ & _ & _ & _
        & Hsess & _ & Hdb & ->).
  simpl. set (w' := fst (upload_document env file url token w)) in *.
  assert (Hv' : snd (verify_token env token w') = Return ui).
  { rewrite (verify_token_same_tables token w w') by (rewrite Hdb; reflexivity).
    exact Hv. }
  split.
  - intros count. pose proof (get_status_run count token w') as Hg.
    rewrite Hv' in Hg. destruct Hg as (_ & _ & _ & Hg).
    rewrite Hg, Hsess. simpl. eexists. repeat split.
  - intros request.
    destruct (ask_question_run env request token w' ui Hv')
      as (w1 & _ & Hdb1 & Hrun).
    rewrite Hrun, Hsess. simpl. unfold try_except.
    pose proof (ask_answer_spec env ui
                  (set_document_id
                     (Some (next_rowid (map documents_id (tbl_documents (db w)))))
                     (indexed vs
                        (staged text name kind (session_of w (info_user_id ui)))))
                  (as_retriever vs 4) request w1) as Hspec.
    destruct (ask_answer env ui _ (as_retriever vs 4) request w1)
      as [w2 [e|resp']]; simpl in Hspec |- *.
    + split; [discriminate|]. intros resp H. discriminate.
    + split; [discriminate|]. intros resp [= <-].
      destruct Hspec as (_ & docs & d & _ & _ & _ & Hid & Hdb2).
      simpl in Hid. injection Hid as <-.
      eexists _, _. rewrite Hdb, Hdb2. simpl.
      split; [apply last_error_snoc|]. split; [reflexivity|].
      split; [apply last_error_snoc|]. reflexivity.
Qed.

End Sessions.

(* ===================================================================== *)
(** ** How an ask ends *)
(* ===================================================================== *)

Section AskOutcomes.

Variable env : Env.

Lemma library_failures_ret {A} (a : A) : library_failures (ret a).
Proof. intros w e. discriminate. Qed.

Lemma library_failures_call {A} (r : reply A) : library_failures (call r).
Proof.
  intros w e. unfold call. destruct r; simpl; [|discriminate].
  intros [= <-]. eauto.
Qed.

Lemma library_failures_logger lvl msg : library_failures (logger lvl msg).
Proof. intros w e. discriminate. Qed.

Lemma library_failures_bind {A B} (m : M A) (k : A -> M B) :
  library_failures m -> (forall a, library_failures (k a)) ->
  library_failures (bind m k).
Proof.
  intros Hm Hk w e. unfold bind. specialize (Hm w).
  destruct (m w) as [w1 [e1|a]]; simpl in *.
  - intros [= <-]. apply Hm. reflexivity.
  - apply Hk.
Qed.

Lemma library_failures_try_except {A} (m : M A) (h : exn -> M A) :
  (forall e, library_failures (h e)) -> library_failures (try_except m h).
Proof.
  intros Hh w e. unfold try_except.
  destruct (m w) as [w1 [e1|a]]; simpl; [apply Hh|discriminate].
Qed.

Ltac library_failures_step :=
  first
    [ apply library_failures_ret | apply library_failures_call
    | apply library_failures_logger
    | apply library_failures_bind; [|intros ?]
    | apply library_failures_try_except; intros ?
    | match goal with
      | |- library_failures (match ?x with _ => _ end) => destruct x
      | |- library_failures (if ?b then _ else _) => destruct b
      end ].

Lemma retrieve_all_from_library_failures r qs :
  forall acc, library_failures (MultiQueryRAG.retrieve_all_from env r qs acc).
Proof.
  induction qs as [|q qs IH]; intros acc; simpl;
    [apply library_failures_ret|].
  apply library_failures_bind; [repeat library_failures_step|].
  intros a. apply IH.
Qed.

Lemma run_chain_library_failures tag r l q :
  library_failures (run_chain env tag r l q).
Proof.
  unfold run_chain.
  destruct (String.eqb tag "multi_query").
  - unfold MultiQueryRAG.build_chain, MultiQueryRAG.generate_queries,
      MultiQueryRAG.retrieve_all.
    repeat library_failures_step. apply retrieve_all_from_library_failures.
  - destruct (String.eqb tag "hyde").
    + unfold HyDERAG.build_chain. repeat library_failures_step.
    + unfold BasicRAG.build_chain. repeat library_failures_step.
Qed.

(** The [try] block of [ask_question] raises nothing the handler would
    pass on unchanged. *)
Lemma ask_answer_raises ui s r request w e :
  snd (ask_answer env ui s r request w) = Raise e ->
  exists msg, e = Exception msg.
Proof.
  revert w e. change (library_failures (ask_answer env ui s r request)).
  unfold ask_answer.
  apply library_failures_bind; [apply library_failures_logger|intros _].
  apply library_failures_bind; [apply run_chain_library_failures|intros a].
  apply library_failures_bind; [apply library_failures_call|intros docs].
  apply library_failures_bind.
  { intros w e. unfold execute_insert_conversations.
    destruct (sqlite_error env InsertConversations); simpl;
      [intros [= <-]; eauto|].
    destruct (document_id s); simpl; [discriminate|intros [= <-]; eauto]. }
  intros [pending rowid].
  apply library_failures_bind.
  { intros w e. unfold commit.
    destruct (sqlite_error env CommitConversations); simpl;
      [intros [= <-]; eauto|discriminate]. }
  intros _. repeat library_failures_step.
Qed.

Lemma ask_answer_needs_document_id ui s r request w :
  document_id s = None ->
  exists msg, snd (ask_answer env ui s r request w) = Raise (Exception msg).
Proof.
  intros Hd.
  destruct (snd (ask_answer env ui s r request w)) as [e|resp] eqn:Ha.
  - destruct (ask_answer_raises ui s r request w e Ha) as (msg & ->). eauto.
  - pose proof (ask_answer_spec env ui s r request w) as Hspec.
    simpl in Hspec. rewrite Ha in Hspec.
    destruct Hspec as (_ & docs & d & _ & _ & _ & Hid & _). congruence.
Qed.

(** X14.  How [ask_question] can fail.  It raises the 401 of
    [verify_token], the 400 "No document uploaded", which it raises exactly
    when the token verifies and the session has no retriever, whatever the
    question and the strategy tag, or a 500 whose detail is "Question
    failed: " followed by the message of the collaborator that failed; it
    never lets another exception through.  In the 400 case nothing is
    logged and the database is untouched. *)
Theorem ask_question_failures (request : QuestionRequest)
  (token : option string) (w : World) :
  (forall e, snd (ask_question env request token w) = Raise e ->
     (exists d, e = HTTPException 401 d)
     \/ e = no_document_uploaded
     \/ exists msg, e = HTTPException 500 ("Question failed: " ++ msg)%string)
  /\ (forall ui, snd (verify_token env token w) = Return ui ->
        (snd (ask_question env request token w) = Raise no_document_uploaded
         <-> retriever (session_of w (info_user_id ui)) = None)
        /\ (retriever (session_of w (info_user_id ui)) = None ->
            db (fst (ask_question env request token w)) = db w
            /\ log (fst (ask_question env request token w)) = log w)).
Proof.
  split.
  - intros e He.
    destruct (verify_token_cases env token w) as [(ui & E)|(d & E)].
    + destruct (ask_question_run env request token w ui) as (w1 & _ & _ & Hrun).
      { rewrite E. reflexivity. }
      rewrite Hrun in He.
      destruct (retriever (session_of w (info_user_id ui))) as [r|].
      * unfold try_except in He.
        pose proof (ask_answer_raises ui (session_of w (info_user_id ui)) r
                      request w1) as Hr.
        destruct (ask_answer env ui (session_of w (info_user_id ui)) r request
                    w1) as [w2 [e2|resp]]; simpl in He, Hr; [|discriminate].
        destruct (Hr e2 eq_refl) as (msg & ->).
        injection He as <-. right. right. exists msg. reflexivity.
      * injection He as <-. right. left. reflexivity.
    + unfold ask_question, bind in He. rewrite E in He.
      injection He as <-. left. eauto.
  - intros ui Hv.
    destruct (get_user_session_spec ui w) as (w0 & Hg & Hs0 & Hdb0 & Hlog0).
    destruct (ask_question_run env request token w ui Hv) as (w1 & _ & Hdb & Hrun).
    assert (Hlog : retriever (session_of w (info_user_id ui)) = None ->
                   db (fst (ask_question env request token w)) = db w
                   /\ log (fst (ask_question env request token w)) = log w).
    { intros Hnone.
      destruct (verify_token_cases env token w) as [(ui' & E)|(d & E)];
        rewrite E in Hv; simpl in Hv; [|discriminate].
      injection Hv as ->.
      unfold ask_question, bind, session_read. rewrite E, Hg.
      rewrite (Hs0 (info_user_id ui)), Hnone. simpl. split; assumption. }
    split; [|exact Hlog].
    rewrite Hrun.
    destruct (retriever (session_of w (info_user_id ui))) as [r|].
    + split; [|discriminate]. unfold try_except.
      destruct (ask_answer env ui _ r request w1) as [w2 [e2|resp]]; simpl;
        discriminate.
    + split; reflexivity.
Qed.

(** X15.  A conversation is recorded under the caller and the active
    document: when [ask_question] returns, the one row it appends carries
    the next free row id, the id of the user the token belongs to and the
    document id held by that user's session. *)
Theorem ask_records_caller_and_document (request : QuestionRequest)
  (token : option string) (w : World) (resp : AnswerResponse) :
  snd (ask_question env request token w) = Return resp ->
  exists ui d,
    snd (verify_token env token w) = Return ui
    /\ document_id (session_of w (info_user_id ui)) = Some d
    /\ tbl_conversations (db (fst (ask_question env request token w)))
       = tbl_conversations (db w)
         ++ [ {| conversations_id :=
                   next_rowid (map conversations_id (tbl_conversations (db w)));
                 conversations_user_id := info_user_id ui;
                 conversations_document_id := d;
                 conversations_question := Py.strip (question request);
                 conversations_answer := answer resp;
                 conversations_rag_type := rag_type request |} ].
Proof.
  intros Hr.
  destruct (verify_token_cases env token w) as [(ui & E)|(d & E)].
  2:{ unfold ask_question, bind in Hr. rewrite E in Hr. discriminate. }
  destruct (ask_question_run env request token w ui) as (w1 & _ & Hdb & Hrun).
  { rewrite E. reflexivity. }
  rewrite Hrun in *.
  destruct (retriever (session_of w (info_user_id ui))) as [r|];
    [|discriminate].
  unfold try_except in *.
  pose proof (ask_answer_spec env ui (session_of w (info_user_id ui)) r request
                w1) as Hspec.
  destruct (ask_answer env ui (session_of w (info_user_id ui)) r request w1)
    as [w2 [e|resp']]; simpl in Hr, Hspec |- *; [discriminate|].
  injection Hr as ->.
  destruct Hspec as (_ & docs & d & _ & _ & _ & Hid & Hdb2).
  exists ui, d. split; [rewrite E; reflexivity|]. split; [exact Hid|].
  rewrite Hdb2, Hdb. reflexivity.
Qed.

(** X16.  A session that has a retriever but no document id cannot be
    asked: every [ask_question] on it raises a 500 and records nothing,
    because the conversation row requires a document id. *)
Theorem ask_needs_document_id (request : QuestionRequest)
  (token : option string) (w : World) (ui : UserInfo) :
  snd (verify_token env token w) = Return ui ->
  document_id (session_of w (info_user_id ui)) = None ->
  retriever (session_of w (info_user_id ui)) <> None ->
  (exists msg,
     snd (ask_question env request token w)
     = Raise (HTTPException 500 ("Question failed: " ++ msg)%string))
  /\ tbl_conversations (db (fst (ask_question env request token w)))
     = tbl_conversations (db w).
Proof.
  intros Hv Hd Hr.
  destruct (ask_question_run env request token w ui Hv) as (w1 & _ & Hdb & Hrun).
  rewrite Hrun.
  destruct (retriever (session_of w (info_user_id ui))) as [r|];
    [|contradiction].
  unfold try_except.
  pose proof (ask_answer_needs_document_id ui (session_of w (info_user_id ui))
                r request w1 Hd) as (msg & Ha).
  pose proof (ask_answer_spec env ui (session_of w (info_user_id ui)) r request
                w1) as Hspec.
  destruct (ask_answer env ui (session_of w (info_user_id ui)) r request w1)
    as [w2 [e|resp']]; simpl in Ha, Hspec |- *; [|discriminate].
  injection Ha as ->. destruct Hspec as (_ & Hdb2).
  split; [exists msg; reflexivity|]. rewrite Hdb2, Hdb. reflexivity.
Qed.

(** X17.  Multi-Query does not survive the failure of its first model
    call: when generating the queries fails, the chain raises that failure
    at once and logs nothing, whatever the retriever would return, and
    [ask_question] answers with the 500 "Question failed: <message>" and
    records no conversation. *)
Theorem multi_query_generation_failure (request : QuestionRequest)
  (token : option string) (w : World) (ui : UserInfo)
  (r : VectorStoreRetriever) (msg : string) :
  snd (verify_token env token w) = Return ui ->
  retriever (session_of w (info_user_id ui)) = Some r ->
  rag_type request = "multi_query"%string ->
  llm_invoke env (llm (session_of w (info_user_id ui)))
    (MultiQueryRAG.multi_query_template (Py.strip (question request)))
  = Error msg ->
  (forall w0,
     MultiQueryRAG.build_chain env r (llm (session_of w (info_user_id ui)))
       (Py.strip (question request)) w0
     = (w0, Raise (Exception msg)))
  /\ snd (ask_question env request token w)
     = Raise (HTTPException 500 ("Question failed: " ++ msg)%string)
  /\ tbl_conversations (db (fst (ask_question env request token w)))
     = tbl_conversations (db w).
Proof.
  intros Hv Hr Htag Hgen.
  assert (Hchain : forall w0,
            MultiQueryRAG.build_chain env r
              (llm (session_of w (info_user_id ui)))
              (Py.strip (question request)) w0
            = (w0, Raise (Exception msg))).
  { intros w0. unfold MultiQueryRAG.build_chain,
      MultiQueryRAG.generate_queries, bind, call.
    rewrite Hgen. reflexivity. }
  split; [exact Hchain|].
  destruct (ask_question_run env request token w ui Hv) as (w1 & _ & Hdb & Hrun).
  rewrite Hrun, Hr.
  assert (Hbody : exists l,
            ask_answer env ui (session_of w (info_user_id ui)) r request w1
            = (with_log (log w1 ++ l) w1, Raise (Exception msg))).
  { eexists. unfold ask_answer, run_chain. rewrite Htag. simpl.
    unfold bind at 1, logger. unfold bind at 1. rewrite Hchain.
    reflexivity. }
  destruct Hbody as (l & Hbody).
  unfold try_except. rewrite Hbody. simpl.
  split; [reflexivity|]. rewrite Hdb. reflexivity.
Qed.

End AskOutcomes.

(* ===================================================================== *)
(** ** Strings: stripping, splitting and previews *)
(* ===================================================================== *)

Section Strings.

Lemma lstrip_head s c s' :
  Py.lstrip s = String c s' -> Py.isspace c = false.
Proof.
  induction s as [|a s IH]; simpl; [discriminate|].
  destruct (Py.isspace a) eqn:E; [exact IH|]. intros [= <- _]. exact E.
Qed.

Lemma rstrip_idempotent s : Py.rstrip (Py.rstrip s) = Py.rstrip s.
Proof.
  induction s as [|c s IH]; simpl; [reflexivity|].
  destruct (Py.rstrip s) as [|c' r] eqn:E.
  - destruct (Py.isspace c) eqn:Ec; simpl; [reflexivity|].
    rewrite Ec. reflexivity.
  - simpl in *. rewrite IH. reflexivity.
Qed.

Lemma rstrip_keeps_head c s :
  Py.isspace c = false -> exists r, Py.rstrip (String c s) = String c r.
Proof.
  intros Hc. simpl. destruct (Py.rstrip s); [rewrite Hc|]; eauto.
Qed.

Lemma strip_head s c s' : Py.strip s = String c s' -> Py.isspace c = false.
Proof.
  unfold Py.strip. destruct (Py.lstrip s) as [|a l] eqn:E; simpl;
    [discriminate|].
  pose proof (lstrip_head _ _ _ E) as Ha.
  destruct (rstrip_keeps_head a l Ha) as (r & Hr). simpl in Hr. rewrite Hr.
  intros [= <- _]. exact Ha.
Qed.

Lemma strip_idempotent s : Py.strip (Py.strip s) = Py.strip s.
Proof.
  destruct (Py.strip s) as [|c r] eqn:E; [reflexivity|].
  pose proof (strip_head _ _ _ E) as Hc.
  unfold Py.strip at 1. simpl Py.lstrip. rewrite Hc.
  rewrite <- E. unfold Py.strip. apply rstrip_idempotent.
Qed.

Lemma lstrip_chars s c : In c (chars (Py.lstrip s)) -> In c (chars s).
Proof.
  unfold chars. induction s as [|a s IH]; simpl; [tauto|].
  destruct (Py.isspace a); simpl; [intros H; right; apply IH, H|tauto].
Qed.

Lemma rstrip_chars s c : In c (chars (Py.rstrip s)) -> In c (chars s).
Proof.
  unfold chars. induction s as [|a s IH]; simpl; [tauto|].
  destruct (Py.rstrip s) as [|a' r].
  - destruct (Py.isspace a); simpl; tauto.
  - simpl in *. intros [H|H]; [left; exact H|right; apply IH, H].
Qed.

Lemma strip_chars s c : In c (chars (Py.strip s)) -> In c (chars s).
Proof. intros H. apply lstrip_chars, rstrip_chars, H. Qed.

Lemma split_pieces sep s p :
  In p (Py.split sep s) -> ~ In sep (chars p).
Proof.
  unfold chars. revert p. induction s as [|a s IH]; simpl; intros p.
  - intros [<-|[]]. simpl. tauto.
  - destruct (Ascii.eqb a sep) eqn:E.
    + intros [<-|H]; [simpl; tauto|apply IH, H].
    + destruct (Py.split sep s) as [|h t] eqn:Es.
      * intros [<-|[]]. simpl. apply Ascii.eqb_neq in E. intros [H|[]].
        congruence.
      * intros [<-|H].
        -- simpl. apply Ascii.eqb_neq in E. intros [H|H]; [congruence|].
           apply (IH h); [left; reflexivity|exact H].
        -- apply IH. right. exact H.
Qed.

Lemma lstrip_blank s : blank s -> Py.lstrip s = ""%string.
Proof.
  unfold blank, chars. induction s as [|a s IH]; simpl; [reflexivity|].
  intros H. apply List.Forall_cons_iff in H. destruct H as [Ha Hs].
  rewrite Ha. apply IH, Hs.
Qed.

Lemma split_blank sep s p :
  blank s -> In p (Py.split sep s) -> blank p.
Proof.
  unfold blank, chars. revert p. induction s as [|a s IH]; simpl; intros p H.
  - intros [<-|[]]. constructor.
  - apply List.Forall_cons_iff in H. destruct H as [Ha Hs].
    destruct (Ascii.eqb a sep).
    + intros [<-|Hp]; [constructor|apply IH; assumption].
    + destruct (Py.split sep s) as [|h t] eqn:Es.
      * intros [<-|[]]. simpl. repeat constructor. exact Ha.
      * intros [<-|Hp].
        -- simpl. constructor; [exact Ha|]. apply IH; [exact Hs|].
           left. reflexivity.
        -- apply IH; [exact Hs|]. right. exact Hp.
Qed.

Lemma parse_queries_clean x q :
  In q (parse_queries x) ->
  q <> ""%string /\ Py.strip q = q /\ ~ In (ascii_of_nat 10) (chars q).
Proof.
  unfold parse_queries. intros H. apply List.filter_In in H.
  destruct H as [H Hne]. apply in_map_iff in H. destruct H as (p & <- & Hp).
  split; [|split].
  - destruct (Py.strip p); [discriminate|discriminate].
  - apply strip_idempotent.
  - intros Hin. apply strip_chars in Hin. exact (split_pieces _ _ _ Hp Hin).
Qed.

Lemma parse_queries_blank x : blank x -> parse_queries x = [].
Proof.
  intros Hx. unfold parse_queries. apply filter_none. intros q Hq.
  apply in_map_iff in Hq. destruct Hq as (p & <- & Hp).
  pose proof (split_blank _ _ _ Hx Hp) as Hb.
  unfold Py.strip. rewrite (lstrip_blank p Hb). reflexivity.
Qed.

(** X19.  The queries Multi-Query works with are clean: whatever the model
    writes, every query parsed from it is non-empty, has neither leading nor
    trailing whitespace (stripping it again changes nothing) and contains no
    line break.  An output made of whitespace only, the empty one included,
    gives no query at all. *)
Theorem generated_queries_are_clean (env : Env) (llm : ChatOpenAI)
  (question : string) (w : World) (queries : list string) :
  snd (MultiQueryRAG.generate_queries env llm question w) = Return queries ->
  (forall q, In q queries ->
     q <> ""%string /\ Py.strip q = q /\ ~ In (ascii_of_nat 10) (chars q))
  /\ (forall x,
        llm_invoke env llm (MultiQueryRAG.multi_query_template question)
        = Ok x ->
        blank x -> queries = []).
Proof.
  unfold MultiQueryRAG.generate_queries, bind, call, ret.
  destruct (llm_invoke env llm _) as [msg|x]; simpl; [discriminate|].
  intros [= <-]. split.
  - intros q Hq. apply (parse_queries_clean x q Hq).
  - intros x' [= <-] Hb. apply parse_queries_blank, Hb.
Qed.

Lemma slice_to_all n s :
  (String.length s <= n)%nat -> Py.slice_to n s = s.
Proof.
  revert s. induction n as [|n IH]; intros [|c s]; simpl; try reflexivity;
    try lia.
  intros H. rewrite IH by lia. reflexivity.
Qed.

Lemma slice_to_exact n s :
  String.length (Py.slice_to n s) = Nat.min n (String.length s).
Proof.
  revert s. induction n as [|n IH]; intros [|c s]; simpl; try reflexivity.
  rewrite IH. reflexivity.
Qed.

Lemma slice_to_prefix n s :
  exists rest, s = (Py.slice_to n s ++ rest)%string.
Proof.
  revert s. induction n as [|n IH]; intros s.
  - exists s. destruct s; reflexivity.
  - destruct s as [|c s]; [exists ""%string; reflexivity|].
    destruct (IH s) as (rest & Hr). exists rest.
    change (String c s = String c (Py.slice_to n s ++ rest)%string).
    f_equal. exact Hr.
Qed.

(** X20.  An excerpt preview is the first 200 characters of its chunk
    followed by the three dots, which are appended even when nothing was cut
    off: a chunk of at most 200 characters is shown whole with "..." after
    it, and the preview of any chunk has exactly min(200, length) + 3
    characters and begins with a prefix of the chunk. *)
Theorem preview_shape (doc : Document) :
  String.length (preview doc)
  = (Nat.min 200 (String.length (page_content doc)) + 3)%nat
  /\ ((String.length (page_content doc) <= 200)%nat ->
      preview doc = (page_content doc ++ "...")%string)
  /\ exists head rest,
       preview doc = (head ++ "...")%string
       /\ page_content doc = (head ++ rest)%string
       /\ (String.length head <= 200)%nat.
Proof.
  unfold preview. split; [|split].
  - rewrite string_length_append, slice_to_exact. reflexivity.
  - intros H. rewrite slice_to_all by exact H. reflexivity.
  - destruct (slice_to_prefix 200 (page_content doc)) as (rest & Hr).
    exists (Py.slice_to 200 (page_content doc)), rest.
    split; [reflexivity|]. split; [exact Hr|apply slice_to_length].
Qed.

Lemma split_whitespace_words s :
  Forall (fun wd => wd <> ""%string
                    /\ Forall (fun c => Py.isspace c = false) (chars wd))
    (Py.split_whitespace s).
Proof.
  unfold chars. induction s as [|c s IH]; simpl; [constructor|].
  destruct (Py.isspace c) eqn:Ec; [exact IH|].
  destruct s as [|c' s'].
  - repeat constructor; [discriminate|exact Ec].
  - destruct (Py.isspace c') eqn:Ec'.
    + constructor; [|exact IH]. split; [discriminate|].
      simpl. repeat constructor. exact Ec.
    + destruct (Py.split_whitespace (String c' s')) as [|wd ws].
      * repeat constructor; [discriminate|exact Ec].
      * apply List.Forall_cons_iff in IH. destruct IH as [[_ Hwd] Hws].
        constructor; [|exact Hws]. split; [discriminate|].
        simpl. constructor; assumption.
Qed.

Lemma split_whitespace_nil s : Py.split_whitespace s = [] <-> blank s.
Proof.
  unfold blank, chars. induction s as [|c s IH]; simpl.
  - split; [constructor|reflexivity].
  - destruct (Py.isspace c) eqn:Ec.
    + rewrite IH. split; [intros H; constructor; assumption|].
      intros H. apply List.Forall_cons_iff in H. apply H.
    + split.
      * destruct s as [|c' s']; [discriminate|].
        destruct (Py.isspace c'); [discriminate|].
        destruct (Py.split_whitespace (String c' s')); discriminate.
      * intros H. apply List.Forall_cons_iff in H. destruct H as [H _].
        congruence.
Qed.

Lemma split_whitespace_cons c s :
  Py.split_whitespace (String c s)
  = if Py.isspace c then Py.split_whitespace s
    else match s with
         | EmptyString => [String c EmptyString]
         | String c' _ =>
             if Py.isspace c'
             then String c EmptyString :: Py.split_whitespace s
             else match Py.split_whitespace s with
                  | wd :: ws => String c wd :: ws
                  | [] => [String c EmptyString]
                  end
         end.
Proof. reflexivity. Qed.

Lemma split_whitespace_count s :
  (2 * List.length (Py.split_whitespace s) <= String.length s + 1)%nat
  /\ (forall c s', s = String c s' -> Py.isspace c = true ->
        2 * List.length (Py.split_whitespace s) <= String.length s)%nat.
Proof.
  induction s as [|c s IH].
  - simpl. split; [lia|]. intros c s' H. discriminate.
  - destruct IH as [IH1 IH2]. rewrite split_whitespace_cons.
    change (String.length (String c s)) with (S (String.length s)).
    destruct (Py.isspace c) eqn:Ec.
    + split; [lia|]. intros c0 s0 _ _. lia.
    + split; [|intros c0 s0 [= <- <-] H; congruence].
      destruct s as [|c' s']; [simpl; lia|].
      destruct (Py.isspace c') eqn:Ec'.
      * specialize (IH2 c' s' eq_refl Ec').
        change (List.length (String c EmptyString
                             :: Py.split_whitespace (String c' s')))
          with (S (List.length (Py.split_whitespace (String c' s')))).
        lia.
      * change (String.length (String c' s')) with (S (String.length s'))
          in *.
        destruct (Py.split_whitespace (String c' s')); simpl in *; lia.
Qed.

Lemma split_whitespace_runs s :
  List.length (Py.split_whitespace s) = count_runs true s.
Proof.
  induction s as [|c s IH]; [reflexivity|].
  rewrite split_whitespace_cons.
  change (count_runs true (String c s))
    with ((if true && negb (Py.isspace c) then 1 else 0)
          + count_runs (Py.isspace c) s)%nat.
  destruct (Py.isspace c) eqn:Ec; simpl andb; cbv iota.
  - rewrite IH. reflexivity.
  - destruct s as [|c' s']; [reflexivity|].
    rewrite split_whitespace_cons in IH.
    change (count_runs true (String c' s'))
      with ((if true && negb (Py.isspace c') then 1 else 0)
            + count_runs (Py.isspace c') s')%nat in IH.
    change (count_runs false (String c' s'))
      with ((if false && negb (Py.isspace c') then 1 else 0)
            + count_runs (Py.isspace c') s')%nat.
    rewrite split_whitespace_cons.
    destruct (Py.isspace c') eqn:Ec'; simpl andb in *; cbv iota in *.
    + simpl. rewrite IH. reflexivity.
    + destruct s' as [|c'' s''].
      * reflexivity.
      * destruct (Py.isspace c'');
          destruct (Py.split_whitespace (String c'' s''));
          simpl in *; lia.
Qed.

Lemma split_whitespace_chars s :
  flat_map chars (Py.split_whitespace s) = non_whitespace s.
Proof.
  unfold non_whitespace, chars.
  induction s as [|c s IH]; [reflexivity|].
  rewrite split_whitespace_cons.
  change (list_ascii_of_string (String c s))
    with (c :: list_ascii_of_string s).
  simpl List.filter.
  destruct (Py.isspace c) eqn:Ec; simpl negb; cbv iota.
  - exact IH.
  - destruct s as [|c' s']; [reflexivity|].
    destruct (Py.isspace c') eqn:Ec'.
    + simpl. f_equal. exact IH.
    + rewrite <- IH.
      destruct (Py.split_whitespace (String c' s')); reflexivity.
Qed.

(** X21.  The word count of an upload is the number of maximal runs of
    non-whitespace characters of the text: the words [text.split()] yields
    are as many as there are non-whitespace characters that start the text
    or follow a whitespace character, every word is non-empty and free of
    whitespace, and the words put together are the non-whitespace characters
    of the text in order.  Hence the count is zero exactly when the text is
    blank, and twice the count is at most the length of the text plus
    one. *)
Theorem word_count_properties (text : string) :
  List.length (Py.split_whitespace text) = count_runs true text
  /\ flat_map chars (Py.split_whitespace text) = non_whitespace text
  /\ Forall (fun wd => wd <> ""%string
                       /\ Forall (fun c => Py.isspace c = false) (chars wd))
       (Py.split_whitespace text)
  /\ (List.length (Py.split_whitespace text) = 0%nat <-> blank text)
  /\ (2 * List.length (Py.split_whitespace text)
      <= String.length text + 1)%nat.
Proof.
  split; [apply split_whitespace_runs|].
  split; [apply split_whitespace_chars|].
  split; [apply split_whitespace_words|]. split.
  - rewrite <- split_whitespace_nil.
    destruct (Py.split_whitespace text); simpl; split; congruence.
  - apply split_whitespace_count.
Qed.

End Strings.

(* ===================================================================== *)
(** ** Extraction of the uploaded text *)
(* ===================================================================== *)

Section Extraction.

Variable env : Env.

Lemma string_app_assoc (a b c : string) :
  ((a ++ b) ++ c)%string = (a ++ (b ++ c))%string.
Proof.
  induction a as [|x a IH]; [reflexivity|].
  change (String x ((a ++ b) ++ c)%string = String x (a ++ (b ++ c))%string).
  rewrite IH. reflexivity.
Qed.

Lemma string_app_nil_r (a : string) : (a ++ "")%string = a.
Proof.
  induction a as [|x a IH]; [reflexivity|].
  change (String x (a ++ "")%string = String x a). rewrite IH. reflexivity.
Qed.

Lemma pdf_text_read pages : forall text,
  (forall ts, pages_read pages = Some ts ->
     pdf_text pages text = Ok (text ++ fold_right String.append "" ts)%string)
  /\ (pages_read pages = None -> exists msg, pdf_text pages text = Error msg).
Proof.
  induction pages as [|[msg|t] pages IH]; intros text; simpl.
  - split; [|discriminate]. intros ts [= <-]. simpl.
    rewrite string_app_nil_r. reflexivity.
  - split; [discriminate|]. intros _. eauto.
  - destruct (IH (text ++ default "" t)%string) as [IH1 IH2].
    destruct (pages_read pages) as [ts|].
    + split; [|discriminate]. intros ts' [= <-]. rewrite (IH1 ts eq_refl).
      simpl. unfold page_text. rewrite string_app_assoc. reflexivity.
    + split; [discriminate|]. intros _. apply IH2. reflexivity.
Qed.

Lemma decode_latin1_length (bs : list Byte.byte) :
  String.length (Py.decode_latin1 bs) = List.length bs.
Proof.
  unfold Py.decode_latin1.
  induction bs as [|b bs IH]; simpl; [reflexivity|]. f_equal. exact IH.
Qed.

Lemma file_extraction_text (content : list Byte.byte) (name : string)
  (w w' : World) :
  snd (extract_text_from_file env content name w)
  = snd (extract_text_from_file env content name w').
Proof.
  unfold extract_text_from_file, try_except, bind, call, logger, ret, raise.
  destruct (Py.endswith (Py.lower name) ".pdf").
  - destruct (pdf_pages env content) as [msg|pages]; simpl; [reflexivity|].
    destruct (pdf_text pages ""); reflexivity.
  - destruct (decode_utf8 env content); reflexivity.
Qed.

(** X22.  What [extract_text_from_file] makes of an upload.  A name that
    does not end in ".pdf" (in any letter case) never fails: the text is the
    UTF-8 decoding of the bytes, or else their Latin-1 decoding, which has
    one character per byte.  A PDF gives the texts of its pages put together
    in order, a page without text counting as the empty string; when the
    reader or any page fails, the only thing the caller sees is status 400
    with "Cannot process <name>. Supported: TXT, MD, PDF". *)
Theorem file_extraction_outcomes (content : list Byte.byte)
  (name : string) (w : World) :
  snd (extract_text_from_file env content name w)
  = (if Py.endswith (Py.lower name) ".pdf" then
       match pdf_pages env content with
       | Ok pages =>
           match pages_read pages with
           | Some ts => Return (fold_right String.append "" ts)
           | None =>
               Raise (HTTPException 400
                        ("Cannot process " ++ name
                         ++ ". Supported: TXT, MD, PDF"))
           end
       | Error _ =>
           Raise (HTTPException 400
                    ("Cannot process " ++ name ++ ". Supported: TXT, MD, PDF"))
       end
     else
       Return (match decode_utf8 env content with
               | Some text => text
               | None => Py.decode_latin1 content
               end))
  /\ String.length (Py.decode_latin1 content) = List.length content.
Proof.
  split; [|apply decode_latin1_length].
  unfold extract_text_from_file, try_except, bind, call, logger, ret, raise.
  destruct (Py.endswith (Py.lower name) ".pdf").
  - destruct (pdf_pages env content) as [msg|pages]; simpl; [reflexivity|].
    destruct (pdf_text_read pages "") as [H1 H2].
    destruct (pages_read pages) as [ts|].
    + rewrite (H1 ts eq_refl). simpl. reflexivity.
    + destruct (H2 eq_refl) as (msg & Hm). rewrite Hm. simpl. reflexivity.
  - destruct (decode_utf8 env content); reflexivity.
Qed.

(** X23.  Where the text of an upload comes from.  When the extraction part
    of the handler returns (text, name, kind), then either a named file was
    sent, it was not empty, and kind is "file" with the file's name; or no
    named file was sent, the URL is non-empty and has a scheme and a host,
    kind is "url", the text is the content of the first document the loader
    returned and the name is that document's title, or the host when it has
    no title. *)
Theorem upload_extract_source (user_info : UserInfo)
  (file : option UploadFile) (url : option string) (w : World)
  (text name kind : string) :
  snd (upload_extract env user_info file url w) = Return (text, name, kind) ->
  (exists f, file_and_filename file = Some (f, name)
             /\ file_content f <> []
             /\ kind = "file"%string
             /\ snd (extract_text_from_file env (file_content f) name w)
                = Return text)
  \/ (file_and_filename file = None
      /\ kind = "url"%string
      /\ exists u scheme netloc d0 rest,
           url = Some u /\ u <> ""%string
           /\ urlparse env u = Ok (scheme, netloc)
           /\ scheme <> ""%string /\ netloc <> ""%string
           /\ web_load env u = Ok (d0 :: rest)
           /\ text = page_content d0
           /\ name = metadata_get (metadata d0) "title" netloc).
Proof.
  unfold upload_extract.
  destruct (file_and_filename file) as [[f fname]|] eqn:Hf.
  - intros H. left. exists f.
    unfold bind, logger, raise, ret in H. simpl in H.
    destruct (file_content f) as [|b bs] eqn:Hc; simpl in H; [discriminate|].
    pose proof (file_extraction_text (b :: bs) fname
                  (with_log (log w ++ [(INFO, User_uploading_file
                                          (info_username user_info) fname)])
                     w) w) as Hw.
    destruct (extract_text_from_file env (b :: bs) fname _) as [w1 [e|t]]
      eqn:He; simpl in H; [discriminate|].
    injection H as <- <- <-. simpl in Hw.
    split; [reflexivity|]. split; [discriminate|]. split; [reflexivity|].
    symmetry. exact Hw.
  - intros H. right. split; [reflexivity|].
    destruct url as [[|c u]|]; simpl in H; try discriminate.
    unfold extract_text_from_url, try_except, bind, call, logger, raise, ret
      in H.
    simpl in H.
    destruct (urlparse env (String c u)) as [msg|[scheme netloc]] eqn:Hp;
      simpl in H; [discriminate|].
    destruct scheme as [|sc scheme]; simpl in H; [discriminate|].
    destruct netloc as [|nc netloc]; simpl in H; [discriminate|].
    destruct (web_load env (String c u)) as [msg|[|d0 rest]] eqn:Hl;
      simpl in H; try discriminate.
    injection H as <- <- <-.
    split; [reflexivity|].
    exists (String c u), (String sc scheme), (String nc netloc), d0, rest.
    repeat (split; [first [reflexivity|discriminate|assumption]|]).
    reflexivity.
Qed.

End Extraction.

(* ===================================================================== *)
(** ** What the answer is made of, by strategy *)
(* ===================================================================== *)

Section Strategies.

Variable env : Env.

Lemma ask_question_Return request token w resp :
  snd (ask_question env request token w) = Return resp ->
  exists ui r docs,
    snd (verify_token env token w) = Return ui
    /\ retriever (session_of w (info_user_id ui)) = Some r
    /\ (exists w1,
          snd (run_chain env (rag_type request) r
                 (llm (session_of w (info_user_id ui)))
                 (Py.strip (question request)) w1)
          = Return (answer resp))
    /\ get_relevant_documents env r (Py.strip (question request)) = Ok docs
    /\ sources resp = map preview (firstn 3 docs).
Proof.
  intros Hr.
  destruct (verify_token_cases env token w) as [(ui & E)|(d & E)].
  2:{ unfold ask_question, bind in Hr. rewrite E in Hr. discriminate. }
  destruct (ask_question_run env request token w ui) as (w1 & _ & Hdb & Hrun).
  { rewrite E. reflexivity. }
  rewrite Hrun in *.
  destruct (retriever (session_of w (info_user_id ui))) as [r|] eqn:Hret;
    [|discriminate].
  unfold try_except in *.
  pose proof (ask_answer_spec env ui (session_of w (info_user_id ui)) r request
                w1) as Hspec.
  destruct (ask_answer env ui (session_of w (info_user_id ui)) r request w1)
    as [w2 [e|resp']]; simpl in Hr, Hspec |- *; [discriminate|].
  injection Hr as ->.
  destruct Hspec as (_ & docs & d & Hchain & Hdocs & Hsrc & _).
  exists ui, r, docs. split; [rewrite E; reflexivity|].
  split; [exact Hret|]. split; [exists w1; exact Hchain|].
  split; assumption.
Qed.

(** X24.  What a HyDE answer is made of.  When [ask_question] returns for
    the tag ["hyde"], the model was first asked for a hypothetical passage,
    the context of the answer was retrieved with that passage and not with
    the question, and the answer is the model's reply to the HyDE answer
    prompt over that context; the sources of the response are nevertheless
    previews of what the retriever returns for the question itself. *)
Theorem hyde_answer_and_sources (request : QuestionRequest)
  (token : option string) (w : World) (resp : AnswerResponse) :
  rag_type request = "hyde"%string ->
  snd (ask_question env request token w) = Return resp ->
  exists ui r hypothetical passage_docs question_docs,
    snd (verify_token env token w) = Return ui
    /\ retriever (session_of w (info_user_id ui)) = Some r
    /\ llm_invoke env (llm (session_of w (info_user_id ui)))
         (HyDERAG.hyde_template (Py.strip (question request)))
       = Ok hypothetical
    /\ get_relevant_documents env r hypothetical = Ok passage_docs
    /\ llm_invoke env (llm (session_of w (info_user_id ui)))
         (HyDERAG.template (format_docs passage_docs)
            (Py.strip (question request)))
       = Ok (answer resp)
    /\ get_relevant_documents env r (Py.strip (question request))
       = Ok question_docs
    /\ sources resp = map preview (firstn 3 question_docs).
Proof.
  intros Htag Hr.
  destruct (ask_question_Return request token w resp Hr)
    as (ui & r & docs & Hv & Hret & (w1 & Hchain) & Hdocs & Hsrc).
  rewrite Htag in Hchain. unfold run_chain in Hchain. simpl in Hchain.
  unfold HyDERAG.build_chain, bind, call, logger in Hchain.
  destruct (llm_invoke env _ (HyDERAG.hyde_template _)) as [m|hyp] eqn:Hh;
    simpl in Hchain; [discriminate|].
  destruct (get_relevant_documents env r hyp) as [m|pd] eqn:Hp;
    simpl in Hchain; [discriminate|].
  destruct (llm_invoke env _ (HyDERAG.template _ _)) as [m|a] eqn:Ha;
    simpl in Hchain; [discriminate|].
  injection Hchain as Hans. subst a.
  exists ui, r, hyp, pd, docs.
  repeat (split; [assumption|]). assumption.
Qed.


End Strategies.

(* ===================================================================== *)
(** ** The further statements at the sample data *)
(* ===================================================================== *)

(** X3 at the sample registration: the token ["u"] it returns verifies as
    user 2 at time 20. *)
Lemma register_token_validates_witness :
  token_urlsafe sample_auth <> ""%string
  /\ snd (register sample_env sample_auth sample_registration sample_world)
     = Return {| auth_token := "u"; auth_username := "bob";
                 auth_email := "b@x.com";
                 auth_message := "Đăng ký thành công!" |}
  /\ snd (verify_token (at_time 20 sample_env) (Some "u"%string)
            registered_world)
     = Return {| info_user_id := 2; info_username := "bob";
                 info_email := "b@x.com" |}.
Proof.
  split; [discriminate|]. split; [reflexivity|].
  exact (register_token_validates sample_env sample_auth sample_registration
           sample_world
           {| auth_token := "u"; auth_username := "bob";
              auth_email := "b@x.com";
              auth_message := "Đăng ký thành công!" |}
           (at_time 20 sample_env)
           ltac:(discriminate) eq_refl).
Defined.

Lemma registered_world_ids :
  List.NoDup (map users_id (tbl_users (db registered_world))).
Proof.
  change (List.NoDup [1; 2]).
  constructor; [intros [H|[]]; discriminate|].
  constructor; [intros []|constructor].
Qed.

(** X4 at a login after the sample registration: the token ["v"] verifies
    as bob. *)
Lemma login_token_validates_witness :
  List.NoDup (map users_id (tbl_users (db registered_world)))
  /\ snd (login sample_env second_auth bob_login registered_world)
     = Return {| auth_token := "v"; auth_username := "bob";
                 auth_email := "b@x.com";
                 auth_message := "Đăng nhập thành công!" |}
  /\ exists uid,
       snd (verify_token (at_time 20 sample_env) (Some "v"%string)
              (fst (login sample_env second_auth bob_login registered_world)))
       = Return {| info_user_id := uid; info_username := "bob";
                   info_email := "b@x.com" |}.
Proof.
  split; [exact registered_world_ids|]. split; [reflexivity|].
  exact (login_token_validates sample_env second_auth bob_login
           registered_world
           {| auth_token := "v"; auth_username := "bob";
              auth_email := "b@x.com";
              auth_message := "Đăng nhập thành công!" |}
           (at_time 20 sample_env)
           registered_world_ids ltac:(discriminate) eq_refl).
Defined.

(** X5 at the sample world: the token ["t"] still verifies after the
    sample registration. *)
Lemma issued_tokens_stay_valid_witness :
  snd (verify_token sample_env (Some "t"%string) sample_world) = Return alice
  /\ snd (verify_token sample_env (Some "t"%string) registered_world)
     = Return alice.
Proof.
  split; [reflexivity|].
  exact (proj2 (issued_tokens_stay_valid sample_env sample_auth sample_world
                  (Some "t"%string) sample_env alice eq_refl)
           sample_registration
           {| auth_token := "u"; auth_username := "bob";
              auth_email := "b@x.com";
              auth_message := "Đăng ký thành công!" |}
           (fun s Hs => proj2 (proj2 (proj2 sample_db_wf) s Hs)) eq_refl).
Defined.

(** X6 at the sample registration: logging out ["t"] leaves ["u"] as it
    was. *)
Lemma logout_keeps_other_tokens_witness :
  Some "u"%string <> Some "t"%string
  /\ snd (verify_token sample_env (Some "u"%string)
            (fst (logout sample_env (Some "t"%string) registered_world)))
     = snd (verify_token sample_env (Some "u"%string) registered_world).
Proof.
  split; [discriminate|].
  exact (logout_keeps_other_tokens sample_env (Some "t"%string)
           (Some "u"%string) registered_world sample_env
           ltac:(discriminate)).
Defined.

Lemma sample_sessions_not_v s :
  In s (tbl_sessions (db sample_world)) ->
  sessions_token s <> token_urlsafe second_auth.
Proof. intros [<-|[]]. discriminate. Qed.

(** X7 at the sample registration: bob can log in with his password. *)
Lemma register_then_login_witness :
  snd (register sample_env sample_auth sample_registration sample_world)
  = Return {| auth_token := "u"; auth_username := "bob";
              auth_email := "b@x.com";
              auth_message := "Đăng ký thành công!" |}
  /\ snd (login (at_time 20 sample_env) second_auth bob_login
            registered_world)
     = Return {| auth_token := "v"; auth_username := "bob";
                 auth_email := "b@x.com";
                 auth_message := "Đăng nhập thành công!" |}.
Proof.
  split; [reflexivity|].
  exact (register_then_login sample_env sample_auth sample_registration
           sample_world
           {| auth_token := "u"; auth_username := "bob";
              auth_email := "b@x.com";
              auth_message := "Đăng ký thành công!" |}
           (at_time 20 sample_env) second_auth
           eq_refl eq_refl (fun _ => eq_refl) ltac:(discriminate)
           sample_sessions_not_v).
Defined.

Lemma sample_users_unique : users_unique (db sample_world).
Proof.
  split; (constructor; [intros []|constructor]).
Qed.

(** X8 at the sample world: the constraints hold after the sample
    registration. *)
Lemma auth_handlers_keep_constraints_witness :
  db_wf (db sample_world) /\ users_unique (db sample_world)
  /\ token_urlsafe sample_auth <> ""%string
  /\ db_wf (db registered_world) /\ users_unique (db registered_world).
Proof.
  split; [exact sample_db_wf|]. split; [exact sample_users_unique|].
  split; [discriminate|].
  exact (proj1 (auth_handlers_keep_constraints sample_env sample_auth
                  sample_world sample_db_wf sample_users_unique
                  ltac:(discriminate))
           sample_registration).
Defined.

(** X10 at the sample upload. *)
Lemma upload_succeeds_when_collaborators_do_witness :
  snd (upload_extract sample_env alice (Some sample_file) None sample_world)
  = Return (sample_text, "notes.txt"%string, "file"%string)
  /\ (50 <= String.length sample_text)%nat
  /\ exists resp,
       snd (upload_document sample_env (Some sample_file) None
              (Some "t"%string) sample_world)
       = Return resp.
Proof.
  split; [reflexivity|]. split; [vm_compute; lia|].
  exact (upload_succeeds_when_collaborators_do sample_env (Some sample_file)
           None (Some "t"%string) sample_world alice sample_text
           "notes.txt" "file"
           [new_document sample_text "notes.txt" "file"] (ChromaStore 1)
           eq_refl eq_refl ltac:(vm_compute; lia) eq_refl eq_refl
           eq_refl eq_refl).
Defined.

(** X11 at the sample world: the registry is well-shaped before and after
    the sample upload. *)
Lemma handlers_keep_session_invariant_witness :
  registry_inv sample_world /\ registry_inv ready_world.
Proof.
  split; [apply registry_inv_empty|].
  exact (proj1 (handlers_keep_session_invariant sample_env sample_world
                  (registry_inv_empty _ _))
           (Some sample_file) None (Some "t"%string)).
Defined.

Lemma ready_world_inv : registry_inv ready_world.
Proof. apply upload_document_registry_inv, registry_inv_empty. Qed.

(** X12 after the sample upload: the status is ["ready"] and a question is
    not refused for want of a document. *)
Lemma status_ready_iff_ask_possible_witness :
  registry_inv ready_world
  /\ snd (get_status sample_env (fun _ => 1%nat) (Some "t"%string)
            ready_world)
     = Return {| status_status := "ready";
                 status_message := "System ready to answer questions";
                 status_document_count := 1;
                 status_chunk_count := 1;
                 status_source_name := Some "notes.txt"%string;
                 status_source_type := Some "file"%string |}
  /\ ("ready"%string = "ready"%string <->
      snd (ask_question sample_env sample_question (Some "t"%string)
             ready_world)
      <> Raise no_document_uploaded)
  /\ (1 <= 1)%nat.
Proof.
  split; [exact ready_world_inv|]. split; [reflexivity|].
  exact (status_ready_iff_ask_possible sample_env ready_world
           (fun _ => 1%nat) sample_question (Some "t"%string) alice
           {| status_status := "ready";
              status_message := "System ready to answer questions";
              status_document_count := 1;
              status_chunk_count := 1;
              status_source_name := Some "notes.txt"%string;
              status_source_type := Some "file"%string |}
           ready_world_inv eq_refl eq_refl).
Defined.

(** X16 after an upload that failed at the INSERT into [documents]: the
    question is answered with status 500 and nothing is stored. *)
Lemma ask_needs_document_id_witness :
  document_id (session_of half_uploaded_world 1) = None
  /\ retriever (session_of half_uploaded_world 1) <> None
  /\ (exists msg,
        snd (ask_question sample_env sample_question (Some "t"%string)
               half_uploaded_world)
        = Raise (HTTPException 500 ("Question failed: " ++ msg)%string))
  /\ tbl_conversations
       (db (fst (ask_question sample_env sample_question (Some "t"%string)
                   half_uploaded_world)))
     = tbl_conversations (db half_uploaded_world).
Proof.
  split; [reflexivity|]. split; [vm_compute; discriminate|].
  exact (ask_needs_document_id sample_env sample_question (Some "t"%string)
           half_uploaded_world alice eq_refl eq_refl
           ltac:(vm_compute; discriminate)).
Defined.

(** X17 with a model that refuses every prompt. *)
Lemma multi_query_generation_failure_witness :
  llm_invoke (llm_failing "quota" sample_env)
    (llm (session_of ready_world 1))
    (MultiQueryRAG.multi_query_template (Py.strip (question sample_question)))
  = Error "quota"%string
  /\ snd (ask_question (llm_failing "quota" sample_env) sample_question
            (Some "t"%string) ready_world)
     = Raise (HTTPException 500 "Question failed: quota")
  /\ tbl_conversations
       (db (fst (ask_question (llm_failing "quota" sample_env)
                   sample_question (Some "t"%string) ready_world)))
     = tbl_conversations (db ready_world).
Proof.
  split; [reflexivity|].
  exact (proj2 (multi_query_generation_failure
                  (llm_failing "quota" sample_env) sample_question
                  (Some "t"%string) ready_world alice
                  {| retriever_vectorstore := ChromaStore 1; search_k := 4 |}
                  "quota" eq_refl eq_refl eq_refl eq_refl)).
Defined.

(** X18 at the sample upload: the status that follows names the upload. *)
Lemma upload_then_status_and_ask_witness :
  snd (upload_document sample_env (Some sample_file) None (Some "t"%string)
         sample_world)
  = Return sample_upload_response
  /\ exists st,
       snd (get_status sample_env (fun _ => 1%nat) (Some "t"%string)
              ready_world)
       = Return st
       /\ status_status st = "ready"%string
       /\ status_document_count st = 1%nat
       /\ status_source_name st = Some "notes.txt"%string
       /\ status_source_type st = Some "file"%string.
Proof.
  split; [reflexivity|].
  exact (proj1 (upload_then_status_and_ask sample_env (Some sample_file) None
                  (Some "t"%string) sample_world
                  sample_upload_response
                  eq_refl)
           (fun _ => 1%nat)).
Defined.

(** X19 at the sample model, which answers ["42"]. *)
Lemma generated_queries_are_clean_witness :
  snd (MultiQueryRAG.generate_queries sample_env
         (llm (session_of sample_world 1)) "why" sample_world)
  = Return ["42"%string]
  /\ forall q, In q ["42"%string] ->
       q <> ""%string /\ Py.strip q = q /\ ~ In (ascii_of_nat 10) (chars q).
Proof.
  split; [reflexivity|].
  exact (proj1 (generated_queries_are_clean sample_env
                  (llm (session_of sample_world 1)) "why" sample_world
                  ["42"%string] eq_refl)).
Defined.

(** X9 at the sample upload: the session and the [documents] table hold the
    new document. *)
Lemma upload_success_replaces_corpus_witness :
  snd (upload_document sample_env (Some sample_file) None (Some "t"%string)
         sample_world)
  = Return sample_upload_response
  /\ exists ui text name kind splits,
       snd (verify_token sample_env (Some "t"%string) sample_world)
       = Return ui
       /\ snd (upload_extract sample_env ui (Some sample_file) None
                 sample_world)
          = Return (text, name, kind)
       /\ documents (session_of ready_world (info_user_id ui))
          = [new_document text name kind]
       /\ tbl_documents (db ready_world)
          = tbl_documents (db sample_world)
            ++ [uploaded_row (db sample_world) (info_user_id ui) text name
                  kind splits]
       /\ upload_source sample_upload_response = name.
Proof.
  split; [reflexivity|].
  destruct (upload_success_replaces_corpus sample_env (Some sample_file) None
              (Some "t"%string) sample_world sample_upload_response eq_refl)
    as (ui & text & name & kind & splits & vs & Hv & Hx & _ & _ & Hs & _
        & Hd & _ & _ & _ & Hn & _).
  exists ui, text, name, kind, splits.
  split; [exact Hv|]. split; [exact Hx|]. split; [exact (proj1 Hs)|].
  split; [exact Hd|exact Hn].
Defined.

(** X15 at the sample question: the stored row names user 1 and the
    document of the sample upload. *)
Lemma ask_records_caller_and_document_witness :
  snd (ask_question sample_env sample_question (Some "t"%string) ready_world)
  = Return sample_answer
  /\ exists ui d,
       snd (verify_token sample_env (Some "t"%string) ready_world) = Return ui
       /\ document_id (session_of ready_world (info_user_id ui)) = Some d
       /\ tbl_conversations
            (db (fst (ask_question sample_env sample_question
                        (Some "t"%string) ready_world)))
          = tbl_conversations (db ready_world)
            ++ [ {| conversations_id :=
                      next_rowid
                        (map conversations_id
                           (tbl_conversations (db ready_world)));
                    conversations_user_id := info_user_id ui;
                    conversations_document_id := d;
                    conversations_question := "why?";
                    conversations_answer := "42";
                    conversations_rag_type := "multi_query" |} ].
Proof.
  split; [reflexivity|].
  exact (ask_records_caller_and_document sample_env sample_question
           (Some "t"%string) ready_world sample_answer eq_refl).
Defined.

(** X23 at the sample upload: the text comes from the named, non-empty
    file. *)
Lemma upload_extract_source_witness :
  snd (upload_extract sample_env alice (Some sample_file) None sample_world)
  = Return (sample_text, "notes.txt"%string, "file"%string)
  /\ exists f,
       file_and_filename (Some sample_file) = Some (f, "notes.txt"%string)
       /\ file_content f <> []
       /\ snd (extract_text_from_file sample_env (file_content f) "notes.txt"
                 sample_world)
          = Return sample_text.
Proof.
  split; [reflexivity|].
  destruct (upload_extract_source sample_env alice (Some sample_file) None
              sample_world sample_text "notes.txt" "file" eq_refl)
    as [(f & Hf & Hne & _ & Hx)|(Hnone & _)].
  - exists f. split; [exact Hf|]. split; [exact Hne|exact Hx].
  - vm_compute in Hnone. discriminate Hnone.
Defined.

(** X24 at the sample question with the HyDE tag. *)
Lemma hyde_answer_and_sources_witness :
  snd (ask_question sample_env hyde_question (Some "t"%string) ready_world)
  = Return sample_answer
  /\ exists ui r hypothetical passage_docs question_docs,
       snd (verify_token sample_env (Some "t"%string) ready_world) = Return ui
       /\ retriever (session_of ready_world (info_user_id ui)) = Some r
       /\ llm_invoke sample_env (llm (session_of ready_world (info_user_id ui)))
            (HyDERAG.hyde_template "why?")
          = Ok hypothetical
       /\ get_relevant_documents sample_env r hypothetical = Ok passage_docs
       /\ llm_invoke sample_env
            (llm (session_of ready_world (info_user_id ui)))
            (HyDERAG.template (format_docs passage_docs) "why?")
          = Ok "42"%string
       /\ get_relevant_documents sample_env r "why?" = Ok question_docs
       /\ sources sample_answer = map preview (firstn 3 question_docs).
Proof.
  split; [reflexivity|].
  exact (hyde_answer_and_sources sample_env hyde_question (Some "t"%string)
           ready_world sample_answer eq_refl eq_refl).
Defined.

